(** * NeuroSync: the decision logic of [revisaoresidencia.c]

    A shallow embedding of the stateful core of the biofeedback trainer:
    the threshold store, the cognitive classifier, the button callback
    with its debounce, the four mode functions of the main loop and the
    training session machine.

    Conventions of the embedding.
    - A C [float] is an IEEE-754 binary32 value, [spec_float] with
      precision 24 and maximal exponent 128; arithmetic and comparisons
      are the computable ones of [SpecFloat].
    - [uint32_t] and [uint8_t] are integers of [Z] reduced modulo 2^32 and
      2^8 at every operation that can leave the range.
    - The globals of the program are the fields of one record, [Sistema];
      every function of the source that writes a global takes the record
      and returns the new one.
    - What the hardware delivers (clock reads, button levels, the two
      sensor levels) is an explicit argument, a value of [uint32_t] for
      a clock read.  The calls of [time_us_32()] that one run of a
      function can make have distinct fields in [Entrada], so no
      assumption is made on how far the clock moves inside one function.
    - A step of the system is one run of the interrupt callback or one
      turn of the main loop; states are observed between steps.
    - Display, LED matrix and sensor code write no global that the
      logic reads back; they are modelled apart, as functions of the
      state.  The buzzer calls are left out. *)

From Stdlib Require Import ZArith List Bool Lia.
From Stdlib Require Import SpecFloat.
Import ListNotations.
Open Scope Z_scope.

(** ** Machine numbers *)

Module F32.

Definition float := spec_float.

Definition prec : Z := 24.
Definition emax : Z := 128.

(** The binary32 value nearest to [m * 2^e]. *)
Definition dyadic (m e : Z) : float := binary_normalize prec emax m e false.

Definition of_Z (m : Z) : float := dyadic m 0.

Definition add (x y : float) : float := SFadd prec emax x y.
Definition sub (x y : float) : float := SFsub prec emax x y.
Definition div (x y : float) : float := SFdiv prec emax x y.

(** [x < y], [x <= y] of C; [x > y] is [lt y x], [x >= y] is [le y x]. *)
Definition lt (x y : float) : bool := SFltb x y.
Definition le (x y : float) : bool := SFleb x y.
Definition gt (x y : float) : bool := SFltb y x.
Definition ge (x y : float) : bool := SFleb y x.

Definition zero : float := S754_zero false.

(** Structural equality, used to search finite tables of values. *)
Definition same (x y : float) : bool :=
  match x, y with
  | S754_zero a, S754_zero b => Bool.eqb a b
  | S754_infinity a, S754_infinity b => Bool.eqb a b
  | S754_nan, S754_nan => true
  | S754_finite a m e, S754_finite b n f =>
      Bool.eqb a b && Pos.eqb m n && Z.eqb e f
  | _, _ => false
  end.

End F32.

Definition float : Set := F32.float.

Declare Scope f32_scope.
Delimit Scope f32_scope with f32.
Infix "+" := F32.add : f32_scope.
Infix "-" := F32.sub : f32_scope.
Infix "/" := F32.div : f32_scope.
Infix "<" := F32.lt : f32_scope.
Infix "<=" := F32.le : f32_scope.
Infix ">" := F32.gt : f32_scope.
Infix ">=" := F32.ge : f32_scope.

(** Unsigned wrap-around. *)
Definition u32 (x : Z) : Z := x mod 2 ^ 32.
Definition u8 (x : Z) : Z := x mod 2 ^ 8.

(** ** Constants of the source *)

Definition BUTTON_NEXT : Z := 5.
Definition BUTTON_BACK : Z := 6.
Definition BUTTON_SET : Z := 22.
Definition NUM_PIXELS : Z := 25.
Definition DEBOUNCE_DELAY_MS : Z := 200.

(** ** The globals *)

(** [EstadoCognitivo]: the two sensor levels.  The four simulated band
    powers are written by [simular_ondas_cerebrais] and only printed. *)
Record EstadoCognitivo := mkEstado {
  atencao : float;
  relaxamento : float
}.

(** The four threshold globals. *)
Record Limiares := mkLimiares {
  limiar_atencao_baixo : float;
  limiar_atencao_alto : float;
  limiar_relaxamento_baixo : float;
  limiar_relaxamento_alto : float
}.

Record Estatisticas := mkEstatisticas {
  soma_atencao : float;
  soma_relaxamento : float;
  max_atencao : float;
  max_relaxamento : float;
  amostras : Z;              (* uint32_t *)
  tempo_inicio : Z;          (* uint32_t *)
  tempo_ultimo_treino : Z;   (* uint32_t *)
  sessoes_concluidas : Z     (* uint8_t *)
}.

Record DadosTreinamento := mkTreinamento {
  nivel_atual : Z;      (* uint8_t *)
  nivel_maximo : Z;     (* uint8_t *)
  duracao : Z;          (* uint32_t, seconds *)
  objetivo : Z;         (* uint8_t: 0 attention, 1 relaxation, 2 flow *)
  status : Z;           (* uint8_t: 0 not started, 1 running, 2 done, 3 failed *)
  inicio : Z;           (* uint32_t, seconds *)
  pontuacao : Z         (* uint32_t *)
}.

Record Sistema := mkSistema {
  menu_index : Z;
  in_set_mode : bool;
  current_param : Z;
  last_button_time : Z;      (* uint32_t, milliseconds *)
  estado_atual : EstadoCognitivo;
  limiares : Limiares;
  stats : Estatisticas;
  treinamento : DadosTreinamento
}.

(** Initial values of the thresholds (lines 97-100). *)
Definition limiares_iniciais : Limiares :=
  mkLimiares (F32.of_Z 30) (F32.of_Z 70) (F32.of_Z 3) (F32.of_Z 7).

(** Field writes. *)
Definition com_atencao_baixo v l :=
  mkLimiares v (limiar_atencao_alto l) (limiar_relaxamento_baixo l) (limiar_relaxamento_alto l).
Definition com_atencao_alto v l :=
  mkLimiares (limiar_atencao_baixo l) v (limiar_relaxamento_baixo l) (limiar_relaxamento_alto l).
Definition com_relaxamento_baixo v l :=
  mkLimiares (limiar_atencao_baixo l) (limiar_atencao_alto l) v (limiar_relaxamento_alto l).
Definition com_relaxamento_alto v l :=
  mkLimiares (limiar_atencao_baixo l) (limiar_atencao_alto l) (limiar_relaxamento_baixo l) v.

Definition com_status v t :=
  mkTreinamento (nivel_atual t) (nivel_maximo t) (duracao t) (objetivo t) v (inicio t) (pontuacao t).
Definition com_nivel_atual v t :=
  mkTreinamento v (nivel_maximo t) (duracao t) (objetivo t) (status t) (inicio t) (pontuacao t).
Definition com_nivel_maximo v t :=
  mkTreinamento (nivel_atual t) v (duracao t) (objetivo t) (status t) (inicio t) (pontuacao t).
Definition com_duracao v t :=
  mkTreinamento (nivel_atual t) (nivel_maximo t) v (objetivo t) (status t) (inicio t) (pontuacao t).
Definition com_objetivo v t :=
  mkTreinamento (nivel_atual t) (nivel_maximo t) (duracao t) v (status t) (inicio t) (pontuacao t).
Definition com_inicio v t :=
  mkTreinamento (nivel_atual t) (nivel_maximo t) (duracao t) (objetivo t) (status t) v (pontuacao t).
Definition com_pontuacao v t :=
  mkTreinamento (nivel_atual t) (nivel_maximo t) (duracao t) (objetivo t) (status t) (inicio t) v.

Definition com_sessoes_concluidas v e :=
  mkEstatisticas (soma_atencao e) (soma_relaxamento e) (max_atencao e) (max_relaxamento e)
    (amostras e) (tempo_inicio e) (tempo_ultimo_treino e) v.
Definition com_tempo_ultimo_treino v e :=
  mkEstatisticas (soma_atencao e) (soma_relaxamento e) (max_atencao e) (max_relaxamento e)
    (amostras e) (tempo_inicio e) v (sessoes_concluidas e).

Definition com_menu_index v s :=
  mkSistema v (in_set_mode s) (current_param s) (last_button_time s)
    (estado_atual s) (limiares s) (stats s) (treinamento s).
Definition com_in_set_mode v s :=
  mkSistema (menu_index s) v (current_param s) (last_button_time s)
    (estado_atual s) (limiares s) (stats s) (treinamento s).
Definition com_current_param v s :=
  mkSistema (menu_index s) (in_set_mode s) v (last_button_time s)
    (estado_atual s) (limiares s) (stats s) (treinamento s).
Definition com_last_button_time v s :=
  mkSistema (menu_index s) (in_set_mode s) (current_param s) v
    (estado_atual s) (limiares s) (stats s) (treinamento s).
Definition com_estado_atual v s :=
  mkSistema (menu_index s) (in_set_mode s) (current_param s) (last_button_time s)
    v (limiares s) (stats s) (treinamento s).
Definition com_limiares v s :=
  mkSistema (menu_index s) (in_set_mode s) (current_param s) (last_button_time s)
    (estado_atual s) v (stats s) (treinamento s).
Definition com_stats v s :=
  mkSistema (menu_index s) (in_set_mode s) (current_param s) (last_button_time s)
    (estado_atual s) (limiares s) v (treinamento s).
Definition com_treinamento v s :=
  mkSistema (menu_index s) (in_set_mode s) (current_param s) (last_button_time s)
    (estado_atual s) (limiares s) (stats s) v.

Definition com_soma_atencao v e :=
  mkEstatisticas v (soma_relaxamento e) (max_atencao e) (max_relaxamento e)
    (amostras e) (tempo_inicio e) (tempo_ultimo_treino e) (sessoes_concluidas e).
Definition com_soma_relaxamento v e :=
  mkEstatisticas (soma_atencao e) v (max_atencao e) (max_relaxamento e)
    (amostras e) (tempo_inicio e) (tempo_ultimo_treino e) (sessoes_concluidas e).
Definition com_max_atencao v e :=
  mkEstatisticas (soma_atencao e) (soma_relaxamento e) v (max_relaxamento e)
    (amostras e) (tempo_inicio e) (tempo_ultimo_treino e) (sessoes_concluidas e).
Definition com_max_relaxamento v e :=
  mkEstatisticas (soma_atencao e) (soma_relaxamento e) (max_atencao e) v
    (amostras e) (tempo_inicio e) (tempo_ultimo_treino e) (sessoes_concluidas e).
Definition com_amostras v e :=
  mkEstatisticas (soma_atencao e) (soma_relaxamento e) (max_atencao e) (max_relaxamento e)
    v (tempo_inicio e) (tempo_ultimo_treino e) (sessoes_concluidas e).
Definition com_tempo_inicio v e :=
  mkEstatisticas (soma_atencao e) (soma_relaxamento e) (max_atencao e) (max_relaxamento e)
    (amostras e) v (tempo_ultimo_treino e) (sessoes_concluidas e).

(** A write to a field of the global [treinamento] or [stats]. *)
Definition no_treinamento (f : DadosTreinamento -> DadosTreinamento) (s : Sistema) : Sistema :=
  com_treinamento (f (treinamento s)) s.
Definition nas_stats (f : Estatisticas -> Estatisticas) (s : Sistema) : Sistema :=
  com_stats (f (stats s)) s.

(** ** Float constants of the source *)

Definition c5 : float := F32.of_Z 5.          (* 5.0f *)
Definition c95 : float := F32.of_Z 95.        (* 95.0f *)
Definition c100 : float := F32.of_Z 100.      (* 100.0f *)
Definition c0_5 : float := F32.dyadic 1 (-1). (* 0.5f *)
Definition c9_5 : float := F32.dyadic 19 (-1). (* 9.5f *)
Definition c10 : float := F32.of_Z 10.        (* 10.0f *)

(** ** What one run of a function reads from the hardware *)

Record Entrada := mkEntrada {
  sensor_atencao : float;      (* obter_nivel_atencao(adc_read()) *)
  sensor_relaxamento : float;  (* obter_nivel_relaxamento(adc_read()) *)
  botao_next : bool;           (* gpio_get(BUTTON_NEXT) == 0 *)
  botao_back : bool;           (* gpio_get(BUTTON_BACK) == 0 *)
  botao_set : bool;            (* gpio_get(BUTTON_SET) == 0 *)
  us_next : Z;                 (* time_us_32() at lines 627, 764 *)
  us_back : Z;                 (* time_us_32() at line 669 *)
  us_set : Z;                  (* time_us_32() at lines 776, 846, 860, 948 *)
  us_inicio : Z;               (* time_us_32() at line 782 *)
  us_conclusao : Z;            (* time_us_32() at line 821 *)
  us_limite : Z;               (* time_us_32() at line 829 *)
  us_limpeza : Z               (* time_us_32() at line 960 *)
}.

(** [time_us_32() / 1000] and [time_us_32() / 1000000], on the unsigned
    value of a clock read. *)
Definition ms (us : Z) : Z := us / 1000.
Definition seg (us : Z) : Z := us / 1000000.

(** The test of every polled button:
    [current_time - last_button_time > DEBOUNCE_DELAY_MS]. *)
Definition passou_debounce (us : Z) (s : Sistema) : bool :=
  DEBOUNCE_DELAY_MS <? u32 (ms us - last_button_time s).

(** ** Parameter store: the two switches of [executar_modo_configuracao] *)

Section Ajustes.
Local Open Scope f32_scope.

(** Lines 632-663: the switch run on an accepted NEXT press. *)
Definition aumentar (p : Z) (l : Limiares) : Limiares :=
  if (p =? 0)%Z then
    let l := com_atencao_baixo (limiar_atencao_baixo l + c5) l in
    let l := if limiar_atencao_baixo l > limiar_atencao_alto l - c5
             then com_atencao_baixo (limiar_atencao_alto l - c5) l else l in
    if limiar_atencao_baixo l > c95 then com_atencao_baixo c95 l else l
  else if (p =? 1)%Z then
    let l := com_atencao_alto (limiar_atencao_alto l + c5) l in
    if limiar_atencao_alto l > c100 then com_atencao_alto c100 l else l
  else if (p =? 2)%Z then
    let l := com_relaxamento_baixo (limiar_relaxamento_baixo l + c0_5) l in
    let l := if limiar_relaxamento_baixo l > limiar_relaxamento_alto l - c0_5
             then com_relaxamento_baixo (limiar_relaxamento_alto l - c0_5) l else l in
    if limiar_relaxamento_baixo l > c9_5 then com_relaxamento_baixo c9_5 l else l
  else if (p =? 3)%Z then
    let l := com_relaxamento_alto (limiar_relaxamento_alto l + c0_5) l in
    if limiar_relaxamento_alto l > c10 then com_relaxamento_alto c10 l else l
  else l.

(** Lines 674-699: the switch run on an accepted BACK press. *)
Definition diminuir (p : Z) (l : Limiares) : Limiares :=
  if (p =? 0)%Z then
    let l := com_atencao_baixo (limiar_atencao_baixo l - c5) l in
    if limiar_atencao_baixo l < c5 then com_atencao_baixo c5 l else l
  else if (p =? 1)%Z then
    let l := com_atencao_alto (limiar_atencao_alto l - c5) l in
    if limiar_atencao_alto l < limiar_atencao_baixo l + c5
    then com_atencao_alto (limiar_atencao_baixo l + c5) l else l
  else if (p =? 2)%Z then
    let l := com_relaxamento_baixo (limiar_relaxamento_baixo l - c0_5) l in
    if limiar_relaxamento_baixo l < c0_5 then com_relaxamento_baixo c0_5 l else l
  else if (p =? 3)%Z then
    let l := com_relaxamento_alto (limiar_relaxamento_alto l - c0_5) l in
    if limiar_relaxamento_alto l < limiar_relaxamento_baixo l + c0_5
    then com_relaxamento_alto (limiar_relaxamento_baixo l + c0_5) l else l
  else l.

End Ajustes.

(** Lines 626-702 of [executar_modo_configuracao]: NEXT, then BACK, each
    behind the shared debounce stamp. *)
Definition executar_modo_configuracao (e : Entrada) (s : Sistema) : Sistema :=
  let s :=
    if botao_next e && passou_debounce (us_next e) s then
      let s := com_last_button_time (ms (us_next e)) s in
      com_limiares (aumentar (current_param s) (limiares s)) s
    else s in
  if botao_back e && passou_debounce (us_back e) s then
    let s := com_last_button_time (ms (us_back e)) s in
    com_limiares (diminuir (current_param s) (limiares s)) s
  else s.

(** One adjustment request: which switch, on which parameter index. *)
Inductive Ajuste :=
| Aumentar (p : Z)
| Diminuir (p : Z).

Definition ajustar (a : Ajuste) (l : Limiares) : Limiares :=
  match a with
  | Aumentar p => aumentar p l
  | Diminuir p => diminuir p l
  end.

Definition ajustar_todos (ops : list Ajuste) (l : Limiares) : Limiares :=
  fold_left (fun l a => ajustar a l) ops l.

(** ** Cognitive classifier *)

Section Classificador.
Local Open Scope f32_scope.

(** [determinar_estado_cognitivo], lines 394-418. *)
Definition determinar_estado_cognitivo (estado : EstadoCognitivo) (l : Limiares) : Z :=
  if (atencao estado >= limiar_atencao_alto l)
     && (relaxamento estado >= limiar_relaxamento_alto l) then 4%Z
  else if (atencao estado >= limiar_atencao_alto l)
          && (relaxamento estado < limiar_relaxamento_baixo l) then 5%Z
  else if atencao estado >= limiar_atencao_alto l then 2%Z
  else if atencao estado < limiar_atencao_baixo l then 0%Z
  else if relaxamento estado >= limiar_relaxamento_alto l then 3%Z
  else 1%Z.

(** The six labels, and the reading of the codes made by the switch of
    [atualizar_display_monitoramento] (lines 430-438). *)
Inductive EstadoNome :=
| Distraido | Normal | Concentrado | Relaxado | EstadoFlow | Ansioso.

Definition estado_nome (estado_cognitivo : Z) : option EstadoNome :=
  if (estado_cognitivo =? 0)%Z then Some Distraido
  else if (estado_cognitivo =? 1)%Z then Some Normal
  else if (estado_cognitivo =? 2)%Z then Some Concentrado
  else if (estado_cognitivo =? 3)%Z then Some Relaxado
  else if (estado_cognitivo =? 4)%Z then Some EstadoFlow
  else if (estado_cognitivo =? 5)%Z then Some Ansioso
  else None.

(** The rule table as the specification words it: guards tried from the
    top, the first one that holds gives the label, [Normal] otherwise. *)
Definition Regra : Type := (EstadoCognitivo -> Limiares -> bool) * EstadoNome.

Definition regras_da_especificacao : list Regra :=
  [ (fun e l => (atencao e >= limiar_atencao_alto l)
                && (relaxamento e >= limiar_relaxamento_alto l), EstadoFlow);
    (fun e l => (atencao e >= limiar_atencao_alto l)
                && (relaxamento e < limiar_relaxamento_baixo l), Ansioso);
    (fun e l => atencao e >= limiar_atencao_alto l, Concentrado);
    (fun e l => atencao e < limiar_atencao_baixo l, Distraido);
    (fun e l => relaxamento e >= limiar_relaxamento_alto l, Relaxado) ].

Fixpoint primeira_regra (rs : list Regra) (padrao : EstadoNome)
  (e : EstadoCognitivo) (l : Limiares) : EstadoNome :=
  match rs with
  | [] => padrao
  | (guarda, nome) :: rs' =>
      if guarda e l then nome else primeira_regra rs' padrao e l
  end.

Definition classificar_especificacao (e : EstadoCognitivo) (l : Limiares) : EstadoNome :=
  primeira_regra regras_da_especificacao Normal e l.

End Classificador.

(** Readings given by their integer values. *)
Definition leitura (a r : Z) : EstadoCognitivo := mkEstado (F32.of_Z a) (F32.of_Z r).

(** ** Monitoring mode: the statistics update of lines 606-617 *)

Section Monitoramento.
Local Open Scope f32_scope.

Definition executar_modo_monitoramento (e : Entrada) (s : Sistema) : Sistema :=
  let s := com_estado_atual (mkEstado (sensor_atencao e) (sensor_relaxamento e)) s in
  let s := nas_stats (fun st => com_soma_atencao (soma_atencao st + atencao (estado_atual s)) st) s in
  let s := nas_stats (fun st => com_soma_relaxamento (soma_relaxamento st + relaxamento (estado_atual s)) st) s in
  let s := nas_stats (fun st => com_amostras (u32 (amostras st + 1)) st) s in
  let s := if atencao (estado_atual s) > max_atencao (stats s)
           then nas_stats (com_max_atencao (atencao (estado_atual s))) s else s in
  if relaxamento (estado_atual s) > max_relaxamento (stats s)
  then nas_stats (com_max_relaxamento (relaxamento (estado_atual s))) s else s.

End Monitoramento.

(** ** Training mode *)

Section Treinamento.
Local Open Scope f32_scope.

(** Lines 794-807: the switch on the objective; no case, no success. *)
Definition objetivo_atingido (s : Sistema) : bool :=
  if (objetivo (treinamento s) =? 0)%Z then
    atencao (estado_atual s) >= limiar_atencao_alto (limiares s)
  else if (objetivo (treinamento s) =? 1)%Z then
    relaxamento (estado_atual s) >= limiar_relaxamento_alto (limiares s)
  else if (objetivo (treinamento s) =? 2)%Z then
    (atencao (estado_atual s) >= limiar_atencao_alto (limiares s))
    && (relaxamento (estado_atual s) >= limiar_relaxamento_alto (limiares s))
  else false.

End Treinamento.

(** Lines 823-824 and 838-839: the session is counted and its duration kept. *)
Definition contar_sessao (s : Sistema) : Sistema :=
  let s := nas_stats (fun st => com_sessoes_concluidas (u8 (sessoes_concluidas st + 1)) st) s in
  nas_stats (com_tempo_ultimo_treino (duracao (treinamento s))) s.

(** Lines 761-790, status 0: NEXT cycles the objective, SET starts. *)
Definition preparar_treinamento (e : Entrada) (s : Sistema) : Sistema :=
  let s :=
    if botao_next e && passou_debounce (us_next e) s then
      let s := com_last_button_time (ms (us_next e)) s in
      no_treinamento (fun t => com_objetivo (Z.rem (objetivo t + 1) 3) t) s
    else s in
  if botao_set e && passou_debounce (us_set e) s then
    let s := com_last_button_time (ms (us_set e)) s in
    let s := no_treinamento (com_status 1) s in
    let s := no_treinamento (com_inicio (seg (us_inicio e))) s in
    let s := no_treinamento (com_nivel_atual 1) s in
    let s := no_treinamento (com_nivel_maximo 10) s in
    no_treinamento (com_pontuacao 0) s
  else s.

(** Lines 809-826, status 1: score, level and completion. *)
Definition pontuar (e : Entrada) (s : Sistema) : Sistema :=
  if objetivo_atingido s then
    let s := no_treinamento (fun t => com_pontuacao (u32 (pontuacao t + 1)) t) s in
    if (Z.rem (pontuacao (treinamento s)) 50 =? 0)
       && (nivel_atual (treinamento s) <? nivel_maximo (treinamento s)) then
      let s := no_treinamento (fun t => com_nivel_atual (u8 (nivel_atual t + 1)) t) s in
      if nivel_atual (treinamento s) =? nivel_maximo (treinamento s) then
        let s := no_treinamento (com_status 2) s in
        let s := no_treinamento
                   (fun t => com_duracao (u32 (seg (us_conclusao e) - inicio t)) t) s in
        contar_sessao s
      else s
    else s
  else s.

(** Lines 828-842, status 1: the five-minute limit. *)
Definition tempo_decorrido (e : Entrada) (s : Sistema) : Z :=
  u32 (seg (us_limite e) - inicio (treinamento s)).

Definition verificar_tempo_limite (e : Entrada) (s : Sistema) : Sistema :=
  let decorrido := tempo_decorrido e s in
  if 300 <=? decorrido then
    let s := if nivel_atual (treinamento s) <? nivel_maximo (treinamento s)
             then no_treinamento (com_status 3) s
             else no_treinamento (com_status 2) s in
    let s := no_treinamento (com_duracao decorrido) s in
    contar_sessao s
  else s.

(** Lines 844-854 (status 1) and 857-868 (status 2 or 3): SET goes back
    to status 0. *)
Definition voltar_ao_inicio (e : Entrada) (s : Sistema) : Sistema :=
  if botao_set e && passou_debounce (us_set e) s then
    let s := com_last_button_time (ms (us_set e)) s in
    no_treinamento (com_status 0) s
  else s.

(** [executar_modo_treinamento], lines 747-869, without the rendering. *)
Definition executar_modo_treinamento (e : Entrada) (s : Sistema) : Sistema :=
  let s := com_estado_atual (mkEstado (sensor_atencao e) (sensor_relaxamento e)) s in
  if status (treinamento s) =? 0 then preparar_treinamento e s
  else if status (treinamento s) =? 1 then
    voltar_ao_inicio e (verificar_tempo_limite e (pontuar e s))
  else if (status (treinamento s) =? 2) || (status (treinamento s) =? 3) then
    voltar_ao_inicio e s
  else s.

(** Lines 906-910, the rendering of a running session: the number of
    lit pixels.  [None] stands for the integer division by zero. *)
Definition leds_em_andamento (t : DadosTreinamento) : option Z :=
  if nivel_maximo t =? 0 then None
  else
    let leds_por_nivel := Z.quot NUM_PIXELS (nivel_maximo t) in
    let leds_acesos := leds_por_nivel * nivel_atual t in
    Some (if NUM_PIXELS <? leds_acesos then NUM_PIXELS else leds_acesos).

(** ** History mode *)

(** Lines 955-961: the seven assignments of the clearing branch. *)
Definition limpar_estatisticas (us : Z) (st : Estatisticas) : Estatisticas :=
  let st := com_soma_atencao F32.zero st in
  let st := com_soma_relaxamento F32.zero st in
  let st := com_max_atencao F32.zero st in
  let st := com_max_relaxamento F32.zero st in
  let st := com_amostras 0 st in
  let st := com_tempo_inicio (seg us) st in
  com_sessoes_concluidas 0 st.

(** Lines 946-966 of [executar_modo_historico]. *)
Definition executar_modo_historico (e : Entrada) (s : Sistema) : Sistema :=
  if botao_set e && passou_debounce (us_set e) s then
    let s := com_last_button_time (ms (us_set e)) s in
    if botao_next e then nas_stats (limpar_estatisticas (us_limpeza e)) s else s
  else s.

(** Lines 524-530 and 969-975: the two means.  The division is partial,
    [None] standing for a division by a zero sample count. *)
Definition dividir_por_amostras (soma : float) (n : Z) : option float :=
  if n =? 0 then None else Some (F32.div soma (F32.of_Z n)).

Definition calcular_medias (st : Estatisticas) : option (float * float) :=
  if 0 <? amostras st then
    match dividir_por_amostras (soma_atencao st) (amostras st),
          dividir_por_amostras (soma_relaxamento st) (amostras st) with
    | Some media_atencao, Some media_relaxamento =>
        Some (media_atencao, media_relaxamento)
    | _, _ => None
    end
  else Some (F32.zero, F32.zero).

(** ** The interrupt callback and the main loop *)

Inductive Botao := EvNext | EvBack | EvSet.

Inductive Modo := Monitoramento | Configuracao | Treinamento | Historico.

(** The modes by index, as the switch of [main] dispatches (lines 1159-1172). *)
Definition modo_do_indice (i : Z) : option Modo :=
  if i =? 0 then Some Monitoramento
  else if i =? 1 then Some Configuracao
  else if i =? 2 then Some Treinamento
  else if i =? 3 then Some Historico
  else None.

Section Interrupcao.

(** The event mask of the SDK header, which is not part of the source file. *)
Variable GPIO_IRQ_EDGE_FALL : Z.

Definition borda_de_descida (events : Z) : bool :=
  negb (Z.land events GPIO_IRQ_EDGE_FALL =? 0).

(** Lines 1015-1045: the three branches behind the debounce test. *)
Definition tratar_botao (gpio events : Z) (s : Sistema) : Sistema * option Botao :=
  if (gpio =? BUTTON_SET) && borda_de_descida events then
    (if negb (menu_index s =? 2) then
       if negb (in_set_mode s) then
         com_current_param 0 (com_in_set_mode true s)
       else
         let s := com_current_param (current_param s + 1) s in
         if 3 <? current_param s
         then com_current_param 0 (com_in_set_mode false s)
         else s
     else s, Some EvSet)
  else if (gpio =? BUTTON_NEXT) && borda_de_descida events then
    (if negb (in_set_mode s)
     then com_menu_index (Z.rem (menu_index s + 1) 4) s else s, Some EvNext)
  else if (gpio =? BUTTON_BACK) && borda_de_descida events then
    (if negb (in_set_mode s)
     then com_menu_index (Z.rem (menu_index s + 3) 4) s else s, Some EvBack)
  else (s, None).

(** [button_callback], lines 1010-1046.  The second component names the
    branch of the pin the call entered, [None] when it returned at the
    debounce test or entered none.  A branch can run no statement (SET
    in the training mode, NEXT and BACK under the overlay), so what a
    call does is read from the first component. *)
Definition button_callback (gpio events us : Z) (s : Sistema) : Sistema * option Botao :=
  let current_time := ms us in
  if u32 (current_time - last_button_time s) <? DEBOUNCE_DELAY_MS then (s, None)
  else tratar_botao gpio events (com_last_button_time current_time s).

(** The body of the loop of [main], lines 1156-1173. *)
Definition iteracao (e : Entrada) (s : Sistema) : Sistema :=
  if in_set_mode s then executar_modo_configuracao e s
  else if menu_index s =? 0 then executar_modo_monitoramento e s
  else if menu_index s =? 1 then executar_modo_configuracao e s
  else if menu_index s =? 2 then executar_modo_treinamento e s
  else if menu_index s =? 3 then executar_modo_historico e s
  else s.

(** What moves the system: an interrupt, or one turn of the main loop. *)
Inductive Evento :=
| Interrupcao (gpio events us : Z)
| Iteracao (e : Entrada).

Definition passo (ev : Evento) (s : Sistema) : Sistema :=
  match ev with
  | Interrupcao gpio events us => fst (button_callback gpio events us s)
  | Iteracao e => iteracao e s
  end.

Definition executar (evs : list Evento) (s : Sistema) : Sistema :=
  fold_left (fun s ev => passo ev s) evs s.

End Interrupcao.

(** The globals at the entry of the loop of [main]: zero-initialised
    records, the thresholds of lines 97-100, and [stats.tempo_inicio]
    stamped at line 1148. *)
Definition sistema_inicial (us0 : Z) : Sistema :=
  mkSistema 0 false 0 0
    (mkEstado F32.zero F32.zero)
    limiares_iniciais
    (mkEstatisticas F32.zero F32.zero F32.zero F32.zero 0 (seg us0) 0 0)
    (mkTreinamento 0 0 0 0 0 0 0).

(** A run of training turns. *)
Definition treinar (es : list Entrada) (s : Sistema) : Sistema :=
  fold_left (fun s e => executar_modo_treinamento e s) es s.

(** ** The values the threshold store can hold *)

Section Grade.
Local Open Scope f32_scope.

Definition par_atencao (l : Limiares) : float * float :=
  (limiar_atencao_baixo l, limiar_atencao_alto l).
Definition par_relaxamento (l : Limiares) : float * float :=
  (limiar_relaxamento_baixo l, limiar_relaxamento_alto l).
Definition de_pares (a r : float * float) : Limiares :=
  mkLimiares (fst a) (snd a) (fst r) (snd r).

(** Ordering, minimal gap and absolute bounds of one low/high pair:
    [baixo < alto], [alto - baixo >= passo], [passo <= baixo] and
    [alto <= teto]. *)
Definition par_ok (passo teto : float) (p : float * float) : bool :=
  let '(baixo, alto) := p in
  (baixo < alto) && (alto - baixo >= passo) && (baixo + passo <= alto)
  && (passo <= baixo) && (baixo <= teto) && (passo <= alto) && (alto <= teto).

Definition limiares_ok (l : Limiares) : bool :=
  par_ok c5 c100 (par_atencao l) && par_ok c0_5 c10 (par_relaxamento l).

(** All pairs [(i*u, j*u)] with [1 <= i < j <= 20] and [u = m * 2^e]. *)
Definition degraus : list Z := map Z.of_nat (seq 1 20).

Definition grade (m e : Z) : list (float * float) :=
  flat_map (fun i =>
    flat_map (fun j =>
      if (i <? j)%Z then [(F32.dyadic (i * m) e, F32.dyadic (j * m) e)] else [])
    degraus) degraus.

Definition grade_atencao : list (float * float) := grade 5 0.
Definition grade_relaxamento : list (float * float) := grade 1 (-1).

Definition mesmo_par (p q : float * float) : bool :=
  F32.same (fst p) (fst q) && F32.same (snd p) (snd q).

Definition pertence (p : float * float) (g : list (float * float)) : bool :=
  existsb (mesmo_par p) g.

Definition na_grade (l : Limiares) : Prop :=
  In (par_atencao l) grade_atencao /\ In (par_relaxamento l) grade_relaxamento.

Definition indices : list Z := [0; 1; 2; 3]%Z.

(** The adjustments leave the grid invariant: a check that runs the
    eight switch cases on every pair of both grids. *)
Definition fecha_atencao (f : Z -> Limiares -> Limiares) : bool :=
  forallb (fun p =>
    forallb (fun a =>
      pertence (par_atencao (f p (de_pares a (F32.zero, F32.zero)))) grade_atencao)
    grade_atencao) indices.

Definition fecha_relaxamento (f : Z -> Limiares -> Limiares) : bool :=
  forallb (fun p =>
    forallb (fun r =>
      pertence (par_relaxamento (f p (de_pares (F32.zero, F32.zero) r))) grade_relaxamento)
    grade_relaxamento) indices.

End Grade.

(** ** Inputs used in the statements *)

(** A failed session followed by the clearing gesture of the history
    mode: two NEXT edges reach the training mode, SET starts a session at
    second 3, the turn at second 303 fails it, a NEXT edge reaches the
    history mode, and SET with NEXT held clears the statistics. *)
Definition sem_botoes (a r : Z) (us : Z) : Entrada :=
  mkEntrada (F32.of_Z a) (F32.of_Z r) false false false us us us us us us us.

Definition so_set (us : Z) : Entrada :=
  mkEntrada F32.zero F32.zero false false true us us us us us us us.

Definition set_com_next (us : Z) : Entrada :=
  mkEntrada F32.zero F32.zero true false true us us us us us us us.

Definition falha_e_limpeza : list Evento :=
  [ Interrupcao BUTTON_NEXT 4 1000000;
    Interrupcao BUTTON_NEXT 4 2000000;
    Iteracao (so_set 3000000);
    Iteracao (sem_botoes 0 0 303000000);
    Interrupcao BUTTON_NEXT 4 304000000;
    Iteracao (set_com_next 304300000) ].


(** ** Names for parts of a training turn *)

(** The readings of a turn are stored before anything else. *)
Definition com_leituras (e : Entrada) (s : Sistema) : Sistema :=
  com_estado_atual (mkEstado (sensor_atencao e) (sensor_relaxamento e)) s.

(** The two tests of [pontuar]: the level rises, the session is completed. *)
Definition subiu (s : Sistema) : bool :=
  objetivo_atingido s
  && (Z.rem (u32 (pontuacao (treinamento s) + 1)) 50 =? 0)
  && (nivel_atual (treinamento s) <? nivel_maximo (treinamento s)).

Definition concluiu (s : Sistema) : bool :=
  subiu s && (u8 (nivel_atual (treinamento s) + 1) =? nivel_maximo (treinamento s)).

(** The test of [voltar_ao_inicio]: SET is pressed and passes the debounce. *)
Definition set_aceito (e : Entrada) (s : Sistema) : bool :=
  botao_set e && passou_debounce (us_set e) s.


(** A turn of a running session that meets the objective, stays below
    the time limit and in which SET is not accepted. *)
Definition turno_bom (s : Sistema) (e : Entrada) : Prop :=
  objetivo_atingido (com_leituras e s) = true
  /\ u32 (seg (us_limite e) - inicio (treinamento s)) < 300
  /\ set_aceito e s = false.

(** The training record of a well-formed session: the score is a 32-bit
    value and, while the session runs, the level is between 1 and 9 of 10. *)
Definition sessao_ok (t : DadosTreinamento) : Prop :=
  0 <= pontuacao t < 2 ^ 32
  /\ (status t = 1 -> nivel_maximo t = 10 /\ 1 <= nivel_atual t < nivel_maximo t).

(** Fifty turns with attention 80 and relaxation 5, no button, at second 4. *)
Definition cinquenta_turnos : list Entrada := repeat (sem_botoes 80 5 4000000) 50.

(** A session started at second 3 in the training mode: the first three
    events of [falha_e_limpeza]. *)
Definition sessao_iniciada : Sistema :=
  executar 4 (firstn 3 falha_e_limpeza) (sistema_inicial 0).

(** NEXT held, read 200 ms after the last accepted press. *)
Definition next_aos_200ms : Entrada :=
  mkEntrada F32.zero F32.zero true false false 200000 0 0 0 0 0 0.

(** NEXT held alone, the clock of line 627 read at 1 200 000 us. *)
Definition next_aos_1200ms : Entrada :=
  mkEntrada F32.zero F32.zero true false false 1200000 0 0 0 0 0 0.

(** A session with 449 points at level 9, and a turn that meets the
    objective with the clock read 299 s after the start at the
    completion and 300 s after it at the limit test. *)
Definition sessao_no_nivel_9 : Sistema :=
  treinar (repeat (sem_botoes 80 5 4000000) 449) sessao_iniciada.

Definition turno_no_limite : Entrada :=
  mkEntrada (F32.of_Z 80) (F32.of_Z 5) false false false 0 0 0 0 302999999 303000000 0.

(** ** The assignments to the duration and the branch of the limit test *)

(** The assignments to [treinamento.duracao] that one run of
    [executar_modo_treinamento] makes, in program order.  Line 821, in
    the completion branch of the scoring (the tests are those of
    [pontuar]): *)
Definition escritas_de_pontuar (e : Entrada) (s : Sistema) : list Z :=
  if objetivo_atingido s then
    let s := no_treinamento (fun t => com_pontuacao (u32 (pontuacao t + 1)) t) s in
    if (Z.rem (pontuacao (treinamento s)) 50 =? 0)
       && (nivel_atual (treinamento s) <? nivel_maximo (treinamento s)) then
      let s := no_treinamento (fun t => com_nivel_atual (u8 (nivel_atual t + 1)) t) s in
      if nivel_atual (treinamento s) =? nivel_maximo (treinamento s) then
        [u32 (seg (us_conclusao e) - inicio (treinamento s))]
      else []
    else []
  else [].

(** Line 837, in the limit branch. *)
Definition escritas_do_limite (e : Entrada) (s : Sistema) : list Z :=
  let decorrido := tempo_decorrido e s in
  if 300 <=? decorrido then [decorrido] else [].

(** The blocks of status 0 (lines 761-790) and of status 2 or 3 (lines
    857-869) hold no assignment to the field. *)
Definition escritas_de_duracao (e : Entrada) (s : Sistema) : list Z :=
  let s := com_estado_atual (mkEstado (sensor_atencao e) (sensor_relaxamento e)) s in
  if status (treinamento s) =? 1 then
    escritas_de_pontuar e s ++ escritas_do_limite e (pontuar e s)
  else [].

(** The writes of one step of the system: the callback and the three
    other mode functions hold no assignment to the field. *)
Definition escritas_do_passo (ev : Evento) (s : Sistema) : list Z :=
  match ev with
  | Interrupcao _ _ _ => []
  | Iteracao e =>
      if in_set_mode s then []
      else if menu_index s =? 2 then escritas_de_duracao e s
      else []
  end.

(** Which branch of lines 832-836 a turn of a running session takes:
    [Some 3] the failed one, [Some 2] the completed one, [None] when the
    limit test of line 830 fails. *)
Definition ramo_do_limite (e : Entrada) (s : Sistema) : option Z :=
  let s1 := pontuar e (com_leituras e s) in
  if 300 <=? tempo_decorrido e s1 then
    Some (if nivel_atual (treinamento s1) <? nivel_maximo (treinamento s1) then 3 else 2)
  else None.

Section Degrau.
Local Open Scope f32_scope.

(** On one pair of attention thresholds, the NEXT switch on parameter 0
    moves the low one a step up unless the gap is one step, the BACK
    switch a step down unless it is at 5, and both leave the high one. *)
Definition degrau_de_atencao (p : float * float) : bool :=
  let l := de_pares p (F32.zero, F32.zero) in
  F32.same (limiar_atencao_baixo (aumentar 0 l))
           (if fst p + c5 < snd p then fst p + c5 else fst p)
  && F32.same (limiar_atencao_baixo (diminuir 0 l))
              (if c5 < fst p then fst p - c5 else fst p)
  && F32.same (limiar_atencao_alto (aumentar 0 l)) (snd p)
  && F32.same (limiar_atencao_alto (diminuir 0 l)) (snd p).

End Degrau.


(** ** Notions used by the further properties *)

(** The menu fields of a state the system can be in: both indices in
    range, parameter index 0 while no overlay is open, and no overlay
    while the menu is on the training mode. *)
Definition menu_regular (s : Sistema) : Prop :=
  0 <= menu_index s <= 3
  /\ 0 <= current_param s <= 3
  /\ (in_set_mode s = false -> current_param s = 0)
  /\ (in_set_mode s = true -> menu_index s <> 2).

(** No polled button of a turn passes the debounce test. *)
Definition botoes_bloqueados (e : Entrada) (s : Sistema) : bool :=
  negb (passou_debounce (us_next e) s)
  && negb (passou_debounce (us_back e) s)
  && negb (passou_debounce (us_set e) s).

(** The configuration view reached by one NEXT edge, and a turn that
    reads NEXT still held 250 ms after that edge. *)
Definition na_visao_de_configuracao : list Evento :=
  [Interrupcao BUTTON_NEXT 4 1000000].

Definition next_mantido : Entrada :=
  mkEntrada F32.zero F32.zero true false false 1250000 0 0 0 0 0 0.

(** The training record of a state the system can be in.  The level
    follows the score, one level per 50 points, and a session is
    completed at 450 points exactly. *)
Definition sessao_regular (t : DadosTreinamento) : Prop :=
  0 <= objetivo t <= 2
  /\ 0 <= status t <= 3
  /\ 0 <= pontuacao t <= 450
  /\ 0 <= nivel_atual t <= 10
  /\ (nivel_maximo t = 0 \/ nivel_maximo t = 10)
  /\ (status t = 1 \/ status t = 3 ->
      nivel_maximo t = 10 /\ nivel_atual t = 1 + pontuacao t / 50 /\ pontuacao t < 450)
  /\ (status t = 2 ->
      nivel_maximo t = 10 /\ nivel_atual t = 10 /\ pontuacao t = 450).

(** The two ways a turn ends a running session. *)
Definition completou (e : Entrada) (s : Sistema) : bool :=
  objetivo_atingido (com_leituras e s) && (pontuacao (treinamento s) =? 449).

Definition esgotou (e : Entrada) (s : Sistema) : bool :=
  300 <=? u32 (seg (us_limite e) - inicio (treinamento s)).

(** NEXT alone, held, read at [us]. *)
Definition so_next (us : Z) : Entrada :=
  mkEntrada F32.zero F32.zero true false false us us us us us us us.

(** A binary32 value that is a number. *)
Definition nao_nan (x : float) : bool :=
  match x with S754_nan => false | _ => true end.

(** Product of two binary32 values. *)
Definition f32_mul (x y : float) : float := SFmul F32.prec F32.emax x y.
Infix "*" := f32_mul : f32_scope.

(** The five accumulators of the statistics: sums, maxima, sample count. *)
Definition acumuladores (st : Estatisticas) : float * float * float * float * Z :=
  (soma_atencao st, soma_relaxamento st, max_atencao st, max_relaxamento st, amostras st).

(** A run of monitoring turns. *)
Definition monitorar (es : list Entrada) (s : Sistema) : Sistema :=
  fold_left (fun s e => executar_modo_monitoramento e s) es s.

(** Three monitoring turns with attention 40, 90, 60 and relaxation 2, 1, 8. *)
Definition tres_leituras : list Entrada :=
  [sem_botoes 40 2 0; sem_botoes 90 1 0; sem_botoes 60 8 0].

(** The run that reaches level 9 with 449 points: two NEXT edges, the
    start of a session, and 449 turns that meet the objective. *)
Definition eventos_ate_nivel_9 : list Evento :=
  [Interrupcao BUTTON_NEXT 4 1000000; Interrupcao BUTTON_NEXT 4 2000000;
   Iteracao (so_set 3000000)]
  ++ repeat (Iteracao (sem_botoes 80 5 4000000)) 449.

(** ** What the program shows

    The display, the LED matrix and the sensors write nothing that the
    state machine reads back; they are modelled below as functions of
    the state and of what the hardware delivers. *)

(** ** The simulated sensors *)

Definition c2_5 : float := F32.dyadic 5 (-1).   (* 2.5f *)
Definition c0_25 : float := F32.dyadic 1 (-2).  (* 0.25f *)
Definition c4095 : float := F32.of_Z 4095.      (* 4095.0f *)
Definition c2 : float := F32.of_Z 2.            (* 2.0f *)
Definition c15 : float := F32.of_Z 15.          (* 15.0f *)
Definition c18 : float := F32.of_Z 18.          (* 18.0f *)
Definition c20 : float := F32.of_Z 20.          (* 20.0f *)

Section Sensores.
Local Open Scope f32_scope.

(** The platform's [RAND_MAX]; [r] below is the value [rand()] returns. *)
Variable RAND_MAX : Z.

(** Lines 344-354. *)
Definition obter_nivel_atencao (r adc_valor : Z) : float :=
  let ruido := (F32.of_Z r / F32.of_Z RAND_MAX) * c5 - c2_5 in
  let valor := (F32.of_Z adc_valor / c4095) * c100 + ruido in
  let valor := if valor < F32.zero then F32.zero else valor in
  if valor > c100 then c100 else valor.

(** Lines 357-367. *)
Definition obter_nivel_relaxamento (r adc_valor : Z) : float :=
  let ruido := (F32.of_Z r / F32.of_Z RAND_MAX) * c0_5 - c0_25 in
  let valor := (F32.of_Z adc_valor / c4095) * c10 + ruido in
  let valor := if valor < F32.zero then F32.zero else valor in
  if valor > c10 then c10 else valor.

End Sensores.

(** The four simulated bands of [EstadoCognitivo]. *)
Record Ondas := mkOndas {
  alpha : float;
  beta : float;
  theta : float;
  delta : float
}.

Section Bandas.
Local Open Scope f32_scope.

(** Lines 370-391, on the two levels the function reads. *)
Definition simular_ondas_cerebrais (estado : EstadoCognitivo) : Ondas :=
  let beta := c10 + (atencao estado / c100) * c20 in
  let theta := c20 - (atencao estado / c100) * c15 in
  let alpha := c5 + (relaxamento estado / c10) * c10 in
  let media_ativacao := (atencao estado / c100 + relaxamento estado / c10) / c2 in
  let delta := c20 - media_ativacao * c18 in
  let beta := if beta < F32.zero then F32.zero else beta in
  let alpha := if alpha < F32.zero then F32.zero else alpha in
  let theta := if theta < F32.zero then F32.zero else theta in
  let delta := if delta < F32.zero then F32.zero else delta in
  mkOndas alpha beta theta delta.

(** The bands before the four final tests of the function. *)
Definition ondas_sem_piso (estado : EstadoCognitivo) : Ondas :=
  let media_ativacao := (atencao estado / c100 + relaxamento estado / c10) / c2 in
  mkOndas (c5 + (relaxamento estado / c10) * c10)
          (c10 + (atencao estado / c100) * c20)
          (c20 - (atencao estado / c100) * c15)
          (c20 - media_ativacao * c18).

(** [lo <= x <= hi] on binary32 values. *)
Definition entre (lo hi x : float) : bool := (lo <= x) && (x <= hi).

(** The bands of one reading are the unfloored ones and lie in
    alpha 5..15, beta 10..30, theta 5..20, delta 2..20. *)
Definition ondas_na_faixa (estado : EstadoCognitivo) : bool :=
  let o := simular_ondas_cerebrais estado in
  let p := ondas_sem_piso estado in
  F32.same (alpha o) (alpha p) && F32.same (beta o) (beta p)
  && F32.same (theta o) (theta p) && F32.same (delta o) (delta p)
  && entre c5 c15 (alpha o) && entre c10 (F32.of_Z 30) (beta o)
  && entre c5 c20 (theta o) && entre c2 c20 (delta o).

End Bandas.

(** All integers [lo, lo + n). *)
Definition intervalo (lo : Z) (n : nat) : list Z := map (fun k => lo + Z.of_nat k) (seq 0 n).

(** ** The words sent to the LED matrix *)

(** Lines 247-249, on three [uint8_t] arguments. *)
Definition urgb_u32 (r g b : Z) : Z :=
  Z.lor (Z.lor (u32 (Z.shiftl (u8 r) 8)) (u32 (Z.shiftl (u8 g) 16))) (u8 b).

(** Lines 252-254: the word handed to the PIO state machine. *)
Definition enviar_pixel (pixel_grb : Z) : Z := u32 (Z.shiftl pixel_grb 8).

(** Byte [k] of a word, byte 0 the lowest. *)
Definition byte_de (k : Z) (w : Z) : Z := Z.land (Z.shiftr w (8 * k)) 255.

(** Lines 257-266: the words [definir_leds] sends, in order. *)
Definition definir_leds (r g b : Z) (buffer_leds : list bool) : list Z :=
  let cor := urgb_u32 r g b in
  map (fun i => if nth i buffer_leds false then enviar_pixel cor else enviar_pixel 0)
      (seq 0 (Z.to_nat NUM_PIXELS)).

(** ** The LED buffer and its renderers *)

(** A computation that can leave the defined behaviour of C: a write
    outside [buffer_leds], a division by zero, an undefined conversion. *)
Definition bind {A B : Type} (x : option A) (f : A -> option B) : option B :=
  match x with Some a => f a | None => None end.

Notation "x <- e ;; f" := (bind e (fun x => f))
  (at level 61, e at next level, right associativity).

(** Lines 133-182: the patterns of the matrix. *)
Definition padroes_carinhas : list (list (list bool)) :=
  [ [ [false; true; false; true; false];
      [false; true; false; true; false];
      [false; false; false; false; false];
      [true; false; false; false; true];
      [false; true; true; true; false] ];
    [ [false; true; false; true; false];
      [false; true; false; true; false];
      [false; false; false; false; false];
      [true; true; true; true; true];
      [true; false; false; false; true] ];
    [ [false; true; false; true; false];
      [false; true; false; true; false];
      [false; false; false; false; false];
      [false; true; true; true; false];
      [true; false; false; false; true] ] ].

Definition padrao_ondas : list (list bool) :=
  [ [false; false; true; false; false];
    [false; true; true; true; false];
    [true; true; true; true; true];
    [false; true; true; true; false];
    [false; false; true; false; false] ].

Definition padrao_foco : list (list bool) :=
  [ [false; false; true; false; false];
    [false; true; true; true; false];
    [true; true; true; true; true];
    [false; true; true; true; false];
    [false; false; true; false; false] ].

Definition padrao_relaxamento : list (list bool) :=
  [ [true; false; false; false; true];
    [false; true; false; true; false];
    [false; false; true; false; false];
    [false; true; false; true; false];
    [true; false; false; false; true] ].

(** [buffer_leds], an array of [NUM_PIXELS] flags. *)
Fixpoint trocar (n : nat) (v : bool) (buf : list bool) : list bool :=
  match buf, n with
  | [], _ => []
  | _ :: t, O => v :: t
  | h :: t, S k => h :: trocar k v t
  end.

(** [buffer_leds[i] = v]. *)
Definition escrever (i : Z) (v : bool) (buf : list bool) : option (list bool) :=
  if (0 <=? i) && (i <? NUM_PIXELS) then Some (trocar (Z.to_nat i) v buf) else None.

(** [for (int i = 0; i < n; i++) buffer_leds[base + i] = v;] *)
Fixpoint escrever_faixa (base : Z) (n : nat) (v : bool) (buf : list bool)
  : option (list bool) :=
  match n with
  | O => Some buf
  | S k => b <- escrever_faixa base k v buf ;; escrever (base + Z.of_nat k) v b
  end.

(** The two nested loops of lines 228-233 (and 238-243, 883-888, 892-897):
    [buffer_leds[linha * 5 + coluna] = padrao[linha][coluna]]. *)
Definition copiar_padrao (padrao : list (list bool)) (buf : list bool)
  : option (list bool) :=
  fold_left (fun acc linha =>
    fold_left (fun acc coluna =>
      b <- acc ;;
      escrever (linha * 5 + coluna)
        (nth (Z.to_nat coluna) (nth (Z.to_nat linha) padrao []) false) b)
      (intervalo 0 5) acc)
    (intervalo 0 5) (Some buf).

Definition atualizar_buffer_com_carinha (tipo : Z) (buf : list bool)
  : option (list bool) :=
  if (0 <=? tipo) && (tipo <? 3)
  then copiar_padrao (nth (Z.to_nat tipo) padroes_carinhas []) buf
  else None.

Definition atualizar_buffer_com_ondas (buf : list bool) : option (list bool) :=
  copiar_padrao padrao_ondas buf.

(** A pattern read row by row, as the matrix holds it. *)
Definition quadro (padrao : list (list bool)) : list bool := concat padrao.

(** A bar of [n] lit pixels in a row of [largura]. *)
Definition barra (n largura : nat) : list bool :=
  repeat true n ++ repeat false (largura - n).

(** [(int) x]: the truncation toward zero; undefined on a NaN, an
    infinity and a value outside the range of [int]. *)
Definition para_int (x : float) : option Z :=
  match x with
  | S754_zero _ => Some 0
  | S754_finite s m e =>
      let a := if 0 <=? e then Z.pos m * 2 ^ e else Z.pos m / 2 ^ (- e) in
      let v := if s then - a else a in
      if (- 2 ^ 31 <=? v) && (v <? 2 ^ 31) then Some v else None
  | _ => None
  end.

Section Renderizadores.
Local Open Scope f32_scope.

(** Lines 577-602: the matrix of the monitoring mode.  No case of the
    switch, no write. *)
Definition leds_do_monitoramento (estado_cognitivo : Z) (buf : list bool)
  : option (list bool) :=
  if (estado_cognitivo =? 0)%Z then atualizar_buffer_com_carinha 2 buf
  else if (estado_cognitivo =? 1)%Z then atualizar_buffer_com_carinha 0 buf
  else if (estado_cognitivo =? 2)%Z then atualizar_buffer_com_carinha 1 buf
  else if (estado_cognitivo =? 3)%Z then atualizar_buffer_com_carinha 0 buf
  else if (estado_cognitivo =? 4)%Z then atualizar_buffer_com_carinha 1 buf
  else if (estado_cognitivo =? 5)%Z then atualizar_buffer_com_carinha 2 buf
  else Some buf.

(** Lines 711-725. *)
Definition valor_percentual (s : Sistema) : float :=
  if (current_param s =? 0)%Z then limiar_atencao_baixo (limiares s) / c100
  else if (current_param s =? 1)%Z then limiar_atencao_alto (limiares s) / c100
  else if (current_param s =? 2)%Z then limiar_relaxamento_baixo (limiares s) / c10
  else if (current_param s =? 3)%Z then limiar_relaxamento_alto (limiares s) / c10
  else F32.zero.

(** Line 728. *)
Definition leds_acesos (valor_percentual : float) : option Z :=
  para_int (valor_percentual * F32.of_Z NUM_PIXELS).

(** Lines 705-731: the matrix of the configuration mode. *)
Definition leds_da_configuracao (s : Sistema) (buf : list bool) : option (list bool) :=
  b <- escrever_faixa 0 (Z.to_nat NUM_PIXELS) false buf ;;
  n <- leds_acesos (valor_percentual s) ;;
  escrever_faixa 0 (Z.to_nat n) true b.

(** Lines 875-936: the matrix of the training mode. *)
Definition leds_do_treinamento (t : DadosTreinamento) (buf : list bool)
  : option (list bool) :=
  b <- escrever_faixa 0 (Z.to_nat NUM_PIXELS) false buf ;;
  if (status t =? 0)%Z then
    if (objetivo t =? 0)%Z then copiar_padrao padrao_foco b
    else if (objetivo t =? 1)%Z then copiar_padrao padrao_relaxamento b
    else if (objetivo t =? 2)%Z then atualizar_buffer_com_ondas b
    else Some b
  else if (status t =? 1)%Z then
    n <- leds_em_andamento t ;; escrever_faixa 0 (Z.to_nat n) true b
  else if (status t =? 2)%Z then atualizar_buffer_com_carinha 1 b
  else if (status t =? 3)%Z then atualizar_buffer_com_carinha 2 b
  else Some b.

(** Lines 969-999: the matrix of the history mode.  The loops of the two
    first rows stop at [i < leds && i < 5]. *)
Definition leds_do_historico (st : Estatisticas) (buf : list bool)
  : option (list bool) :=
  medias <- calcular_medias st ;;
  b <- escrever_faixa 0 (Z.to_nat NUM_PIXELS) false buf ;;
  leds_atencao <- para_int (fst medias / c100 * c5) ;;
  b <- escrever_faixa 0 (Z.to_nat (Z.min leds_atencao 5)) true b ;;
  leds_relaxamento <- para_int (snd medias / c10 * c5) ;;
  b <- escrever_faixa 5 (Z.to_nat (Z.min leds_relaxamento 5)) true b ;;
  let leds_sessoes := sessoes_concluidas st in
  let leds_sessoes := if (15 <? leds_sessoes)%Z then 15%Z else leds_sessoes in
  escrever_faixa 10 (Z.to_nat leds_sessoes) true b.

(** The lit count of one threshold of a pair is between 1 and [NUM_PIXELS]. *)
Definition acende (divisor : float) (v : float) : bool :=
  match leds_acesos (v / divisor) with
  | Some n => (1 <=? n)%Z && (n <=? NUM_PIXELS)%Z
  | None => false
  end.

Definition par_acende (divisor : float) (p : float * float) : bool :=
  acende divisor (fst p) && acende divisor (snd p).

End Renderizadores.

(** A state on the second parameter of the overlay, and statistics of
    four samples and three sessions. *)
Definition no_segundo_parametro : list Evento :=
  [Interrupcao BUTTON_SET 4 1000000; Interrupcao BUTTON_SET 4 2000000].

Definition quatro_amostras : Estatisticas :=
  mkEstatisticas (F32.of_Z 240) (F32.of_Z 12) (F32.of_Z 90) (F32.of_Z 8) 4 0 0 3.



(** ** The texts of the display *)

From Stdlib Require Ascii String.

Section Textos.
Import Ascii String.
Local Open Scope string_scope.
Local Open Scope Z_scope.

(** The character of a digit 0..9. *)
Definition digito (d : Z) : string :=
  String (ascii_of_N (Z.to_N (48 + d))) EmptyString.

(** The decimal digits of [n >= 0], at most [k] of them. *)
Fixpoint decimal (k : nat) (n : Z) : string :=
  match k with
  | O => ""
  | S k' => if n <? 10 then digito n else decimal k' (n / 10) ++ digito (n mod 10)
  end.

(** A [uint32_t] argument as [%d] reads it, a 32-bit [int]. *)
Definition como_int (x : Z) : Z :=
  if u32 x <? 2 ^ 31 then u32 x else u32 x - 2 ^ 32.

(** [%d] on an [int]. *)
Definition formato_d (n : Z) : string :=
  if n <? 0 then "-" ++ decimal 10 (- n) else decimal 10 n.

(** [%02d] on an [int]: at least two characters, padded with a zero. *)
Definition formato_02d (n : Z) : string :=
  if (0 <=? n) && (n <? 10) then "0" ++ formato_d n else formato_d n.

(** Lines 430-438. *)
Definition nome_do_estado (estado_cognitivo : Z) : string :=
  if estado_cognitivo =? 0 then "Distraido"
  else if estado_cognitivo =? 1 then "Normal"
  else if estado_cognitivo =? 2 then "Concentrado"
  else if estado_cognitivo =? 3 then "Relaxado"
  else if estado_cognitivo =? 4 then "Estado Flow"
  else if estado_cognitivo =? 5 then "Ansioso"
  else "Desconhecido".

(** Line 442. *)
Definition linha3_do_monitoramento (estado_cognitivo : Z) : string :=
  "Estado: " ++ nome_do_estado estado_cognitivo.

(** Lines 457-478: the second line of the configuration display. *)
Definition linha2_da_configuracao (param_atual : Z) : string :=
  if param_atual =? 0 then "Limiar Atencao Baixo"
  else if param_atual =? 1 then "Limiar Atencao Alto"
  else if param_atual =? 2 then "Limiar Relax Baixo"
  else if param_atual =? 3 then "Limiar Relax Alto"
  else "Parametro Desconhecido".

(** Lines 493-499. *)
Definition objetivo_nome (objetivo : Z) : string :=
  if objetivo =? 0 then "Atencao"
  else if objetivo =? 1 then "Relaxamento"
  else if objetivo =? 2 then "Estado Flow"
  else "Desconhecido".

(** Lines 501-506; [us] is the clock read of line 503. *)
Definition tempo_mostrado (us : Z) (treino : DadosTreinamento) : Z :=
  if status treino =? 1 then u32 (seg us - inicio treino)
  else if (status treino =? 2) || (status treino =? 3) then duracao treino
  else 0.

(** Lines 508-509. *)
Definition linha2_do_treinamento (treino : DadosTreinamento) : string :=
  "Objetivo: " ++ objetivo_nome (objetivo treino)
  ++ " Niv:" ++ formato_d (nivel_atual treino)
  ++ "/" ++ formato_d (nivel_maximo treino).

Definition linha3_do_treinamento (us : Z) (treino : DadosTreinamento) : string :=
  "Pontos: " ++ formato_d (como_int (pontuacao treino))
  ++ " Tempo: " ++ formato_d (como_int (tempo_mostrado us treino)) ++ "s".

(** Lines 532-537; [us] is the clock read of line 532. *)
Definition linha3_do_historico (us : Z) (st : Estatisticas) : string :=
  let tempo_total := u32 (seg us - tempo_inicio st) in
  let minutos := tempo_total / 60 in
  let segundos := tempo_total mod 60 in
  "Sessoes: " ++ formato_d (sessoes_concluidas st)
  ++ " Tempo: " ++ formato_02d (como_int minutos)
  ++ "m" ++ formato_02d (como_int segundos) ++ "s".

(** The room of [char linha[32]] for text, the terminator apart. *)
Definition cabe (texto : string) : Prop := (String.length texto <= 31)%nat.

End Textos.

(** Statistics of 100 sessions whose start second is ahead of the clock. *)
Definition cem_sessoes : Estatisticas :=
  mkEstatisticas F32.zero F32.zero F32.zero F32.zero 0 4000 0 100.

(** * Properties *)

(** ** Threshold store *)

Lemma same_eq x y : F32.same x y = true -> x = y.
Proof.
  destruct x, y; simpl; try discriminate; try reflexivity.
  - intros H; apply Bool.eqb_prop in H; now subst.
  - intros H; apply Bool.eqb_prop in H; now subst.
  - intros H. apply andb_prop in H as [H He]. apply andb_prop in H as [Hs Hm].
    apply Bool.eqb_prop in Hs. apply Pos.eqb_eq in Hm. apply Z.eqb_eq in He.
    now subst.
Qed.

Lemma pertence_In p g : pertence p g = true -> In p g.
Proof.
  unfold pertence. rewrite existsb_exists. intros [q [Hq Hs]].
  unfold mesmo_par in Hs. apply andb_prop in Hs as [H1 H2].
  apply same_eq in H1. apply same_eq in H2.
  destruct p, q; simpl in *; subst; assumption.
Qed.

Lemma fecha_atencao_aumentar : fecha_atencao aumentar = true.
Proof. vm_compute. reflexivity. Qed.

Lemma fecha_atencao_diminuir : fecha_atencao diminuir = true.
Proof. vm_compute. reflexivity. Qed.

Lemma fecha_relaxamento_aumentar : fecha_relaxamento aumentar = true.
Proof. vm_compute. reflexivity. Qed.

Lemma fecha_relaxamento_diminuir : fecha_relaxamento diminuir = true.
Proof. vm_compute. reflexivity. Qed.

Lemma grade_atencao_ok : forallb (par_ok c5 c100) grade_atencao = true.
Proof. vm_compute. reflexivity. Qed.

Lemma grade_relaxamento_ok : forallb (par_ok c0_5 c10) grade_relaxamento = true.
Proof. vm_compute. reflexivity. Qed.

Ltac abrir_limiares :=
  cbn [par_atencao par_relaxamento de_pares fst snd
       com_atencao_baixo com_atencao_alto com_relaxamento_baixo com_relaxamento_alto
       limiar_atencao_baixo limiar_atencao_alto
       limiar_relaxamento_baixo limiar_relaxamento_alto].

Ltac por_casos :=
  repeat match goal with
         | |- context [if ?c then _ else _] =>
             lazymatch c with
             | context [if _ then _ else _] => fail
             | _ => destruct c; abrir_limiares
             end
         end.

(** The pair an adjustment leaves depends on the pair of the same kind only. *)
Lemma aumentar_local_atencao p l r :
  par_atencao (aumentar p l) = par_atencao (aumentar p (de_pares (par_atencao l) r)).
Proof. destruct l, r. unfold aumentar. abrir_limiares. por_casos; reflexivity. Qed.

Lemma aumentar_local_relaxamento p l a :
  par_relaxamento (aumentar p l) = par_relaxamento (aumentar p (de_pares a (par_relaxamento l))).
Proof. destruct l, a. unfold aumentar. abrir_limiares. por_casos; reflexivity. Qed.

Lemma diminuir_local_atencao p l r :
  par_atencao (diminuir p l) = par_atencao (diminuir p (de_pares (par_atencao l) r)).
Proof. destruct l, r. unfold diminuir. abrir_limiares. por_casos; reflexivity. Qed.

Lemma diminuir_local_relaxamento p l a :
  par_relaxamento (diminuir p l) = par_relaxamento (diminuir p (de_pares a (par_relaxamento l))).
Proof. destruct l, a. unfold diminuir. abrir_limiares. por_casos; reflexivity. Qed.

Lemma indice_ou_fora p : In p indices \/ (p =? 0) || (p =? 1) || (p =? 2) || (p =? 3) = false.
Proof.
  unfold indices; simpl.
  destruct (Z.eqb_spec p 0); [auto|].
  destruct (Z.eqb_spec p 1); [auto|].
  destruct (Z.eqb_spec p 2); [auto|].
  destruct (Z.eqb_spec p 3); [auto 6|].
  right; reflexivity.
Qed.

Lemma aumentar_fora p l :
  (p =? 0) || (p =? 1) || (p =? 2) || (p =? 3) = false -> aumentar p l = l.
Proof.
  intros H. unfold aumentar.
  destruct (p =? 0), (p =? 1), (p =? 2), (p =? 3); simpl in H; try discriminate; reflexivity.
Qed.

Lemma diminuir_fora p l :
  (p =? 0) || (p =? 1) || (p =? 2) || (p =? 3) = false -> diminuir p l = l.
Proof.
  intros H. unfold diminuir.
  destruct (p =? 0), (p =? 1), (p =? 2), (p =? 3); simpl in H; try discriminate; reflexivity.
Qed.

Lemma fecha_atencao_In f p a :
  fecha_atencao f = true -> In p indices -> In a grade_atencao ->
  In (par_atencao (f p (de_pares a (F32.zero, F32.zero)))) grade_atencao.
Proof.
  unfold fecha_atencao. intros H Hp Ha.
  rewrite forallb_forall in H. specialize (H p Hp).
  rewrite forallb_forall in H. apply pertence_In, H, Ha.
Qed.

Lemma fecha_relaxamento_In f p r :
  fecha_relaxamento f = true -> In p indices -> In r grade_relaxamento ->
  In (par_relaxamento (f p (de_pares (F32.zero, F32.zero) r))) grade_relaxamento.
Proof.
  unfold fecha_relaxamento. intros H Hp Hr.
  rewrite forallb_forall in H. specialize (H p Hp).
  rewrite forallb_forall in H. apply pertence_In, H, Hr.
Qed.

Lemma aumentar_na_grade p l : na_grade l -> na_grade (aumentar p l).
Proof.
  intros [Ha Hr]. destruct (indice_ou_fora p) as [Hp | Hp].
  - split.
    + rewrite (aumentar_local_atencao p l (F32.zero, F32.zero)).
      now apply fecha_atencao_In; [apply fecha_atencao_aumentar | |].
    + rewrite (aumentar_local_relaxamento p l (F32.zero, F32.zero)).
      now apply fecha_relaxamento_In; [apply fecha_relaxamento_aumentar | |].
  - rewrite aumentar_fora by assumption. now split.
Qed.

Lemma diminuir_na_grade p l : na_grade l -> na_grade (diminuir p l).
Proof.
  intros [Ha Hr]. destruct (indice_ou_fora p) as [Hp | Hp].
  - split.
    + rewrite (diminuir_local_atencao p l (F32.zero, F32.zero)).
      now apply fecha_atencao_In; [apply fecha_atencao_diminuir | |].
    + rewrite (diminuir_local_relaxamento p l (F32.zero, F32.zero)).
      now apply fecha_relaxamento_In; [apply fecha_relaxamento_diminuir | |].
  - rewrite diminuir_fora by assumption. now split.
Qed.

Lemma ajustar_na_grade a l : na_grade l -> na_grade (ajustar a l).
Proof. destruct a; simpl; [apply aumentar_na_grade | apply diminuir_na_grade]. Qed.

Lemma iniciais_na_grade : na_grade limiares_iniciais.
Proof. split; apply pertence_In; vm_compute; reflexivity. Qed.

Lemma ajustar_todos_na_grade ops : forall l, na_grade l -> na_grade (ajustar_todos ops l).
Proof.
  induction ops as [|a ops IH]; intros l Hl; simpl; [assumption|].
  apply IH, ajustar_na_grade, Hl.
Qed.

Lemma na_grade_ok l : na_grade l -> limiares_ok l = true.
Proof.
  intros [Ha Hr]. unfold limiares_ok.
  pose proof grade_atencao_ok as Ga. pose proof grade_relaxamento_ok as Gr.
  rewrite forallb_forall in Ga, Gr.
  rewrite (Ga _ Ha), (Gr _ Hr). reflexivity.
Qed.

(** C1. Starting from the default thresholds, after every sequence of
    increase and decrease requests, on any parameter index, and after one
    more request of either kind, both pairs are ordered ([baixo < alto]),
    keep their minimal gap (5.0 and 0.5), and stay within [5.0, 100.0] and
    [0.5, 10.0].  The requests are total functions: a request that would
    leave the range returns the clamped value. *)
Theorem limiares_sempre_validos :
  forall (ops : list Ajuste) (a : Ajuste),
    let l := ajustar a (ajustar_todos ops limiares_iniciais) in
    (limiar_atencao_baixo l < limiar_atencao_alto l)%f32 = true
    /\ (limiar_relaxamento_baixo l < limiar_relaxamento_alto l)%f32 = true
    /\ (limiar_atencao_alto l - limiar_atencao_baixo l >= c5)%f32 = true
    /\ (limiar_relaxamento_alto l - limiar_relaxamento_baixo l >= c0_5)%f32 = true
    /\ (c5 <= limiar_atencao_baixo l)%f32 = true
    /\ (limiar_atencao_alto l <= c100)%f32 = true
    /\ (c0_5 <= limiar_relaxamento_baixo l)%f32 = true
    /\ (limiar_relaxamento_alto l <= c10)%f32 = true
    /\ limiares_ok l = true.
Proof.
  intros ops a l.
  assert (Hok : limiares_ok l = true).
  { apply na_grade_ok, ajustar_na_grade, ajustar_todos_na_grade, iniciais_na_grade. }
  pose proof Hok as H. unfold limiares_ok, par_ok, par_atencao, par_relaxamento in H.
  apply andb_prop in H as [Ha Hr].
  repeat (apply andb_prop in Ha; destruct Ha as [Ha ?]).
  repeat (apply andb_prop in Hr; destruct Hr as [Hr ?]).
  repeat split; assumption.
Qed.

(** Requests beyond a bound are answered with the bound. *)
Example limiares_no_teto :
  ajustar_todos (repeat (Aumentar 1) 10 ++ repeat (Aumentar 3) 10) limiares_iniciais
  = mkLimiares (F32.of_Z 30) c100 (F32.of_Z 3) c10.
Proof. vm_compute. reflexivity. Qed.

Example limiares_no_piso :
  ajustar_todos (repeat (Diminuir 0) 10 ++ repeat (Diminuir 2) 10) limiares_iniciais
  = mkLimiares c5 (F32.of_Z 70) c0_5 (F32.of_Z 7).
Proof. vm_compute. reflexivity. Qed.

Example limiares_encostados :
  ajustar_todos (repeat (Aumentar 0) 10 ++ repeat (Diminuir 3) 10) limiares_iniciais
  = mkLimiares (F32.of_Z 65) (F32.of_Z 70) (F32.of_Z 3) (F32.dyadic 7 (-1)).
Proof. vm_compute. reflexivity. Qed.

(** ** Cognitive classifier *)

Ltac decidir_ifs :=
  repeat match goal with
         | |- context [if ?c then _ else _] =>
             lazymatch c with
             | context [if _ then _ else _] => fail
             | _ => destruct c eqn:?
             end
         end.

(** The six rules, each under the failure of the guards before it. *)
Lemma regras_do_classificador (e : EstadoCognitivo) (l : Limiares) :
  let a_alta := (atencao e >= limiar_atencao_alto l)%f32 in
  let a_baixa := (atencao e < limiar_atencao_baixo l)%f32 in
  let r_alto := (relaxamento e >= limiar_relaxamento_alto l)%f32 in
  let r_baixo := (relaxamento e < limiar_relaxamento_baixo l)%f32 in
  (a_alta = true -> r_alto = true -> determinar_estado_cognitivo e l = 4)
  /\ (a_alta = true -> r_alto = false -> r_baixo = true ->
      determinar_estado_cognitivo e l = 5)
  /\ (a_alta = true -> r_alto = false -> r_baixo = false ->
      determinar_estado_cognitivo e l = 2)
  /\ (a_alta = false -> a_baixa = true -> determinar_estado_cognitivo e l = 0)
  /\ (a_alta = false -> a_baixa = false -> r_alto = true ->
      determinar_estado_cognitivo e l = 3)
  /\ (a_alta = false -> a_baixa = false -> r_alto = false ->
      determinar_estado_cognitivo e l = 1).
Proof.
  unfold determinar_estado_cognitivo. cbv zeta.
  repeat split; intros; repeat match goal with H : _ = _ |- _ => rewrite H end; reflexivity.
Qed.

(** C2. The classifier is the first-match reading of the six rules in
    their order (Flow, Anxious, Concentrated, Distracted, DeepRelaxation,
    otherwise Normal), and on the default thresholds (30/70, 3/7) it
    labels (75,8) Flow, (75,2) Anxious, (20,5) Distracted, (50,5) Normal,
    (50,8) DeepRelaxation and (80,5) Concentrated. *)
Theorem classificador_em_ordem :
  (forall (e : EstadoCognitivo) (l : Limiares),
      estado_nome (determinar_estado_cognitivo e l)
      = Some (classificar_especificacao e l))
  /\ estado_nome (determinar_estado_cognitivo (leitura 75 8) limiares_iniciais) = Some EstadoFlow
  /\ estado_nome (determinar_estado_cognitivo (leitura 75 2) limiares_iniciais) = Some Ansioso
  /\ estado_nome (determinar_estado_cognitivo (leitura 20 5) limiares_iniciais) = Some Distraido
  /\ estado_nome (determinar_estado_cognitivo (leitura 50 5) limiares_iniciais) = Some Normal
  /\ estado_nome (determinar_estado_cognitivo (leitura 50 8) limiares_iniciais) = Some Relaxado
  /\ estado_nome (determinar_estado_cognitivo (leitura 80 5) limiares_iniciais) = Some Concentrado.
Proof.
  split.
  - intros e l.
    unfold determinar_estado_cognitivo, classificar_especificacao,
      regras_da_especificacao, primeira_regra.
    decidir_ifs; reflexivity.
  - repeat split; vm_compute; reflexivity.
Qed.

(** ** Button callback: debounce and mode cycle *)

Lemma tratar_botao_stamp fall gpio events s :
  last_button_time (fst (tratar_botao fall gpio events s)) = last_button_time s.
Proof. unfold tratar_botao. decidir_ifs; reflexivity. Qed.

Lemma button_callback_aceito fall gpio events us s :
  DEBOUNCE_DELAY_MS <= u32 (ms us - last_button_time s) ->
  button_callback fall gpio events us s
  = tratar_botao fall gpio events (com_last_button_time (ms us) s).
Proof.
  intros H. unfold button_callback.
  destruct (Z.ltb_spec (u32 (ms us - last_button_time s)) DEBOUNCE_DELAY_MS); [lia | reflexivity].
Qed.

Lemma button_callback_suprimido fall gpio events us s :
  u32 (ms us - last_button_time s) < DEBOUNCE_DELAY_MS ->
  button_callback fall gpio events us s = (s, None).
Proof.
  intros H. unfold button_callback.
  destruct (Z.ltb_spec (u32 (ms us - last_button_time s)) DEBOUNCE_DELAY_MS); [reflexivity | lia].
Qed.

Lemma next_aceito fall events us s :
  borda_de_descida fall events = true ->
  in_set_mode s = false ->
  DEBOUNCE_DELAY_MS <= u32 (ms us - last_button_time s) ->
  fst (button_callback fall BUTTON_NEXT events us s)
  = com_menu_index (Z.rem (menu_index s + 1) 4) (com_last_button_time (ms us) s).
Proof.
  intros Hf Hm Hd. rewrite button_callback_aceito by assumption.
  unfold tratar_botao. rewrite Hf. simpl. rewrite Hm. reflexivity.
Qed.

Lemma back_aceito fall events us s :
  borda_de_descida fall events = true ->
  in_set_mode s = false ->
  DEBOUNCE_DELAY_MS <= u32 (ms us - last_button_time s) ->
  fst (button_callback fall BUTTON_BACK events us s)
  = com_menu_index (Z.rem (menu_index s + 3) 4) (com_last_button_time (ms us) s).
Proof.
  intros Hf Hm Hd. rewrite button_callback_aceito by assumption.
  unfold tratar_botao. rewrite Hf. simpl. rewrite Hm. reflexivity.
Qed.

Lemma configuracao_so_next e s :
  botao_next e = true -> botao_back e = false ->
  executar_modo_configuracao e s
  = if passou_debounce (us_next e) s
    then com_limiares (aumentar (current_param s) (limiares s))
           (com_last_button_time (ms (us_next e)) s)
    else s.
Proof.
  intros Hn Hb. unfold executar_modo_configuracao. rewrite Hn, Hb. cbn [andb].
  destruct (passou_debounce (us_next e) s); reflexivity.
Qed.

Lemma configuracao_so_back e s :
  botao_next e = false -> botao_back e = true ->
  executar_modo_configuracao e s
  = if passou_debounce (us_back e) s
    then com_limiares (diminuir (current_param s) (limiares s))
           (com_last_button_time (ms (us_back e)) s)
    else s.
Proof.
  intros Hn Hb. unfold executar_modo_configuracao. rewrite Hn, Hb. cbn [andb].
  destruct (passou_debounce (us_back e) s); reflexivity.
Qed.

(** C6. The two debounce tests of the source.  The callback (line 1012)
    runs an edge read [d] ms after the stamp exactly when [d >= 200]
    (unsigned 32-bit subtraction): it then stamps [last_button_time] and
    runs the branch of the pin, and otherwise returns with every global
    as it was; so after an accepted edge a second edge of the same
    source less than 200 ms later changes nothing, one at least 200 ms
    later is run too, and two NEXT edges outside the overlay move the
    menu by one in the first case and by two in the second.  The polled
    tests of [executar_modo_configuracao] (lines 628 and 670) run a held
    NEXT or BACK exactly when [d > 200].  A press read exactly 200 ms
    after the stamp is therefore run by the callback and dropped by the
    polled test. *)
Theorem debounce_nos_dois_caminhos :
  forall (fall gpio events us : Z) (e : Entrada) (s : Sistema),
    let d := u32 (ms us - last_button_time s) in
    let r := fst (button_callback fall gpio events us s) in
    let dn := u32 (ms (us_next e) - last_button_time s) in
    let db := u32 (ms (us_back e) - last_button_time s) in
    (d < DEBOUNCE_DELAY_MS -> r = s)
    /\ (DEBOUNCE_DELAY_MS <= d ->
        last_button_time r = ms us
        /\ r = fst (tratar_botao fall gpio events (com_last_button_time (ms us) s))
        /\ forall us' : Z,
             let r' := fst (button_callback fall gpio events us' r) in
             (u32 (ms us' - ms us) < DEBOUNCE_DELAY_MS -> r' = r)
             /\ (DEBOUNCE_DELAY_MS <= u32 (ms us' - ms us) ->
                 last_button_time r' = ms us'
                 /\ r' = fst (tratar_botao fall gpio events
                                (com_last_button_time (ms us') r))))
    /\ (DEBOUNCE_DELAY_MS <= d ->
        gpio = BUTTON_NEXT -> borda_de_descida fall events = true ->
        in_set_mode s = false ->
        forall us' : Z,
          menu_index (fst (button_callback fall gpio events us' r))
          = if u32 (ms us' - ms us) <? DEBOUNCE_DELAY_MS
            then Z.rem (menu_index s + 1) 4
            else Z.rem (Z.rem (menu_index s + 1) 4 + 1) 4)
    /\ (botao_next e = true -> botao_back e = false ->
        (dn <= DEBOUNCE_DELAY_MS -> executar_modo_configuracao e s = s)
        /\ (DEBOUNCE_DELAY_MS < dn ->
            executar_modo_configuracao e s
            = com_limiares (aumentar (current_param s) (limiares s))
                (com_last_button_time (ms (us_next e)) s)))
    /\ (botao_next e = false -> botao_back e = true ->
        (db <= DEBOUNCE_DELAY_MS -> executar_modo_configuracao e s = s)
        /\ (DEBOUNCE_DELAY_MS < db ->
            executar_modo_configuracao e s
            = com_limiares (diminuir (current_param s) (limiares s))
                (com_last_button_time (ms (us_back e)) s)))
    /\ (d = DEBOUNCE_DELAY_MS -> dn = DEBOUNCE_DELAY_MS ->
        botao_next e = true -> botao_back e = false ->
        last_button_time r = ms us /\ executar_modo_configuracao e s = s).
Proof.
  intros fall gpio events us e s d r dn db.
  assert (Hsu : d < DEBOUNCE_DELAY_MS -> r = s).
  { intros H. unfold r. rewrite button_callback_suprimido by exact H. reflexivity. }
  assert (Hac : DEBOUNCE_DELAY_MS <= d ->
                last_button_time r = ms us
                /\ r = fst (tratar_botao fall gpio events (com_last_button_time (ms us) s))).
  { intros H. unfold r. rewrite button_callback_aceito by exact H.
    split; [|reflexivity]. rewrite tratar_botao_stamp. reflexivity. }
  assert (Hpo : botao_next e = true -> botao_back e = false ->
                (dn <= DEBOUNCE_DELAY_MS -> executar_modo_configuracao e s = s)
                /\ (DEBOUNCE_DELAY_MS < dn ->
                    executar_modo_configuracao e s
                    = com_limiares (aumentar (current_param s) (limiares s))
                        (com_last_button_time (ms (us_next e)) s))).
  { intros Hn Hb. rewrite (configuracao_so_next e s Hn Hb). unfold passou_debounce.
    fold dn. destruct (Z.ltb_spec DEBOUNCE_DELAY_MS dn); split; intros; try lia; reflexivity. }
  assert (Hpb : botao_next e = false -> botao_back e = true ->
                (db <= DEBOUNCE_DELAY_MS -> executar_modo_configuracao e s = s)
                /\ (DEBOUNCE_DELAY_MS < db ->
                    executar_modo_configuracao e s
                    = com_limiares (diminuir (current_param s) (limiares s))
                        (com_last_button_time (ms (us_back e)) s))).
  { intros Hn Hb. rewrite (configuracao_so_back e s Hn Hb). unfold passou_debounce.
    fold db. destruct (Z.ltb_spec DEBOUNCE_DELAY_MS db); split; intros; try lia; reflexivity. }
  split; [exact Hsu|]. split; [|split; [|split; [exact Hpo|split; [exact Hpb|]]]].
  - intros Hd. destruct (Hac Hd) as [Hst Hr]. split; [exact Hst|]. split; [exact Hr|].
    intros us' r'. unfold r'. split; intros H.
    + rewrite button_callback_suprimido by (rewrite Hst; exact H). reflexivity.
    + rewrite button_callback_aceito by (rewrite Hst; exact H).
      split; [|reflexivity]. rewrite tratar_botao_stamp. reflexivity.
  - intros Hd -> Hf Ho us'.
    assert (Er : r = com_menu_index (Z.rem (menu_index s + 1) 4)
                       (com_last_button_time (ms us) s)).
    { unfold r. apply next_aceito; assumption. }
    rewrite Er. destruct (Z.ltb_spec (u32 (ms us' - ms us)) DEBOUNCE_DELAY_MS) as [H | H].
    + rewrite button_callback_suprimido by exact H. reflexivity.
    + rewrite next_aceito; [reflexivity | exact Hf | exact Ho | exact H].
  - intros Ed En Hn Hb. split.
    + apply Hac. lia.
    + apply (Hpo Hn Hb). lia.
Qed.

Lemma debounce_nos_dois_caminhos_witness :
  last_button_time
    (fst (button_callback 4 BUTTON_NEXT 4 1200000
            (executar 4 na_visao_de_configuracao (sistema_inicial 0)))) = 1200
  /\ executar_modo_configuracao next_aos_1200ms
       (executar 4 na_visao_de_configuracao (sistema_inicial 0))
     = executar 4 na_visao_de_configuracao (sistema_inicial 0).
Proof.
  exact (proj2 (proj2 (proj2 (proj2 (proj2
           (debounce_nos_dois_caminhos 4 BUTTON_NEXT 4 1200000 next_aos_1200ms
              (executar 4 na_visao_de_configuracao (sistema_inicial 0)))))))
           eq_refl eq_refl eq_refl eq_refl).
Defined.

(** C9. With no edit overlay ([in_set_mode] false) and a mode index in
    the cycle, an accepted NEXT edge sets [menu_index] to
    [(menu_index + 1) mod 4] and an accepted BACK edge to
    [(menu_index + 3) mod 4].  From Monitoring, four accepted NEXT edges
    visit ConfigView, Training, History and return to Monitoring, and one
    accepted BACK edge reaches History. *)
Theorem ciclo_de_modos :
  forall (fall events us : Z) (s : Sistema),
    borda_de_descida fall events = true ->
    in_set_mode s = false ->
    0 <= menu_index s ->
    DEBOUNCE_DELAY_MS <= u32 (ms us - last_button_time s) ->
    menu_index (fst (button_callback fall BUTTON_NEXT events us s))
    = (menu_index s + 1) mod 4
    /\ menu_index (fst (button_callback fall BUTTON_BACK events us s))
       = (menu_index s + 3) mod 4
    /\ (menu_index s = 0 ->
        modo_do_indice (menu_index (fst (button_callback fall BUTTON_BACK events us s)))
        = Some Historico)
    /\ (forall us2 us3 us4 : Z,
          menu_index s = 0 ->
          DEBOUNCE_DELAY_MS <= u32 (ms us2 - ms us) ->
          DEBOUNCE_DELAY_MS <= u32 (ms us3 - ms us2) ->
          DEBOUNCE_DELAY_MS <= u32 (ms us4 - ms us3) ->
          let nexts := [Interrupcao BUTTON_NEXT events us; Interrupcao BUTTON_NEXT events us2;
                        Interrupcao BUTTON_NEXT events us3; Interrupcao BUTTON_NEXT events us4] in
          map (fun k => modo_do_indice (menu_index (executar fall (firstn k nexts) s)))
              [0; 1; 2; 3; 4]%nat
          = [Some Monitoramento; Some Configuracao; Some Treinamento;
             Some Historico; Some Monitoramento]).
Proof.
  intros fall events us s Hf Hm H0 Hd.
  rewrite next_aceito, back_aceito by assumption. simpl.
  repeat split.
  - apply Z.rem_mod_nonneg; lia.
  - apply Z.rem_mod_nonneg; lia.
  - intros E. rewrite E. reflexivity.
  - intros us2 us3 us4 E H2 H3 H4. simpl.
    rewrite next_aceito by assumption.
    rewrite next_aceito by (simpl; assumption).
    rewrite next_aceito by (simpl; assumption).
    rewrite next_aceito by (simpl; assumption).
    simpl. rewrite E. reflexivity.
Qed.

Lemma ciclo_de_modos_witness :
  menu_index (fst (button_callback 4 BUTTON_NEXT 4 300000 (sistema_inicial 0))) = (0 + 1) mod 4
  /\ menu_index (fst (button_callback 4 BUTTON_BACK 4 300000 (sistema_inicial 0))) = (0 + 3) mod 4.
Proof.
  destruct (ciclo_de_modos 4 4 300000 (sistema_inicial 0)) as (H1 & H2 & _).
  - reflexivity.
  - reflexivity.
  - simpl; lia.
  - vm_compute; discriminate.
  - split; [exact H1 | exact H2].
Defined.

(** ** Statistics *)

Lemma dividir_por_amostras_None soma n :
  dividir_por_amostras soma n = None <-> n = 0.
Proof.
  unfold dividir_por_amostras. destruct (Z.eqb_spec n 0); split; intros; congruence.
Qed.

(** C8. For every statistics record the two means are computed without
    dividing by a zero sample count: with [amostras > 0] they are the two
    sums divided by the sample count, with [amostras = 0] both are 0. *)
Theorem medias_sem_divisao_por_zero :
  forall st : Estatisticas,
    calcular_medias st
    = Some (if 0 <? amostras st
            then ((soma_atencao st / F32.of_Z (amostras st))%f32,
                  (soma_relaxamento st / F32.of_Z (amostras st))%f32)
            else (F32.zero, F32.zero))
    /\ (0 < amostras st ->
        dividir_por_amostras (soma_atencao st) (amostras st) <> None
        /\ dividir_por_amostras (soma_relaxamento st) (amostras st) <> None)
    /\ (amostras st = 0 -> calcular_medias st = Some (F32.zero, F32.zero)).
Proof.
  intros st. unfold calcular_medias, dividir_por_amostras.
  destruct (Z.ltb_spec 0 (amostras st)) as [Hpos | Hle].
  - destruct (Z.eqb_spec (amostras st) 0) as [E | N]; [lia|].
    split; [reflexivity|]. split; [intros _; split; discriminate | intros E; lia].
  - split; [reflexivity|]. split; [intros H; lia | intros _; reflexivity].
Qed.

Lemma medias_sem_divisao_por_zero_witness :
  calcular_medias (mkEstatisticas (F32.of_Z 30) (F32.of_Z 6) (F32.of_Z 10) (F32.of_Z 2) 4 0 0 0)
  = Some (F32.dyadic 15 (-1), F32.dyadic 3 (-1))
  /\ dividir_por_amostras (F32.of_Z 30) 4 <> None.
Proof.
  destruct (medias_sem_divisao_por_zero
              (mkEstatisticas (F32.of_Z 30) (F32.of_Z 6) (F32.of_Z 10) (F32.of_Z 2) 4 0 0 0))
    as (H1 & H2 & _).
  split.
  - rewrite H1. vm_compute. reflexivity.
  - apply H2. simpl. lia.
Defined.

(** C7. The clearing branch of the history mode zeroes both sums, both
    maxima, the sample count and the session counter and stamps
    [tempo_inicio], and clearing twice at the same clock value equals
    clearing once; it leaves [tempo_ultimo_treino] as it was: after a
    failed session of 300 s the cleared record still holds 300. *)
Theorem limpeza_das_estatisticas :
  (forall (us : Z) (st : Estatisticas),
      limpar_estatisticas us st
      = mkEstatisticas F32.zero F32.zero F32.zero F32.zero 0 (seg us)
          (tempo_ultimo_treino st) 0)
  /\ (forall (us : Z) (st : Estatisticas),
         limpar_estatisticas us (limpar_estatisticas us st) = limpar_estatisticas us st)
  /\ stats (executar 4 (firstn 5 falha_e_limpeza) (sistema_inicial 0))
     = mkEstatisticas F32.zero F32.zero F32.zero F32.zero 0 0 300 1
  /\ stats (executar 4 falha_e_limpeza (sistema_inicial 0))
     = mkEstatisticas F32.zero F32.zero F32.zero F32.zero 0 304 300 0.
Proof.
  split; [intros us st; destruct st; reflexivity|].
  split; [intros us st; destruct st; reflexivity|].
  split; vm_compute; reflexivity.
Qed.

(** ** Training session: one turn, phase by phase *)

Ltac campos :=
  cbn [menu_index in_set_mode current_param last_button_time estado_atual
       limiares stats treinamento
       nivel_atual nivel_maximo duracao objetivo status inicio pontuacao
       soma_atencao soma_relaxamento max_atencao max_relaxamento amostras
       tempo_inicio tempo_ultimo_treino sessoes_concluidas
       atencao relaxamento
       no_treinamento nas_stats
       com_menu_index com_in_set_mode com_current_param com_last_button_time
       com_estado_atual com_limiares com_stats com_treinamento
       com_status com_nivel_atual com_nivel_maximo com_duracao com_objetivo
       com_inicio com_pontuacao
       com_soma_atencao com_soma_relaxamento com_max_atencao com_max_relaxamento
       com_amostras com_tempo_inicio com_tempo_ultimo_treino com_sessoes_concluidas
       fst snd] in *.

Ltac decidir :=
  repeat match goal with
         | |- context [if ?c then _ else _] =>
             lazymatch c with
             | context [if _ then _ else _] => fail
             | _ => destruct c eqn:?; campos
             end
         end.

Lemma objetivo_atingido_ext s1 s2 :
  objetivo (treinamento s1) = objetivo (treinamento s2) ->
  estado_atual s1 = estado_atual s2 ->
  limiares s1 = limiares s2 ->
  objetivo_atingido s1 = objetivo_atingido s2.
Proof. unfold objetivo_atingido. intros -> -> ->. reflexivity. Qed.

Lemma turno_em_andamento e s :
  status (treinamento s) = 1 ->
  executar_modo_treinamento e s
  = voltar_ao_inicio e (verificar_tempo_limite e (pontuar e (com_leituras e s))).
Proof.
  intros H. unfold executar_modo_treinamento, com_leituras. campos. rewrite H. reflexivity.
Qed.

Lemma turno_terminado e s :
  status (treinamento s) = 2 \/ status (treinamento s) = 3 ->
  executar_modo_treinamento e s = voltar_ao_inicio e (com_leituras e s).
Proof.
  intros H. unfold executar_modo_treinamento, com_leituras. campos.
  destruct H as [H | H]; rewrite H; reflexivity.
Qed.

Lemma turno_parado e s :
  status (treinamento s) = 0 ->
  executar_modo_treinamento e s = preparar_treinamento e (com_leituras e s).
Proof.
  intros H. unfold executar_modo_treinamento, com_leituras. campos. rewrite H. reflexivity.
Qed.

Lemma pontuar_treinamento e s :
  treinamento (pontuar e s)
  = mkTreinamento
      (if subiu s then u8 (nivel_atual (treinamento s) + 1) else nivel_atual (treinamento s))
      (nivel_maximo (treinamento s))
      (if concluiu s then u32 (seg (us_conclusao e) - inicio (treinamento s))
       else duracao (treinamento s))
      (objetivo (treinamento s))
      (if concluiu s then 2 else status (treinamento s))
      (inicio (treinamento s))
      (if objetivo_atingido s then u32 (pontuacao (treinamento s) + 1)
       else pontuacao (treinamento s)).
Proof.
  unfold pontuar, concluiu, subiu, contar_sessao.
  destruct s as [mi sm cp lb ea li st [na nm du ob sts ini po]]. campos.
  destruct (objetivo_atingido _); campos; [|reflexivity].
  destruct (Z.rem (u32 (po + 1)) 50 =? 0); campos; [|reflexivity].
  destruct (na <? nm); campos; [|reflexivity].
  destruct (u8 (na + 1) =? nm); reflexivity.
Qed.

Lemma pontuar_stats e s :
  stats (pontuar e s)
  = if concluiu s then
      com_tempo_ultimo_treino (u32 (seg (us_conclusao e) - inicio (treinamento s)))
        (com_sessoes_concluidas (u8 (sessoes_concluidas (stats s) + 1)) (stats s))
    else stats s.
Proof.
  unfold pontuar, concluiu, subiu, contar_sessao.
  destruct s as [mi sm cp lb ea li st [na nm du ob sts ini po]]. campos.
  destruct (objetivo_atingido _); campos; [|reflexivity].
  destruct (Z.rem (u32 (po + 1)) 50 =? 0); campos; [|reflexivity].
  destruct (na <? nm); campos; [|reflexivity].
  destruct (u8 (na + 1) =? nm); reflexivity.
Qed.

Lemma pontuar_resto e s :
  menu_index (pontuar e s) = menu_index s
  /\ in_set_mode (pontuar e s) = in_set_mode s
  /\ current_param (pontuar e s) = current_param s
  /\ last_button_time (pontuar e s) = last_button_time s
  /\ estado_atual (pontuar e s) = estado_atual s
  /\ limiares (pontuar e s) = limiares s.
Proof.
  unfold pontuar, contar_sessao. destruct s as [mi sm cp lb ea li st t]. campos.
  decidir; repeat split; reflexivity.
Qed.

(** What [verificar_tempo_limite] writes. *)
Lemma verificar_treinamento e s :
  treinamento (verificar_tempo_limite e s)
  = if 300 <=? tempo_decorrido e s then
      com_duracao (tempo_decorrido e s)
        (com_status (if nivel_atual (treinamento s) <? nivel_maximo (treinamento s)
                     then 3 else 2) (treinamento s))
    else treinamento s.
Proof.
  unfold verificar_tempo_limite, contar_sessao, tempo_decorrido.
  destruct s as [mi sm cp lb ea li st [na nm du ob sts ini po]]. campos.
  decidir; reflexivity.
Qed.

Lemma verificar_stats e s :
  stats (verificar_tempo_limite e s)
  = if 300 <=? tempo_decorrido e s then
      com_tempo_ultimo_treino (tempo_decorrido e s)
        (com_sessoes_concluidas (u8 (sessoes_concluidas (stats s) + 1)) (stats s))
    else stats s.
Proof.
  unfold verificar_tempo_limite, contar_sessao, tempo_decorrido.
  destruct s as [mi sm cp lb ea li st [na nm du ob sts ini po]]. campos.
  decidir; reflexivity.
Qed.

Lemma verificar_resto e s :
  last_button_time (verificar_tempo_limite e s) = last_button_time s
  /\ estado_atual (verificar_tempo_limite e s) = estado_atual s
  /\ limiares (verificar_tempo_limite e s) = limiares s.
Proof.
  unfold verificar_tempo_limite, contar_sessao. destruct s as [mi sm cp lb ea li st t]. campos.
  decidir; repeat split; reflexivity.
Qed.

Lemma voltar_treinamento e s :
  treinamento (voltar_ao_inicio e s)
  = if set_aceito e s then com_status 0 (treinamento s) else treinamento s.
Proof.
  unfold voltar_ao_inicio, set_aceito. destruct (botao_set e && _); reflexivity.
Qed.

Lemma voltar_resto e s :
  stats (voltar_ao_inicio e s) = stats s
  /\ estado_atual (voltar_ao_inicio e s) = estado_atual s
  /\ limiares (voltar_ao_inicio e s) = limiares s.
Proof.
  unfold voltar_ao_inicio. destruct (botao_set e && _); repeat split; reflexivity.
Qed.

Lemma set_aceito_so_stamp e s1 s2 :
  last_button_time s1 = last_button_time s2 -> set_aceito e s1 = set_aceito e s2.
Proof. unfold set_aceito, passou_debounce. intros ->. reflexivity. Qed.

(** C4. In a turn of a running session whose clock read at the limit
    test gives [now - inicio >= 300] (seconds, unsigned 32-bit
    subtraction), the limit branch ends the session: the status becomes 3
    (failed) when the level is below [nivel_maximo] and 2 (completed)
    otherwise, [duracao] and [tempo_ultimo_treino] take the elapsed time
    and [sessoes_concluidas] is incremented (8-bit counter).  This is also
    the state the turn returns unless SET is accepted in the same turn. *)
Theorem limite_de_tempo :
  forall (e : Entrada) (s : Sistema),
    status (treinamento s) = 1 ->
    300 <= u32 (seg (us_limite e) - inicio (treinamento s)) ->
    let decorrido := u32 (seg (us_limite e) - inicio (treinamento s)) in
    let s1 := pontuar e (com_leituras e s) in
    let s2 := verificar_tempo_limite e s1 in
    let s' := executar_modo_treinamento e s in
    status (treinamento s2)
    = (if nivel_atual (treinamento s2) <? nivel_maximo (treinamento s2) then 3 else 2)
    /\ duracao (treinamento s2) = decorrido
    /\ tempo_ultimo_treino (stats s2) = decorrido
    /\ sessoes_concluidas (stats s2) = u8 (sessoes_concluidas (stats s1) + 1)
    /\ (status (treinamento s2) = 3 ->
        sessoes_concluidas (stats s2) = u8 (sessoes_concluidas (stats s) + 1))
    /\ (set_aceito e s = false -> s' = s2).
Proof.
  intros e s Hst Hlim decorrido s1 s2 s'.
  assert (Hini : inicio (treinamento s1) = inicio (treinamento s)).
  { unfold s1. rewrite pontuar_treinamento. reflexivity. }
  assert (Hdec : tempo_decorrido e s1 = decorrido).
  { unfold tempo_decorrido. rewrite Hini. reflexivity. }
  assert (Ht2 : treinamento s2
                = com_duracao decorrido
                    (com_status (if nivel_atual (treinamento s1) <? nivel_maximo (treinamento s1)
                                 then 3 else 2) (treinamento s1))).
  { unfold s2. rewrite verificar_treinamento, Hdec.
    destruct (Z.leb_spec 300 decorrido); [reflexivity | lia]. }
  assert (Hs2 : stats s2
                = com_tempo_ultimo_treino decorrido
                    (com_sessoes_concluidas (u8 (sessoes_concluidas (stats s1) + 1)) (stats s1))).
  { unfold s2. rewrite verificar_stats, Hdec.
    destruct (Z.leb_spec 300 decorrido); [reflexivity | lia]. }
  rewrite Ht2, Hs2. campos.
  repeat split.
  - intros H3. unfold s1. rewrite pontuar_stats.
    destruct (concluiu (com_leituras e s)) eqn:Hc; [|reflexivity].
    exfalso. revert H3. unfold s1. rewrite pontuar_treinamento. campos.
    unfold concluiu in Hc. apply andb_prop in Hc as [Hsub Heq]. rewrite Hsub.
    apply Z.eqb_eq in Heq. rewrite Heq, Z.ltb_irrefl. discriminate.
  - intros Hset. unfold s'. rewrite turno_em_andamento by assumption.
    fold s1. fold s2. unfold voltar_ao_inicio.
    replace (botao_set e && passou_debounce (us_set e) s2) with (set_aceito e s).
    + rewrite Hset. reflexivity.
    + apply set_aceito_so_stamp. unfold s2, s1.
      rewrite (proj1 (verificar_resto e _)).
      rewrite (proj1 (proj2 (proj2 (proj2 (pontuar_resto e _))))). reflexivity.
Qed.

Lemma limite_de_tempo_witness :
  status (treinamento (executar_modo_treinamento (sem_botoes 0 0 303000000) sessao_iniciada)) = 3
  /\ duracao (treinamento (executar_modo_treinamento (sem_botoes 0 0 303000000) sessao_iniciada))
     = 300
  /\ tempo_ultimo_treino (stats (executar_modo_treinamento (sem_botoes 0 0 303000000) sessao_iniciada))
     = 300
  /\ sessoes_concluidas (stats (executar_modo_treinamento (sem_botoes 0 0 303000000) sessao_iniciada))
     = 1.
Proof.
  destruct (limite_de_tempo (sem_botoes 0 0 303000000) sessao_iniciada)
    as (H1 & H2 & H3 & H4 & H5 & H6).
  - reflexivity.
  - vm_compute. discriminate.
  - rewrite (H6 eq_refl). rewrite H1, H2, H3, H4.
    vm_compute. repeat split; reflexivity.
Defined.

(** The whole turn of a running session, from its three phases. *)
Lemma turno_treinamento e s :
  status (treinamento s) = 1 ->
  let s2 := verificar_tempo_limite e (pontuar e (com_leituras e s)) in
  treinamento (executar_modo_treinamento e s)
  = (if set_aceito e s then com_status 0 (treinamento s2) else treinamento s2)
  /\ stats (executar_modo_treinamento e s) = stats s2
  /\ limiares (executar_modo_treinamento e s) = limiares s.
Proof.
  intros H s2. rewrite turno_em_andamento by assumption. fold s2.
  rewrite voltar_treinamento.
  replace (set_aceito e s2) with (set_aceito e s).
  - split; [reflexivity|]. split; [apply voltar_resto|].
    rewrite (proj2 (proj2 (voltar_resto e s2))). unfold s2.
    rewrite (proj2 (proj2 (verificar_resto e _))).
    rewrite (proj2 (proj2 (proj2 (proj2 (proj2 (pontuar_resto e _)))))). reflexivity.
  - apply set_aceito_so_stamp. unfold s2.
    rewrite (proj1 (verificar_resto e _)).
    rewrite (proj1 (proj2 (proj2 (proj2 (pontuar_resto e _))))). reflexivity.
Qed.

Lemma turno_stamp e s :
  status (treinamento s) = 1 -> set_aceito e s = false ->
  last_button_time (executar_modo_treinamento e s) = last_button_time s.
Proof.
  intros H Hs. rewrite turno_em_andamento by assumption.
  unfold voltar_ao_inicio.
  replace (botao_set e && passou_debounce (us_set e) _) with (set_aceito e s).
  - rewrite Hs. rewrite (proj1 (verificar_resto e _)).
    rewrite (proj1 (proj2 (proj2 (proj2 (pontuar_resto e _))))). reflexivity.
  - apply set_aceito_so_stamp.
    rewrite (proj1 (verificar_resto e _)).
    rewrite (proj1 (proj2 (proj2 (proj2 (pontuar_resto e _))))). reflexivity.
Qed.

(** Score, level and the fixed fields after a turn of a running session. *)
Lemma turno_pontos e s :
  status (treinamento s) = 1 ->
  let s0 := com_leituras e s in
  let t' := treinamento (executar_modo_treinamento e s) in
  pontuacao t' = (if objetivo_atingido s0 then u32 (pontuacao (treinamento s) + 1)
                  else pontuacao (treinamento s))
  /\ nivel_atual t' = (if subiu s0 then u8 (nivel_atual (treinamento s) + 1)
                       else nivel_atual (treinamento s))
  /\ nivel_maximo t' = nivel_maximo (treinamento s)
  /\ inicio t' = inicio (treinamento s)
  /\ objetivo t' = objetivo (treinamento s).
Proof.
  intros H s0 t'. unfold t'.
  rewrite (proj1 (turno_treinamento e s H)).
  rewrite verificar_treinamento, pontuar_treinamento. fold s0.
  destruct (set_aceito e s), (300 <=? _); campos; repeat split; reflexivity.
Qed.

Lemma u32_pequeno x : 0 <= x < 2 ^ 32 -> u32 x = x.
Proof. intros H. unfold u32. apply Z.mod_small. exact H. Qed.

Lemma u8_pequeno x : 0 <= x < 2 ^ 8 -> u8 x = x.
Proof. intros H. unfold u8. apply Z.mod_small. exact H. Qed.

Lemma subiu_sem_overflow s :
  0 <= pontuacao (treinamento s) < 2 ^ 32 - 1 ->
  subiu s = objetivo_atingido s
            && ((pontuacao (treinamento s) + 1) mod 50 =? 0)
            && (nivel_atual (treinamento s) <? nivel_maximo (treinamento s)).
Proof.
  intros H. unfold subiu. rewrite u32_pequeno by lia.
  rewrite Z.rem_mod_nonneg by lia. reflexivity.
Qed.

Lemma turno_bom_estavel e s e2 :
  status (treinamento s) = 1 -> set_aceito e s = false ->
  turno_bom s e2 -> turno_bom (executar_modo_treinamento e s) e2.
Proof.
  intros H Hs (Ho & Ht & Hc).
  destruct (turno_pontos e s H) as (_ & _ & _ & Hi & Hob).
  unfold turno_bom. rewrite Hi. repeat split.
  - rewrite <- Ho. apply objetivo_atingido_ext.
    + exact Hob.
    + reflexivity.
    + apply (turno_treinamento e s H).
  - exact Ht.
  - rewrite <- Hc. apply set_aceito_so_stamp. now apply turno_stamp.
Qed.

(** A good turn below level 9 and below the wrap of the score. *)
Lemma turno_bom_passo e s :
  status (treinamento s) = 1 ->
  turno_bom s e ->
  0 <= pontuacao (treinamento s) < 2 ^ 32 - 1 ->
  0 <= nivel_atual (treinamento s) ->
  nivel_atual (treinamento s) + 1 < nivel_maximo (treinamento s) <= 255 ->
  let t' := treinamento (executar_modo_treinamento e s) in
  status t' = 1
  /\ pontuacao t' = pontuacao (treinamento s) + 1
  /\ nivel_atual t' = (if (pontuacao (treinamento s) + 1) mod 50 =? 0
                       then nivel_atual (treinamento s) + 1
                       else nivel_atual (treinamento s))
  /\ nivel_maximo t' = nivel_maximo (treinamento s).
Proof.
  intros H (Ho & Ht & Hc) Hp Hn Hm t'. unfold t'.
  rewrite (proj1 (turno_treinamento e s H)), Hc.
  rewrite verificar_treinamento.
  assert (Hd : tempo_decorrido e (pontuar e (com_leituras e s))
               = u32 (seg (us_limite e) - inicio (treinamento s))).
  { unfold tempo_decorrido. rewrite pontuar_treinamento. reflexivity. }
  rewrite Hd. destruct (Z.leb_spec 300 (u32 (seg (us_limite e) - inicio (treinamento s)))); [lia|].
  rewrite pontuar_treinamento. campos.
  assert (Hconc : concluiu (com_leituras e s) = false).
  { unfold concluiu. apply andb_false_intro2. apply Z.eqb_neq.
    unfold com_leituras; campos. rewrite u8_pequeno by lia. lia. }
  rewrite Hconc, Ho. rewrite subiu_sem_overflow by (unfold com_leituras; campos; lia).
  rewrite Ho. unfold com_leituras; campos.
  rewrite u32_pequeno by lia. rewrite u8_pequeno by lia.
  replace (nivel_atual (treinamento s) <? nivel_maximo (treinamento s)) with true
    by (symmetry; apply Z.ltb_lt; lia).
  rewrite andb_true_r. simpl. repeat split; try reflexivity; exact H.
Qed.

Lemma treinar_bons :
  forall (es : list Entrada) (s : Sistema),
    status (treinamento s) = 1 ->
    nivel_atual (treinamento s) = 1 ->
    nivel_maximo (treinamento s) = 10 ->
    0 <= pontuacao (treinamento s) ->
    pontuacao (treinamento s) + Z.of_nat (length es) <= 50 ->
    Forall (turno_bom s) es ->
    let t' := treinamento (treinar es s) in
    status t' = 1
    /\ pontuacao t' = pontuacao (treinamento s) + Z.of_nat (length es)
    /\ nivel_atual t'
       = (if pontuacao (treinamento s) + Z.of_nat (length es) <? 50 then 1
          else if 0 <? Z.of_nat (length es) then 2 else 1)
    /\ nivel_maximo t' = 10.
Proof.
  induction es as [|e es IH]; intros s Hst Hn Hm Hp Hlen Hall.
  - simpl in *. rewrite Z.add_0_r, Hn, Hm.
    destruct (pontuacao (treinamento s) <? 50); repeat split; auto.
  - inversion Hall as [|? ? Hbom Hresto]; subst.
    change (length (e :: es)) with (S (length es)) in *.
    rewrite Nat2Z.inj_succ in *.
    destruct (turno_bom_passo e s Hst Hbom) as (Hst' & Hp' & Hn' & Hm'); try lia.
    change (treinar (e :: es) s) with (treinar es (executar_modo_treinamento e s)).
    assert (Hresto' : Forall (turno_bom (executar_modo_treinamento e s)) es).
    { eapply Forall_impl; [|exact Hresto].
      intros e2. apply turno_bom_estavel; [exact Hst | apply Hbom]. }
    destruct (Z.eq_dec (pontuacao (treinamento s) + 1) 50) as [E50 | N50].
    + assert (length es = 0%nat) by lia. destruct es; [|discriminate].
      simpl. rewrite Hst', Hp', Hn', Hm', Hn, Hm, E50.
      repeat split; reflexivity.
    + assert (Hmod : ((pontuacao (treinamento s) + 1) mod 50 =? 0) = false).
      { apply Z.eqb_neq. rewrite Z.mod_small by lia. lia. }
      rewrite Hmod in Hn'.
      specialize (IH (executar_modo_treinamento e s) Hst').
      rewrite Hn', Hm', Hp' in IH.
      destruct IH as (I1 & I2 & I3 & I4); try lia; try assumption.
      cbv zeta. rewrite I1, I2, I3, I4.
      replace (pontuacao (treinamento s) + Z.succ (Z.of_nat (length es)))
        with (pontuacao (treinamento s) + 1 + Z.of_nat (length es)) by lia.
      repeat split; try reflexivity.
      destruct (Z.ltb_spec (pontuacao (treinamento s) + 1 + Z.of_nat (length es)) 50);
        [reflexivity|].
      destruct (Z.ltb_spec 0 (Z.of_nat (length es))); [|lia].
      destruct (Z.ltb_spec 0 (Z.succ (Z.of_nat (length es)))); [reflexivity | lia].
Qed.

Lemma Forall_firstn_bom (P : Entrada -> Prop) k es :
  Forall P es -> Forall P (firstn k es).
Proof.
  intros H. rewrite Forall_forall in *. intros x Hx.
  apply H. rewrite <- (firstn_skipn k es). apply in_or_app. now left.
Qed.

(** C3. In a turn of a running session the objective is met when the
    attention reading is [>= limiar_atencao_alto] (objective 0), the
    relaxation reading is [>= limiar_relaxamento_alto] (objective 1), or
    both (objective 2).  When it is met the score grows by one and the
    level grows by one exactly when the new score is a multiple of 50 and
    the level is below [nivel_maximo]; when that increment reaches
    [nivel_maximo] the status becomes 2 (completed) and [duracao] is set.
    From score 0 and level 1 (of 10), fifty turns that meet the objective
    leave the level at 1 up to score 49 and raise it to 2 at score 50. *)
Theorem pontuacao_e_nivel :
  (forall s : Sistema,
      (objetivo (treinamento s) = 0 ->
       objetivo_atingido s
       = (atencao (estado_atual s) >= limiar_atencao_alto (limiares s))%f32)
      /\ (objetivo (treinamento s) = 1 ->
          objetivo_atingido s
          = (relaxamento (estado_atual s) >= limiar_relaxamento_alto (limiares s))%f32)
      /\ (objetivo (treinamento s) = 2 ->
          objetivo_atingido s
          = (atencao (estado_atual s) >= limiar_atencao_alto (limiares s))%f32
            && (relaxamento (estado_atual s) >= limiar_relaxamento_alto (limiares s))%f32))
  /\ (forall (e : Entrada) (s : Sistema),
         status (treinamento s) = 1 ->
         0 <= pontuacao (treinamento s) < 2 ^ 32 - 1 ->
         0 <= nivel_atual (treinamento s) ->
         nivel_maximo (treinamento s) <= 255 ->
         objetivo_atingido (com_leituras e s) = true ->
         let t := treinamento s in
         let s1 := pontuar e (com_leituras e s) in
         let t' := treinamento (executar_modo_treinamento e s) in
         pontuacao t' = pontuacao t + 1
         /\ nivel_atual t'
            = (if ((pontuacao t + 1) mod 50 =? 0) && (nivel_atual t <? nivel_maximo t)
               then nivel_atual t + 1 else nivel_atual t)
         /\ ((pontuacao t + 1) mod 50 = 0 ->
             nivel_atual t + 1 = nivel_maximo t ->
             status (treinamento s1) = 2
             /\ duracao (treinamento s1) = u32 (seg (us_conclusao e) - inicio t)
             /\ (set_aceito e s = false ->
                 status t' = 2
                 /\ (duracao t' = u32 (seg (us_conclusao e) - inicio t)
                     \/ duracao t' = u32 (seg (us_limite e) - inicio t)))))
  /\ (forall (es : list Entrada) (s : Sistema),
         status (treinamento s) = 1 ->
         pontuacao (treinamento s) = 0 ->
         nivel_atual (treinamento s) = 1 ->
         nivel_maximo (treinamento s) = 10 ->
         length es = 50%nat ->
         Forall (turno_bom s) es ->
         forall k : nat, (k <= 50)%nat ->
           let tk := treinamento (treinar (firstn k es) s) in
           status tk = 1
           /\ pontuacao tk = Z.of_nat k
           /\ nivel_atual tk = (if (k <? 50)%nat then 1 else 2)).
Proof.
  split; [|split].
  - intros s. unfold objetivo_atingido.
    repeat split; intros ->; reflexivity.
  - intros e s Hst Hp Hn Hm Ho t s1 t'.
    destruct (turno_pontos e s Hst) as (Hp' & Hn' & Hm' & Hi' & _).
    fold t' in Hp', Hn', Hm', Hi'.
    rewrite Ho in Hp'. rewrite subiu_sem_overflow in Hn' by (unfold com_leituras; campos; lia).
    rewrite Ho in Hn'. unfold com_leituras in Hp', Hn'. campos. fold t in Hp', Hn'.
    rewrite u32_pequeno in Hp' by (unfold t; lia).
    split; [exact Hp'|]. split.
    + rewrite Hn'. simpl.
      destruct (((pontuacao t + 1) mod 50 =? 0) && (nivel_atual t <? nivel_maximo t)) eqn:E;
        [|reflexivity].
      apply andb_prop in E as [_ E]. apply Z.ltb_lt in E.
      apply u8_pequeno. unfold t in *. lia.
    + intros Hmod Hmax.
      assert (Hsub : subiu (com_leituras e s) = true).
      { rewrite subiu_sem_overflow by (unfold com_leituras; campos; lia).
        rewrite Ho. unfold com_leituras; campos. fold t.
        apply andb_true_intro. split; [apply Z.eqb_eq, Hmod | apply Z.ltb_lt; lia]. }
      assert (Hcon : concluiu (com_leituras e s) = true).
      { unfold concluiu. rewrite Hsub. unfold com_leituras; campos. fold t.
        apply Z.eqb_eq. rewrite u8_pequeno by (unfold t in *; lia). exact Hmax. }
      assert (Ht1 : status (treinamento s1) = 2
                    /\ duracao (treinamento s1) = u32 (seg (us_conclusao e) - inicio t)
                    /\ nivel_atual (treinamento s1) = nivel_maximo (treinamento s1)
                    /\ inicio (treinamento s1) = inicio t).
      { unfold s1. rewrite pontuar_treinamento. campos. rewrite Hcon, Hsub.
        unfold com_leituras; campos. fold t.
        rewrite u8_pequeno by (unfold t in *; lia). repeat split; auto. }
      destruct Ht1 as (S1 & D1 & N1 & I1).
      split; [exact S1|]. split; [exact D1|].
      intros Hset. unfold t'.
      rewrite (proj1 (turno_treinamento e s Hst)), Hset. fold s1.
      rewrite verificar_treinamento. unfold tempo_decorrido. rewrite I1.
      destruct (300 <=? u32 (seg (us_limite e) - inicio t)); campos.
      * rewrite N1, Z.ltb_irrefl. split; [reflexivity | right; reflexivity].
      * split; [exact S1 | left; exact D1].
  - intros es s Hst Hp Hn Hm Hlen Hall k Hk tk.
    assert (Hlk : length (firstn k es) = k) by (rewrite length_firstn; lia).
    destruct (treinar_bons (firstn k es) s) as (T1 & T2 & T3 & _); try assumption; try lia.
    { now apply Forall_firstn_bom. }
    fold tk in T1, T2, T3. rewrite Hlk, Hp in T2, T3. simpl in T2, T3.
    split; [exact T1|]. split; [exact T2|].
    rewrite T3.
    destruct (Nat.ltb_spec k 50).
    + destruct (Z.ltb_spec (Z.of_nat k) 50); [reflexivity | lia].
    + destruct (Z.ltb_spec (Z.of_nat k) 50); [lia|].
      destruct (Z.ltb_spec 0 (Z.of_nat k)); [reflexivity | lia].
Qed.

Lemma pontuacao_e_nivel_witness :
  pontuacao (treinamento (executar_modo_treinamento (sem_botoes 80 5 4000000) sessao_iniciada))
  = 0 + 1
  /\ pontuacao (treinamento (treinar cinquenta_turnos sessao_iniciada)) = 50
  /\ nivel_atual (treinamento (treinar cinquenta_turnos sessao_iniciada)) = 2.
Proof.
  destruct pontuacao_e_nivel as (_ & HB & HC).
  split.
  - apply (HB (sem_botoes 80 5 4000000) sessao_iniciada); vm_compute; try reflexivity;
      try (split; [discriminate | reflexivity]); discriminate.
  - assert (Hall : Forall (turno_bom sessao_iniciada) cinquenta_turnos).
    { apply Forall_forall. intros e He. apply repeat_spec in He. subst e.
      repeat split; vm_compute; reflexivity. }
    destruct (HC cinquenta_turnos sessao_iniciada eq_refl eq_refl eq_refl eq_refl eq_refl
                Hall 50%nat (le_n 50)) as (_ & H2 & H3).
    split; [exact H2 | exact H3].
Defined.

(** ** Which steps write the training record *)

Lemma configuracao_treinamento e s :
  treinamento (executar_modo_configuracao e s) = treinamento s.
Proof. unfold executar_modo_configuracao. decidir; reflexivity. Qed.

Lemma monitoramento_treinamento e s :
  treinamento (executar_modo_monitoramento e s) = treinamento s.
Proof. unfold executar_modo_monitoramento. decidir; reflexivity. Qed.

Lemma historico_treinamento e s :
  treinamento (executar_modo_historico e s) = treinamento s.
Proof. unfold executar_modo_historico. decidir; reflexivity. Qed.

Lemma callback_treinamento fall gpio events us s :
  treinamento (fst (button_callback fall gpio events us s)) = treinamento s.
Proof. unfold button_callback, tratar_botao. decidir; reflexivity. Qed.

Lemma passo_treinamento fall ev s :
  treinamento (passo fall ev s) = treinamento s
  \/ exists e, ev = Iteracao e /\ passo fall ev s = executar_modo_treinamento e s.
Proof.
  destruct ev as [gpio events us | e]; simpl.
  - left. apply callback_treinamento.
  - unfold iteracao.
    destruct (in_set_mode s); [left; apply configuracao_treinamento|].
    destruct (menu_index s =? 0); [left; apply monitoramento_treinamento|].
    destruct (menu_index s =? 1); [left; apply configuracao_treinamento|].
    destruct (menu_index s =? 2); [right; exists e; split; reflexivity|].
    destruct (menu_index s =? 3); [left; apply historico_treinamento | left; reflexivity].
Qed.

(** ** The running session keeps its level between 1 and 9 of 10 *)

Lemma u32_faixa x : 0 <= u32 x < 2 ^ 32.
Proof. unfold u32. apply Z.mod_pos_bound. reflexivity. Qed.

Lemma preparar_sessao_ok e s :
  sessao_ok (treinamento s) -> status (treinamento s) = 0 ->
  sessao_ok (treinamento (preparar_treinamento e s)).
Proof.
  intros [Hp Hs] H0. unfold preparar_treinamento.
  destruct s as [mi sm cp lb ea li st [na nm du ob sts ini po]]. campos. subst sts.
  decidir; unfold sessao_ok; campos; split; try assumption; try lia;
    try (intros; discriminate); intros _; lia.
Qed.

Lemma andamento_sessao_ok e s :
  sessao_ok (treinamento s) -> status (treinamento s) = 1 ->
  sessao_ok (treinamento (executar_modo_treinamento e s)).
Proof.
  intros [Hp Hs] H1. destruct (Hs H1) as [Hm Hn].
  destruct (turno_pontos e s H1) as (Hp' & Hn' & Hm' & _ & _).
  split.
  - rewrite Hp'. destruct (objetivo_atingido _); [apply u32_faixa | exact Hp].
  - intros Hst'. rewrite Hm', Hn'. split; [exact Hm|].
    destruct (subiu (com_leituras e s)) eqn:Hsub; [|exact Hn].
    rewrite u8_pequeno by lia.
    revert Hst'. rewrite (proj1 (turno_treinamento e s H1)).
    rewrite verificar_treinamento, pontuar_treinamento. rewrite Hsub.
    unfold concluiu. rewrite Hsub.
    change (treinamento (com_leituras e s)) with (treinamento s). campos.
    rewrite u8_pequeno by lia.
    destruct (Z.eqb_spec (nivel_atual (treinamento s) + 1) (nivel_maximo (treinamento s)))
      as [E | N]; destruct (set_aceito e s), (300 <=? _); campos;
      try discriminate; try (destruct (_ <? _); discriminate); intros _; lia.
Qed.

Lemma terminado_sessao_ok e s :
  sessao_ok (treinamento s) ->
  status (treinamento s) = 2 \/ status (treinamento s) = 3 ->
  sessao_ok (treinamento (executar_modo_treinamento e s)).
Proof.
  intros [Hp Hs] H. rewrite turno_terminado by assumption.
  rewrite voltar_treinamento. unfold com_leituras. campos.
  destruct (set_aceito e _); [|split; assumption].
  split; campos; [assumption | discriminate].
Qed.

Lemma turno_sessao_ok e s :
  sessao_ok (treinamento s) -> sessao_ok (treinamento (executar_modo_treinamento e s)).
Proof.
  intros H.
  destruct (Z.eq_dec (status (treinamento s)) 0) as [E0 | N0].
  { rewrite turno_parado by assumption. apply preparar_sessao_ok; assumption. }
  destruct (Z.eq_dec (status (treinamento s)) 1) as [E1 | N1].
  { apply andamento_sessao_ok; assumption. }
  destruct (Z.eq_dec (status (treinamento s)) 2) as [E2 | N2].
  { apply terminado_sessao_ok; auto. }
  destruct (Z.eq_dec (status (treinamento s)) 3) as [E3 | N3].
  { apply terminado_sessao_ok; auto. }
  unfold executar_modo_treinamento. campos.
  apply Z.eqb_neq in N0, N1, N2, N3. rewrite N0, N1, N2, N3. simpl. exact H.
Qed.

Lemma passo_sessao_ok fall ev s :
  sessao_ok (treinamento s) -> sessao_ok (treinamento (passo fall ev s)).
Proof.
  intros H. destruct (passo_treinamento fall ev s) as [E | (e & _ & E)]; rewrite E.
  - exact H.
  - apply turno_sessao_ok, H.
Qed.

Lemma executar_sessao_ok fall evs :
  forall s, sessao_ok (treinamento s) -> sessao_ok (treinamento (executar fall evs s)).
Proof.
  induction evs as [|ev evs IH]; intros s H; simpl; [exact H|].
  apply IH, passo_sessao_ok, H.
Qed.

Lemma inicial_sessao_ok us0 : sessao_ok (treinamento (sistema_inicial us0)).
Proof. split; simpl; [lia | discriminate]. Qed.

Lemma pontuar_sessao_ok e s :
  sessao_ok (treinamento s) -> status (treinamento s) = 1 ->
  sessao_ok (treinamento (pontuar e s)).
Proof.
  intros [Hp Hs] H1. destruct (Hs H1) as [Hm Hn].
  rewrite pontuar_treinamento. unfold sessao_ok, concluiu. campos. split.
  - destruct (objetivo_atingido s); [apply u32_faixa | exact Hp].
  - destruct (subiu s) eqn:Hsub; campos.
    + rewrite u8_pequeno by lia.
      destruct (Z.eqb_spec (nivel_atual (treinamento s) + 1) (nivel_maximo (treinamento s)));
        [discriminate | intros _; lia].
    + intros _. split; assumption.
Qed.

(** ** Within a session: level, score and duration, turn by turn *)

Lemma preparar_duracao e s :
  duracao (treinamento (preparar_treinamento e s)) = duracao (treinamento s).
Proof.
  unfold preparar_treinamento.
  destruct s as [mi sm cp lb ea li st [na nm du ob sts ini po]]. campos.
  decidir; reflexivity.
Qed.

Lemma turno_fora_de_sessao e s :
  status (treinamento s) <> 1 ->
  duracao (treinamento (executar_modo_treinamento e s)) = duracao (treinamento s).
Proof.
  intros N1.
  destruct (Z.eq_dec (status (treinamento s)) 0) as [E0 | N0].
  { rewrite turno_parado by assumption. apply (preparar_duracao e (com_leituras e s)). }
  destruct (Z.eq_dec (status (treinamento s)) 2) as [E2 | N2].
  { rewrite turno_terminado by auto. rewrite voltar_treinamento.
    destruct (set_aceito _ _); reflexivity. }
  destruct (Z.eq_dec (status (treinamento s)) 3) as [E3 | N3].
  { rewrite turno_terminado by auto. rewrite voltar_treinamento.
    destruct (set_aceito _ _); reflexivity. }
  unfold executar_modo_treinamento. campos.
  apply Z.eqb_neq in N0, N1, N2, N3. rewrite N0, N1, N2, N3. reflexivity.
Qed.

Lemma turno_depois_do_fim e s :
  status (treinamento s) = 2 \/ status (treinamento s) = 3 ->
  let t := treinamento s in
  let t' := treinamento (executar_modo_treinamento e s) in
  (status t' = status t \/ status t' = 0)
  /\ nivel_atual t' = nivel_atual t
  /\ pontuacao t' = pontuacao t
  /\ duracao t' = duracao t.
Proof.
  intros H t t'. unfold t'. rewrite turno_terminado by assumption.
  rewrite voltar_treinamento. change (treinamento (com_leituras e s)) with t.
  destruct (set_aceito _ _); campos; auto.
Qed.

(** A turn of a running session of a well-formed record. *)
Lemma turno_de_sessao e s :
  sessao_ok (treinamento s) ->
  status (treinamento s) = 1 ->
  pontuacao (treinamento s) < 2 ^ 32 - 1 ->
  let t := treinamento s in
  let t2 := treinamento (verificar_tempo_limite e (pontuar e (com_leituras e s))) in
  let t' := treinamento (executar_modo_treinamento e s) in
  nivel_atual t <= nivel_atual t'
  /\ pontuacao t <= pontuacao t'
  /\ (status t' = 1 -> duracao t' = duracao t)
  /\ (status t' = 2 \/ status t' = 3 ->
      duracao t' = u32 (seg (us_conclusao e) - inicio t)
      \/ duracao t' = u32 (seg (us_limite e) - inicio t))
  /\ (duracao t' <> duracao t ->
      (status t2 = 2 \/ status t2 = 3) /\ duracao t' = duracao t2).
Proof.
  intros [Hp Hs] H1 Hmax t t2 t'. destruct (Hs H1) as [Hm Hn]. fold t in Hp, Hm, Hn, Hmax.
  destruct (turno_pontos e s H1) as (Hp' & Hn' & _). fold t t' in Hp', Hn'.
  split; [|split].
  - rewrite Hn'. destruct (subiu _); [rewrite u8_pequeno by lia|]; lia.
  - rewrite Hp'. destruct (objetivo_atingido _); [rewrite u32_pequeno by lia|]; lia.
  - assert (Ht' : t' = if set_aceito e s then com_status 0 t2 else t2)
      by apply (turno_treinamento e s H1).
    assert (Ht2 : t2 = if 300 <=? u32 (seg (us_limite e) - inicio t)
                       then com_duracao (u32 (seg (us_limite e) - inicio t))
                              (com_status
                                 (if nivel_atual (treinamento (pontuar e (com_leituras e s)))
                                     <? nivel_maximo t then 3 else 2)
                                 (treinamento (pontuar e (com_leituras e s))))
                       else treinamento (pontuar e (com_leituras e s))).
    { unfold t2. rewrite verificar_treinamento. unfold tempo_decorrido.
      rewrite pontuar_treinamento. campos. reflexivity. }
    assert (Ht1 : status (treinamento (pontuar e (com_leituras e s)))
                  = (if concluiu (com_leituras e s) then 2 else 1)
                  /\ duracao (treinamento (pontuar e (com_leituras e s)))
                     = (if concluiu (com_leituras e s)
                        then u32 (seg (us_conclusao e) - inicio t) else duracao t)).
    { rewrite pontuar_treinamento. campos.
      change (treinamento (com_leituras e s)) with (treinamento s). rewrite H1.
      split; reflexivity. }
    destruct Ht1 as [S1 D1].
    rewrite Ht', Ht2.
    destruct (set_aceito e s), (300 <=? u32 (seg (us_limite e) - inicio t)); campos;
      rewrite ?S1, ?D1;
      destruct (concluiu (com_leituras e s));
      try (destruct (nivel_atual _ <? nivel_maximo t));
      repeat split; intros; try discriminate; try tauto; try congruence;
      try (match goal with H : _ \/ _ |- _ => destruct H; discriminate end); auto.
Qed.

(** Inside the turn that ends a session both the scoring and the limit
    branch can run: the session is then counted twice and [duracao] is
    assigned by each of them. *)
Example conclusao_e_limite_no_mesmo_turno :
  treinamento sessao_no_nivel_9 = mkTreinamento 9 10 0 0 1 3 449
  /\ treinamento (pontuar turno_no_limite (com_leituras turno_no_limite sessao_no_nivel_9))
     = mkTreinamento 10 10 299 0 2 3 450
  /\ treinamento (executar_modo_treinamento turno_no_limite sessao_no_nivel_9)
     = mkTreinamento 10 10 300 0 2 3 450
  /\ sessoes_concluidas (stats (executar_modo_treinamento turno_no_limite sessao_no_nivel_9))
     = 2.
Proof. vm_compute. repeat split; reflexivity. Qed.

(** ** The whole system: thresholds and menu index along every run *)

Lemma treinamento_limiares e s :
  limiares (executar_modo_treinamento e s) = limiares s.
Proof.
  unfold executar_modo_treinamento, preparar_treinamento, pontuar,
    verificar_tempo_limite, voltar_ao_inicio, contar_sessao.
  destruct s as [mi sm cp lb ea li st t]. campos.
  decidir; reflexivity.
Qed.

Lemma passo_limiares fall ev s :
  na_grade (limiares s) -> na_grade (limiares (passo fall ev s)).
Proof.
  intros H. destruct ev as [gpio events us | e]; simpl.
  - unfold button_callback, tratar_botao. decidir; exact H.
  - unfold iteracao.
    assert (Hc : na_grade (limiares (executar_modo_configuracao e s))).
    { unfold executar_modo_configuracao. decidir;
        repeat (first [apply aumentar_na_grade | apply diminuir_na_grade]); exact H. }
    destruct (in_set_mode s); [exact Hc|].
    destruct (menu_index s =? 0).
    { unfold executar_modo_monitoramento. decidir; exact H. }
    destruct (menu_index s =? 1); [exact Hc|].
    destruct (menu_index s =? 2); [rewrite treinamento_limiares; exact H|].
    destruct (menu_index s =? 3); [|exact H].
    unfold executar_modo_historico. decidir; exact H.
Qed.

(** The threshold invariant holds in every state of every run of the
    system, whatever the mode functions and the interrupts do. *)
Lemma limiares_validos_no_sistema fall us0 evs :
  limiares_ok (limiares (executar fall evs (sistema_inicial us0))) = true.
Proof.
  apply na_grade_ok.
  assert (H : forall s, na_grade (limiares s) -> na_grade (limiares (executar fall evs s))).
  { induction evs as [|ev evs IH]; intros s Hs; simpl; [exact Hs|].
    apply IH, passo_limiares, Hs. }
  apply H, iniciais_na_grade.
Qed.

Lemma passo_menu fall ev s :
  0 <= menu_index s < 4 /\ 0 <= current_param s <= 3 ->
  0 <= menu_index (passo fall ev s) < 4 /\ 0 <= current_param (passo fall ev s) <= 3.
Proof.
  intros [Hm Hc]. destruct ev as [gpio events us | e]; simpl.
  - unfold button_callback, tratar_botao. decidir;
      repeat match goal with
             | H : (_ <? _) = false |- _ => apply Z.ltb_ge in H
             end;
      split; try lia;
      rewrite Z.rem_mod_nonneg by lia; apply Z.mod_pos_bound; lia.
  - unfold iteracao, executar_modo_configuracao, executar_modo_monitoramento,
      executar_modo_treinamento, preparar_treinamento, pontuar,
      verificar_tempo_limite, voltar_ao_inicio, contar_sessao, executar_modo_historico.
    destruct s as [mi sm cp lb ea li st t]. campos.
    decidir; split; assumption.
Qed.

Lemma menu_no_ciclo fall us0 evs :
  let s := executar fall evs (sistema_inicial us0) in
  0 <= menu_index s < 4 /\ 0 <= current_param s <= 3.
Proof.
  assert (H : forall s, 0 <= menu_index s < 4 /\ 0 <= current_param s <= 3 ->
                        0 <= menu_index (executar fall evs s) < 4
                        /\ 0 <= current_param (executar fall evs s) <= 3).
  { induction evs as [|ev evs IH]; intros s Hs; simpl; [exact Hs|].
    apply IH, passo_menu, Hs. }
  apply H. simpl. lia.
Qed.

(** ** The polled buttons *)

(** The mode functions accept a held button only strictly more than
    200 ms after the last stamp, one millisecond later than the callback. *)
Lemma debounce_dos_botoes_lidos us s :
  passou_debounce us s = true <-> DEBOUNCE_DELAY_MS < u32 (ms us - last_button_time s).
Proof. unfold passou_debounce. apply Z.ltb_lt. Qed.

Example botao_lido_aos_200ms :
  limiares (executar_modo_configuracao next_aos_200ms (sistema_inicial 0)) = limiares_iniciais
  /\ menu_index (fst (button_callback 4 BUTTON_NEXT 4 200000 (sistema_inicial 0))) = 1.
Proof. split; reflexivity. Qed.

(** * Further properties of the source *)

(** ** The edit overlay and the menu *)

Lemma set_aceito_fora_do_treino fall events us s :
  borda_de_descida fall events = true ->
  menu_index s <> 2 ->
  DEBOUNCE_DELAY_MS <= u32 (ms us - last_button_time s) ->
  fst (button_callback fall BUTTON_SET events us s)
  = (if in_set_mode s then
       if 3 <? current_param s + 1
       then com_current_param 0
              (com_in_set_mode false
                 (com_current_param (current_param s + 1) (com_last_button_time (ms us) s)))
       else com_current_param (current_param s + 1) (com_last_button_time (ms us) s)
     else com_current_param 0 (com_in_set_mode true (com_last_button_time (ms us) s))).
Proof.
  intros Hf Hm Hd. rewrite button_callback_aceito by assumption.
  unfold tratar_botao. rewrite Hf. campos.
  apply Z.eqb_neq in Hm. rewrite Hm.
  destruct (in_set_mode s); reflexivity.
Qed.

(** X1. Outside the training mode and with no overlay, five accepted SET
    edges open the overlay on parameter 0, step it through parameters 1,
    2 and 3, and close it with the parameter index back at 0; the menu
    index does not move. *)
Theorem overlay_em_cinco_sets :
  forall (fall events us1 us2 us3 us4 us5 : Z) (s : Sistema),
    borda_de_descida fall events = true ->
    in_set_mode s = false ->
    menu_index s <> 2 ->
    DEBOUNCE_DELAY_MS <= u32 (ms us1 - last_button_time s) ->
    DEBOUNCE_DELAY_MS <= u32 (ms us2 - ms us1) ->
    DEBOUNCE_DELAY_MS <= u32 (ms us3 - ms us2) ->
    DEBOUNCE_DELAY_MS <= u32 (ms us4 - ms us3) ->
    DEBOUNCE_DELAY_MS <= u32 (ms us5 - ms us4) ->
    let sets := [Interrupcao BUTTON_SET events us1; Interrupcao BUTTON_SET events us2;
                 Interrupcao BUTTON_SET events us3; Interrupcao BUTTON_SET events us4;
                 Interrupcao BUTTON_SET events us5] in
    map (fun k => (in_set_mode (executar fall (firstn k sets) s),
                   current_param (executar fall (firstn k sets) s)))
        [1; 2; 3; 4; 5]%nat
    = [(true, 0); (true, 1); (true, 2); (true, 3); (false, 0)]
    /\ menu_index (executar fall sets s) = menu_index s.
Proof.
  intros fall events us1 us2 us3 us4 us5 s Hf Ho Hm H1 H2 H3 H4 H5. simpl.
  rewrite (set_aceito_fora_do_treino fall events us1 s) by assumption.
  rewrite Ho.
  repeat (rewrite set_aceito_fora_do_treino by (campos; assumption); campos).
  split; reflexivity.
Qed.

Lemma overlay_em_cinco_sets_witness :
  map (fun k => (in_set_mode
                   (executar 4 (firstn k (map (fun us => Interrupcao BUTTON_SET 4 us)
                                            [300000; 600000; 900000; 1200000; 1500000]))
                      (sistema_inicial 0)),
                 current_param
                   (executar 4 (firstn k (map (fun us => Interrupcao BUTTON_SET 4 us)
                                            [300000; 600000; 900000; 1200000; 1500000]))
                      (sistema_inicial 0))))
      [1; 2; 3; 4; 5]%nat
  = [(true, 0); (true, 1); (true, 2); (true, 3); (false, 0)].
Proof.
  apply (overlay_em_cinco_sets 4 4 300000 600000 900000 1200000 1500000 (sistema_inicial 0));
    try reflexivity; vm_compute; discriminate.
Defined.

Lemma iteracao_menu e s :
  menu_index (iteracao e s) = menu_index s
  /\ in_set_mode (iteracao e s) = in_set_mode s
  /\ current_param (iteracao e s) = current_param s.
Proof.
  unfold iteracao, executar_modo_configuracao, executar_modo_monitoramento,
    executar_modo_treinamento, preparar_treinamento, pontuar,
    verificar_tempo_limite, voltar_ao_inicio, contar_sessao, executar_modo_historico.
  destruct s as [mi sm cp lb ea li st t]. campos.
  decidir; repeat split; reflexivity.
Qed.

Lemma passo_menu_regular fall ev s :
  menu_regular s -> menu_regular (passo fall ev s).
Proof.
  intros (Hm & Hc & H0 & H2). destruct ev as [gpio events us | e]; simpl.
  - unfold button_callback, tratar_botao, menu_regular.
    destruct s as [mi sm cp lb ea li st t]. campos.
    decidir;
      repeat match goal with
             | H : (_ <? _) = false |- _ => apply Z.ltb_ge in H
             | H : (_ <? _) = true |- _ => apply Z.ltb_lt in H
             | H : negb _ = true |- _ => apply negb_true_iff in H
             | H : negb _ = false |- _ => apply negb_false_iff in H
             | H : (_ =? _) = true |- _ => apply Z.eqb_eq in H
             | H : (_ =? _) = false |- _ => apply Z.eqb_neq in H
             end; subst;
      repeat split; try lia; try (intros; discriminate); try (intros; congruence); auto;
      try (rewrite Z.rem_mod_nonneg by lia; apply Z.mod_pos_bound; lia);
      try (assert (0 <= Z.rem (mi + 1) 4 < 4)
             by (rewrite Z.rem_mod_nonneg by lia; apply Z.mod_pos_bound; lia); lia);
      try (assert (0 <= Z.rem (mi + 3) 4 < 4)
             by (rewrite Z.rem_mod_nonneg by lia; apply Z.mod_pos_bound; lia); lia).
  - destruct (iteracao_menu e s) as (E1 & E2 & E3).
    unfold menu_regular. rewrite E1, E2, E3. repeat split; try lia; assumption.
Qed.

Lemma executar_menu_regular fall us0 evs :
  menu_regular (executar fall evs (sistema_inicial us0)).
Proof.
  assert (H : forall s, menu_regular s -> menu_regular (executar fall evs s)).
  { induction evs as [|ev evs IH]; intros s Hs; simpl; [exact Hs|].
    apply IH, passo_menu_regular, Hs. }
  apply H. unfold menu_regular. simpl.
  repeat split; try lia; intros; discriminate.
Qed.

(** X2. In every state reached from the initial one, the menu index and
    the parameter index are between 0 and 3, the parameter index is 0
    whenever no overlay is open, and no overlay is open while the menu is
    on the training mode. *)
Theorem menu_sempre_regular :
  forall (fall us0 : Z) (evs : list Evento),
    let s := executar fall evs (sistema_inicial us0) in
    0 <= menu_index s <= 3
    /\ 0 <= current_param s <= 3
    /\ (in_set_mode s = false -> current_param s = 0)
    /\ (in_set_mode s = true -> menu_index s <> 2).
Proof. intros fall us0 evs. apply executar_menu_regular. Qed.

(** ** The debounce stamp is shared by the callback and the polled buttons *)

Lemma callback_aceito_stamp fall gpio events us s :
  DEBOUNCE_DELAY_MS <= u32 (ms us - last_button_time s) ->
  last_button_time (fst (button_callback fall gpio events us s)) = ms us.
Proof.
  intros H. rewrite button_callback_aceito by assumption.
  rewrite tratar_botao_stamp. reflexivity.
Qed.

(** X3. The debounce window is shared by all sources: after an accepted
    edge, an edge of any pin with any event mask read less than 200 ms
    later is dropped and leaves every global as it was. *)
Theorem debounce_compartilhado :
  forall (fall gpio events us gpio' events' us' : Z) (s : Sistema),
    DEBOUNCE_DELAY_MS <= u32 (ms us - last_button_time s) ->
    u32 (ms us' - ms us) < DEBOUNCE_DELAY_MS ->
    button_callback fall gpio' events' us' (fst (button_callback fall gpio events us s))
    = (fst (button_callback fall gpio events us s), None).
Proof.
  intros fall gpio events us gpio' events' us' s H1 H2.
  apply button_callback_suprimido.
  rewrite callback_aceito_stamp by assumption. exact H2.
Qed.

Lemma debounce_compartilhado_witness :
  button_callback 4 BUTTON_SET 4 400000
    (fst (button_callback 4 BUTTON_NEXT 4 300000 (sistema_inicial 0)))
  = (fst (button_callback 4 BUTTON_NEXT 4 300000 (sistema_inicial 0)), None).
Proof.
  apply (debounce_compartilhado 4 BUTTON_NEXT 4 300000 BUTTON_SET 4 400000 (sistema_inicial 0)).
  - vm_compute. discriminate.
  - vm_compute. reflexivity.
Defined.

Lemma bloqueados_campos e s :
  botoes_bloqueados e s = true ->
  passou_debounce (us_next e) s = false
  /\ passou_debounce (us_back e) s = false
  /\ passou_debounce (us_set e) s = false.
Proof.
  unfold botoes_bloqueados. intros H.
  apply andb_prop in H as [H H3]. apply andb_prop in H as [H1 H2].
  apply negb_true_iff in H1, H2, H3. auto.
Qed.

Lemma turno_bloqueado e s :
  botoes_bloqueados e s = true ->
  executar_modo_configuracao e s = s
  /\ executar_modo_historico e s = s
  /\ (status (treinamento s) <> 1 -> executar_modo_treinamento e s = com_leituras e s)
  /\ (status (treinamento s) = 1 ->
      executar_modo_treinamento e s
      = verificar_tempo_limite e (pontuar e (com_leituras e s))).
Proof.
  intros H. destruct (bloqueados_campos e s H) as (Hn & Hb & Hs).
  split; [|split; [|split]].
  - unfold executar_modo_configuracao. rewrite Hn, andb_false_r, Hb, andb_false_r. reflexivity.
  - unfold executar_modo_historico. rewrite Hs, andb_false_r. reflexivity.
  - intros N1. unfold executar_modo_treinamento, com_leituras, preparar_treinamento,
      voltar_ao_inicio, passou_debounce in *.
    destruct s as [mi sm cp lb ea li st t]. campos.
    rewrite Hn, andb_false_r. campos. rewrite Hs, andb_false_r.
    apply Z.eqb_neq in N1. rewrite N1.
    destruct (status t =? 0); [reflexivity|].
    destruct ((status t =? 2) || (status t =? 3)); reflexivity.
  - intros E1. rewrite turno_em_andamento by assumption.
    unfold voltar_ao_inicio.
    replace (passou_debounce (us_set e) _) with (passou_debounce (us_set e) s).
    + rewrite Hs, andb_false_r. reflexivity.
    + unfold passou_debounce. rewrite (proj1 (verificar_resto e _)).
      rewrite (proj1 (proj2 (proj2 (proj2 (pontuar_resto e _))))). reflexivity.
Qed.

(** X4. A press shorter than the debounce window acts on nothing that is
    polled.  After an accepted edge read at [ms us], a turn of the main
    loop whose button clock reads are at most 200 ms later leaves every
    global as it was in the configuration and history modes (no threshold
    moves, no statistics are cleared); in the training mode it only stores
    the readings and, for a running session, scores and tests the limit:
    no objective change, no start, no cancel, no restart. *)
Theorem toque_curto_sem_efeito :
  forall (fall gpio events us : Z) (e : Entrada) (s : Sistema),
    DEBOUNCE_DELAY_MS <= u32 (ms us - last_button_time s) ->
    u32 (ms (us_next e) - ms us) <= DEBOUNCE_DELAY_MS ->
    u32 (ms (us_back e) - ms us) <= DEBOUNCE_DELAY_MS ->
    u32 (ms (us_set e) - ms us) <= DEBOUNCE_DELAY_MS ->
    let s1 := fst (button_callback fall gpio events us s) in
    executar_modo_configuracao e s1 = s1
    /\ executar_modo_historico e s1 = s1
    /\ (status (treinamento s1) <> 1 -> executar_modo_treinamento e s1 = com_leituras e s1)
    /\ (status (treinamento s1) = 1 ->
        executar_modo_treinamento e s1
        = verificar_tempo_limite e (pontuar e (com_leituras e s1))).
Proof.
  intros fall gpio events us e s Hac Hn Hb Hs s1.
  apply turno_bloqueado. unfold botoes_bloqueados, passou_debounce.
  unfold s1. rewrite callback_aceito_stamp by assumption.
  apply andb_true_intro; split; [apply andb_true_intro; split|];
    apply negb_true_iff, Z.ltb_ge; assumption.
Qed.

Lemma toque_curto_sem_efeito_witness :
  executar_modo_configuracao next_aos_200ms
    (fst (button_callback 4 BUTTON_SET 4 0 (com_last_button_time 4294967096 (sistema_inicial 0))))
  = fst (button_callback 4 BUTTON_SET 4 0 (com_last_button_time 4294967096 (sistema_inicial 0))).
Proof.
  destruct (toque_curto_sem_efeito 4 BUTTON_SET 4 0 next_aos_200ms
              (com_last_button_time 4294967096 (sistema_inicial 0))) as (H & _);
    try (vm_compute; discriminate).
  exact H.
Defined.

Lemma executar_na_grade fall us0 evs :
  na_grade (limiares (executar fall evs (sistema_inicial us0))).
Proof.
  assert (H : forall s, na_grade (limiares s) -> na_grade (limiares (executar fall evs s))).
  { induction evs as [|ev evs IH]; intros s Hs; simpl; [exact Hs|].
    apply IH, passo_limiares, Hs. }
  apply H, iniciais_na_grade.
Qed.

Lemma grade_atencao_degrau : forallb degrau_de_atencao grade_atencao = true.
Proof. vm_compute. reflexivity. Qed.

Lemma so_atencao_baixo l :
  limiar_atencao_alto (aumentar 0 l) = limiar_atencao_alto l
  /\ limiar_relaxamento_baixo (aumentar 0 l) = limiar_relaxamento_baixo l
  /\ limiar_relaxamento_alto (aumentar 0 l) = limiar_relaxamento_alto l
  /\ limiar_atencao_alto (diminuir 0 l) = limiar_atencao_alto l
  /\ limiar_relaxamento_baixo (diminuir 0 l) = limiar_relaxamento_baixo l
  /\ limiar_relaxamento_alto (diminuir 0 l) = limiar_relaxamento_alto l.
Proof.
  destruct l. unfold aumentar, diminuir. abrir_limiares.
  change (0 =? 0) with true. cbv iota.
  repeat split; por_casos; reflexivity.
Qed.

Lemma degrau_na_grade l :
  na_grade l ->
  limiar_atencao_baixo (aumentar 0 l)
  = (if F32.lt (F32.add (limiar_atencao_baixo l) c5) (limiar_atencao_alto l)
     then F32.add (limiar_atencao_baixo l) c5 else limiar_atencao_baixo l)
  /\ limiar_atencao_baixo (diminuir 0 l)
     = (if F32.lt c5 (limiar_atencao_baixo l)
        then F32.sub (limiar_atencao_baixo l) c5 else limiar_atencao_baixo l).
Proof.
  intros [Ha _].
  assert (G := proj1 (forallb_forall _ _) grade_atencao_degrau _ Ha).
  unfold degrau_de_atencao in G. cbv zeta in G.
  unfold par_atencao in G. cbn [fst snd] in G.
  apply andb_prop in G. destruct G as [G _].
  apply andb_prop in G. destruct G as [G _].
  apply andb_prop in G. destruct G as [G1 G2].
  apply same_eq in G1, G2.
  assert (A := aumentar_local_atencao 0 l (F32.zero, F32.zero)).
  assert (D := diminuir_local_atencao 0 l (F32.zero, F32.zero)).
  unfold par_atencao in A, D.
  split.
  - exact (eq_trans (f_equal fst A) G1).
  - exact (eq_trans (f_equal fst D) G2).
Qed.

(** X5. The configuration view (menu index 1, no overlay) is not
    read-only.  In every state of that view the system reaches, a turn
    with NEXT held, BACK released and the NEXT read past the polled
    debounce runs the NEXT switch on parameter 0: the low attention
    threshold goes up by 5 when that leaves it below the high one, and
    stays when the gap is already 5.  A turn with BACK held, NEXT
    released and the BACK read past the debounce runs the BACK switch on
    parameter 0: the low attention threshold goes down by 5 when it is
    above 5, and stays at 5 otherwise.  The three other thresholds are
    left as they were. *)
Theorem visao_de_configuracao_ajusta :
  forall (fall us0 : Z) (evs : list Evento) (e : Entrada),
    let s := executar fall evs (sistema_inicial us0) in
    let l := limiares s in
    let l' := limiares (iteracao e s) in
    in_set_mode s = false ->
    menu_index s = 1 ->
    (botao_next e = true -> passou_debounce (us_next e) s = true -> botao_back e = false ->
     l' = aumentar 0 l
     /\ limiar_atencao_baixo l'
        = (if F32.lt (F32.add (limiar_atencao_baixo l) c5) (limiar_atencao_alto l)
           then F32.add (limiar_atencao_baixo l) c5 else limiar_atencao_baixo l)
     /\ limiar_atencao_alto l' = limiar_atencao_alto l
     /\ limiar_relaxamento_baixo l' = limiar_relaxamento_baixo l
     /\ limiar_relaxamento_alto l' = limiar_relaxamento_alto l)
    /\ (botao_next e = false -> botao_back e = true -> passou_debounce (us_back e) s = true ->
        l' = diminuir 0 l
        /\ limiar_atencao_baixo l'
           = (if F32.lt c5 (limiar_atencao_baixo l)
              then F32.sub (limiar_atencao_baixo l) c5 else limiar_atencao_baixo l)
        /\ limiar_atencao_alto l' = limiar_atencao_alto l
        /\ limiar_relaxamento_baixo l' = limiar_relaxamento_baixo l
        /\ limiar_relaxamento_alto l' = limiar_relaxamento_alto l).
Proof.
  intros fall us0 evs e s l l' Ho Hm.
  destruct (executar_menu_regular fall us0 evs) as (_ & _ & Hp & _). fold s in Hp.
  specialize (Hp Ho).
  assert (Hg : na_grade l) by apply executar_na_grade.
  destruct (degrau_na_grade l Hg) as [Hsobe Hdesce].
  destruct (so_atencao_baixo l) as (A1 & A2 & A3 & D1 & D2 & D3).
  assert (Hit : iteracao e s = executar_modo_configuracao e s).
  { unfold iteracao. rewrite Ho, Hm. reflexivity. }
  split.
  - intros Hn Hd Hb.
    assert (El : l' = aumentar 0 l).
    { unfold l'. rewrite Hit. unfold executar_modo_configuracao.
      rewrite Hn, Hd, Hb. cbn [andb].
      destruct s as [mi sm cp lb ea li st t]. campos. subst cp. reflexivity. }
    rewrite El. repeat split; assumption.
  - intros Hn Hb Hd.
    assert (El : l' = diminuir 0 l).
    { unfold l'. rewrite Hit. unfold executar_modo_configuracao.
      rewrite Hn. cbn [andb]. rewrite Hb, Hd. cbn [andb].
      destruct s as [mi sm cp lb ea li st t]. campos. subst cp. reflexivity. }
    rewrite El. repeat split; assumption.
Qed.

Lemma visao_de_configuracao_ajusta_witness :
  limiares (iteracao next_mantido (executar 4 na_visao_de_configuracao (sistema_inicial 0)))
  = aumentar 0 (limiares (executar 4 na_visao_de_configuracao (sistema_inicial 0)))
  /\ limiar_atencao_baixo
       (limiares (iteracao next_mantido
                    (executar 4 na_visao_de_configuracao (sistema_inicial 0))))
     = F32.of_Z 35.
Proof.
  destruct (proj1 (visao_de_configuracao_ajusta 4 0 na_visao_de_configuracao next_mantido
                     eq_refl eq_refl) eq_refl eq_refl eq_refl) as (H1 & H2 & _).
  split; [exact H1|]. rewrite H2. vm_compute. reflexivity.
Defined.

(** ** The training record along every run *)

Ltac booleanos :=
  repeat match goal with
         | H : (_ && _) = true |- _ => apply andb_prop in H; destruct H
         | H : (_ <? _) = false |- _ => apply Z.ltb_ge in H
         | H : (_ <? _) = true |- _ => apply Z.ltb_lt in H
         | H : (_ <=? _) = false |- _ => apply Z.leb_gt in H
         | H : (_ <=? _) = true |- _ => apply Z.leb_le in H
         | H : (_ =? _) = true |- _ => apply Z.eqb_eq in H
         | H : (_ =? _) = false |- _ => apply Z.eqb_neq in H
         end.

Ltac fecha_regular :=
  repeat split; intros;
  repeat match goal with H : _ \/ _ |- _ => destruct H end;
  try discriminate; try lia; auto;
  try (Z.div_mod_to_equations; lia).

Lemma pontuar_regular e s :
  sessao_regular (treinamento s) -> status (treinamento s) = 1 ->
  sessao_regular (treinamento (pontuar e s))
  /\ (status (treinamento (pontuar e s)) = 1 \/ status (treinamento (pontuar e s)) = 2).
Proof.
  intros (Ho & Hs & Hp & Hn & Hm & H13 & H2) E1.
  destruct (H13 (or_introl E1)) as (Em & En & Hlt). clear H13 H2.
  rewrite pontuar_treinamento. unfold concluiu, subiu, sessao_regular.
  destruct (treinamento s) as [na nm du ob sts ini po]. campos. subst sts nm.
  destruct (objetivo_atingido s); cbn [andb]; campos.
  - rewrite u32_pequeno by lia. rewrite Z.rem_mod_nonneg by lia.
    destruct (Z.eqb_spec ((po + 1) mod 50) 0) as [E | N]; cbn [andb]; campos.
    + destruct (Z.ltb_spec na 10) as [L | G]; campos.
      * rewrite u8_pequeno by lia.
        destruct (Z.eqb_spec (na + 1) 10) as [E10 | N10]; campos.
        -- split; [|right; reflexivity]. fecha_regular.
        -- split; [|left; reflexivity]. fecha_regular.
      * exfalso. Z.div_mod_to_equations. lia.
    + split; [|left; reflexivity]. fecha_regular.
  - split; [|left; reflexivity]. fecha_regular.
Qed.

Lemma verificar_regular e s :
  sessao_regular (treinamento s) ->
  status (treinamento s) = 1 \/ status (treinamento s) = 2 ->
  sessao_regular (treinamento (verificar_tempo_limite e s)).
Proof.
  intros H E. pose proof H as (Ho & Hs & Hp & Hn & Hm & H13 & H2).
  rewrite verificar_treinamento.
  destruct (300 <=? tempo_decorrido e s); [|exact H].
  clear H. unfold sessao_regular.
  destruct (treinamento s) as [na nm du ob sts ini po]. campos.
  destruct E as [E | E]; subst sts.
  - destruct (H13 (or_introl eq_refl)) as (Em & En & Hlt). subst nm.
    destruct (Z.ltb_spec na 10); campos; [fecha_regular|].
    exfalso. Z.div_mod_to_equations. lia.
  - destruct (H2 eq_refl) as (Em & En & Ep). subst nm na po.
    campos. fecha_regular.
Qed.

Lemma voltar_regular e s :
  sessao_regular (treinamento s) -> sessao_regular (treinamento (voltar_ao_inicio e s)).
Proof.
  intros H. pose proof H as (Ho & Hs & Hp & Hn & Hm & H13 & H2).
  rewrite voltar_treinamento.
  destruct (set_aceito e s); [|exact H].
  clear H. unfold sessao_regular.
  destruct (treinamento s) as [na nm du ob sts ini po]. campos. fecha_regular.
Qed.

Lemma preparar_regular e s :
  sessao_regular (treinamento s) -> status (treinamento s) = 0 ->
  sessao_regular (treinamento (preparar_treinamento e s)).
Proof.
  intros (Ho & Hs & Hp & Hn & Hm & H13 & H2) E0. unfold preparar_treinamento.
  destruct s as [mi sm cp lb ea li st [na nm du ob sts ini po]]. campos. subst sts.
  assert (Hr : 0 <= Z.rem (ob + 1) 3 <= 2).
  { rewrite Z.rem_mod_nonneg by lia. pose proof (Z.mod_pos_bound (ob + 1) 3). lia. }
  unfold sessao_regular.
  decidir; fecha_regular.
Qed.

Lemma turno_regular e s :
  sessao_regular (treinamento s) ->
  sessao_regular (treinamento (executar_modo_treinamento e s)).
Proof.
  intros H. pose proof H as (_ & Hs & _).
  destruct (Z.eq_dec (status (treinamento s)) 0) as [E0 | N0].
  { rewrite turno_parado by assumption. now apply preparar_regular. }
  destruct (Z.eq_dec (status (treinamento s)) 1) as [E1 | N1].
  { rewrite turno_em_andamento by assumption.
    apply voltar_regular.
    destruct (pontuar_regular e (com_leituras e s) H E1) as [Hr Hst].
    now apply verificar_regular. }
  rewrite turno_terminado by lia. now apply voltar_regular.
Qed.

Lemma passo_regular fall ev s :
  sessao_regular (treinamento s) -> sessao_regular (treinamento (passo fall ev s)).
Proof.
  intros H. destruct (passo_treinamento fall ev s) as [E | (e & _ & E)]; rewrite E.
  - exact H.
  - apply turno_regular, H.
Qed.

Lemma executar_sessao_regular fall us0 evs :
  sessao_regular (treinamento (executar fall evs (sistema_inicial us0))).
Proof.
  assert (H : forall s, sessao_regular (treinamento s) ->
                        sessao_regular (treinamento (executar fall evs s))).
  { induction evs as [|ev evs IH]; intros s Hs; simpl; [exact Hs|].
    apply IH, passo_regular, Hs. }
  apply H. unfold sessao_regular. simpl. fecha_regular.
Qed.

(** X6. In every state reached from the initial one the training record
    is regular: objective in 0..2, status in 0..3, score at most 450 and
    level at most 10 of a maximum that is 0 (never started) or 10.  While
    a session runs, and after it failed, the level is [1 + score / 50]
    and the score is below 450; a completed session has level 10 and
    exactly 450 points.  In particular the 32-bit score never wraps. *)
Theorem sessao_sempre_regular :
  forall (fall us0 : Z) (evs : list Evento),
    let t := treinamento (executar fall evs (sistema_inicial us0)) in
    0 <= objetivo t <= 2
    /\ 0 <= status t <= 3
    /\ 0 <= pontuacao t <= 450
    /\ 0 <= nivel_atual t <= 10
    /\ (nivel_maximo t = 0 \/ nivel_maximo t = 10)
    /\ (status t = 1 \/ status t = 3 ->
        nivel_maximo t = 10 /\ nivel_atual t = 1 + pontuacao t / 50 /\ pontuacao t < 450)
    /\ (status t = 2 ->
        nivel_maximo t = 10 /\ nivel_atual t = 10 /\ pontuacao t = 450).
Proof. intros fall us0 evs. apply executar_sessao_regular. Qed.

Lemma pontuar_alcancavel :
  forall (fall us0 : Z) (evs : list Evento) (e : Entrada),
    let s := executar fall evs (sistema_inicial us0) in
    status (treinamento s) = 1 ->
    let t1 := treinamento (pontuar e (com_leituras e s)) in
    pontuacao t1
    = pontuacao (treinamento s) + (if objetivo_atingido (com_leituras e s) then 1 else 0)
    /\ nivel_atual t1 = 1 + pontuacao t1 / 50
    /\ (status t1 = 2 <->
        objetivo_atingido (com_leituras e s) = true /\ pontuacao (treinamento s) = 449).
Proof.
  intros fall us0 evs e s E1 t1.
  pose proof (executar_sessao_regular fall us0 evs) as Hreg. fold s in Hreg.
  destruct (pontuar_regular e (com_leituras e s) Hreg E1) as [Hr1 Hst1]. fold t1 in Hr1, Hst1.
  destruct Hreg as (_ & _ & Hp & _ & _ & H13 & _).
  destruct (H13 (or_introl E1)) as (_ & _ & Hlt).
  assert (Hp1 : pontuacao t1
                = pontuacao (treinamento s)
                  + (if objetivo_atingido (com_leituras e s) then 1 else 0)).
  { unfold t1. rewrite pontuar_treinamento. campos.
    change (treinamento (com_leituras e s)) with (treinamento s).
    destruct (objetivo_atingido _); [apply u32_pequeno|]; lia. }
  destruct Hr1 as (_ & _ & Hp1' & _ & _ & H13' & H2').
  split; [exact Hp1|]. split.
  - destruct Hst1 as [S | S].
    + apply (H13' (or_introl S)).
    + destruct (H2' S) as (_ & -> & ->). reflexivity.
  - split.
    + intros S. destruct (H2' S) as (_ & _ & E450). rewrite Hp1 in E450.
      destruct (objetivo_atingido _); [split; [reflexivity | lia] | lia].
    + intros [Ho E449]. destruct Hst1 as [S | S]; [|exact S].
      exfalso. destruct (H13' (or_introl S)) as (_ & _ & Hlt1).
      rewrite Hp1, Ho in Hlt1. lia.
Qed.

(** X7. In every reachable state with a running session, the scoring of
    a turn adds one point when the objective is met and none otherwise,
    without wrap-around, keeps the level at [1 + score / 50], and
    completes the session exactly when the objective is met at 449
    points. *)
Theorem conclusao_aos_450_pontos :
  forall (fall us0 : Z) (evs : list Evento) (e : Entrada),
    let s := executar fall evs (sistema_inicial us0) in
    status (treinamento s) = 1 ->
    let t1 := treinamento (pontuar e (com_leituras e s)) in
    pontuacao t1
    = pontuacao (treinamento s) + (if objetivo_atingido (com_leituras e s) then 1 else 0)
    /\ nivel_atual t1 = 1 + pontuacao t1 / 50
    /\ (status t1 = 2 <->
        objetivo_atingido (com_leituras e s) = true /\ pontuacao (treinamento s) = 449).
Proof. exact pontuar_alcancavel. Qed.

Lemma conclusao_aos_450_pontos_witness :
  status (treinamento
            (pontuar turno_no_limite
               (com_leituras turno_no_limite
                  (executar 4 eventos_ate_nivel_9 (sistema_inicial 0))))) = 2.
Proof.
  assert (E1 : status (treinamento (executar 4 eventos_ate_nivel_9 (sistema_inicial 0))) = 1)
    by (vm_compute; reflexivity).
  apply (proj2 (proj2 (conclusao_aos_450_pontos 4 0 eventos_ate_nivel_9 turno_no_limite E1))).
  split; vm_compute; reflexivity.
Defined.

Lemma concluiu_completou fall us0 evs e :
  let s := executar fall evs (sistema_inicial us0) in
  status (treinamento s) = 1 ->
  concluiu (com_leituras e s) = completou e s.
Proof.
  intros s E1.
  destruct (pontuar_alcancavel fall us0 evs e E1) as (_ & _ & Hiff). fold s in Hiff.
  assert (Hst : status (treinamento (pontuar e (com_leituras e s)))
                = if concluiu (com_leituras e s) then 2 else 1).
  { rewrite pontuar_treinamento. campos.
    change (treinamento (com_leituras e s)) with (treinamento s). rewrite E1. reflexivity. }
  rewrite Hst in Hiff. unfold completou.
  destruct (concluiu (com_leituras e s)).
  - destruct (proj1 Hiff eq_refl) as [-> ->]. reflexivity.
  - destruct (objetivo_atingido (com_leituras e s)); [|reflexivity].
    destruct (Z.eqb_spec (pontuacao (treinamento s)) 449) as [E | N]; [|reflexivity].
    exfalso. assert (1 = 2) by (apply Hiff; auto). discriminate.
Qed.

(** ** The writes of the duration *)

Lemma escritas_de_pontuar_forma e s :
  escritas_de_pontuar e s
  = if concluiu s then [u32 (seg (us_conclusao e) - inicio (treinamento s))] else [].
Proof.
  unfold escritas_de_pontuar, concluiu, subiu.
  destruct s as [mi sm cp lb ea li st [na nm du ob sts ini po]]. campos.
  destruct (objetivo_atingido _); campos; [|reflexivity].
  destruct (Z.rem (u32 (po + 1)) 50 =? 0); campos; [|reflexivity].
  destruct (na <? nm); campos; [|reflexivity].
  destruct (u8 (na + 1) =? nm); reflexivity.
Qed.

Lemma escritas_em_andamento e s :
  status (treinamento s) = 1 ->
  escritas_de_duracao e s
  = (if concluiu (com_leituras e s)
     then [u32 (seg (us_conclusao e) - inicio (treinamento s))] else [])
    ++ (if 300 <=? u32 (seg (us_limite e) - inicio (treinamento s))
        then [u32 (seg (us_limite e) - inicio (treinamento s))] else []).
Proof.
  intros H1. unfold escritas_de_duracao. fold (com_leituras e s).
  change (treinamento (com_leituras e s)) with (treinamento s). rewrite H1.
  change (1 =? 1) with true. cbv iota.
  rewrite escritas_de_pontuar_forma. unfold escritas_do_limite, tempo_decorrido.
  rewrite pontuar_treinamento. campos. reflexivity.
Qed.

Lemma escritas_fora_de_sessao e s :
  status (treinamento s) <> 1 -> escritas_de_duracao e s = [].
Proof.
  intros N. unfold escritas_de_duracao. campos.
  destruct (Z.eqb_spec (status (treinamento s)) 1); [contradiction | reflexivity].
Qed.

(** The field holds the last value written in the turn, or stays. *)
Lemma duracao_do_turno e s :
  duracao (treinamento (executar_modo_treinamento e s))
  = last (escritas_de_duracao e s) (duracao (treinamento s)).
Proof.
  destruct (Z.eq_dec (status (treinamento s)) 1) as [E1 | N1].
  - rewrite (proj1 (turno_treinamento e s E1)).
    rewrite escritas_em_andamento by exact E1.
    assert (D : duracao (treinamento (verificar_tempo_limite e (pontuar e (com_leituras e s))))
                = last ((if concluiu (com_leituras e s)
                         then [u32 (seg (us_conclusao e) - inicio (treinamento s))] else [])
                        ++ (if 300 <=? u32 (seg (us_limite e) - inicio (treinamento s))
                            then [u32 (seg (us_limite e) - inicio (treinamento s))] else []))
                    (duracao (treinamento s))).
    { rewrite verificar_treinamento. unfold tempo_decorrido.
      rewrite pontuar_treinamento. campos.
      change (treinamento (com_leituras e s)) with (treinamento s).
      destruct (300 <=? _), (concluiu _); reflexivity. }
    destruct (set_aceito e s); [|exact D].
    rewrite <- D. destruct (treinamento (verificar_tempo_limite _ _)); reflexivity.
  - rewrite escritas_fora_de_sessao by exact N1. apply turno_fora_de_sessao. exact N1.
Qed.

Lemma duracao_do_passo fall ev s :
  duracao (treinamento (passo fall ev s))
  = last (escritas_do_passo ev s) (duracao (treinamento s)).
Proof.
  destruct ev as [gpio events us | e]; simpl.
  - rewrite callback_treinamento. reflexivity.
  - unfold iteracao.
    destruct (in_set_mode s); [rewrite configuracao_treinamento; reflexivity|].
    destruct (menu_index s =? 0) eqn:E0.
    { rewrite monitoramento_treinamento.
      apply Z.eqb_eq in E0. rewrite E0. reflexivity. }
    destruct (menu_index s =? 1) eqn:E1.
    { rewrite configuracao_treinamento.
      apply Z.eqb_eq in E1. rewrite E1. reflexivity. }
    destruct (menu_index s =? 2); [apply duracao_do_turno|].
    destruct (menu_index s =? 3); [rewrite historico_treinamento|]; reflexivity.
Qed.

Lemma escritas_do_passo_fora ev s :
  status (treinamento s) <> 1 -> escritas_do_passo ev s = [].
Proof.
  intros N. destruct ev as [gpio events us | e]; simpl; [reflexivity|].
  destruct (in_set_mode s); [reflexivity|].
  destruct (menu_index s =? 2); [apply escritas_fora_de_sessao, N | reflexivity].
Qed.

(** A turn of a running session that writes the field ends the session. *)
Lemma escritas_encerram fall us0 evs e :
  let s := executar fall evs (sistema_inicial us0) in
  status (treinamento s) = 1 ->
  escritas_de_duracao e s <> [] ->
  let t' := treinamento (executar_modo_treinamento e s) in
  status t' = 2 \/ status t' = 3 \/ status t' = 0.
Proof.
  intros s E1 Hw t'. unfold t'.
  rewrite (proj1 (turno_treinamento e s E1)).
  rewrite escritas_em_andamento in Hw by exact E1.
  assert (S2 : let t2 := treinamento (verificar_tempo_limite e (pontuar e (com_leituras e s))) in
               status t2 = 2 \/ status t2 = 3).
  { cbv zeta. rewrite verificar_treinamento. unfold tempo_decorrido.
    rewrite pontuar_treinamento. campos.
    change (treinamento (com_leituras e s)) with (treinamento s).
    destruct (300 <=? u32 (seg (us_limite e) - inicio (treinamento s))); campos.
    - destruct (_ <? _); auto.
    - destruct (concluiu (com_leituras e s)); [auto | contradiction Hw; reflexivity]. }
  cbv zeta in S2. destruct (set_aceito e s); campos; tauto.
Qed.

(** C5. Along any run of the system, a step taken while a session is
    running lowers neither the level nor the score.  [w] lists the
    assignments to [duracao] the step makes, in program order: the field
    ends the step with the last of them, or as it was.  No step writes
    it outside a running session or outside the training mode, so it is frozen once the session is
    completed or failed (level and score too), and no step writes it and
    leaves the session running.  A turn of a running session writes it
    once when the scoring completes the session (line 821) and once when
    the limit test reads 300 s or more (line 837): twice when both
    happen in the same turn, the value of the limit test being the one
    kept. *)
Theorem sessao_monotona :
  forall (fall us0 : Z) (evs : list Evento) (ev : Evento),
    let s := executar fall evs (sistema_inicial us0) in
    let t := treinamento s in
    let t' := treinamento (passo fall ev s) in
    let w := escritas_do_passo ev s in
    (status t = 1 -> nivel_atual t <= nivel_atual t' /\ pontuacao t <= pontuacao t')
    /\ duracao t' = last w (duracao t)
    /\ (status t <> 1 -> w = [])
    /\ (status t' = 1 -> w = [])
    /\ (w <> [] -> status t = 1 /\ (status t' = 2 \/ status t' = 3 \/ status t' = 0))
    /\ (in_set_mode s = true \/ menu_index s <> 2 -> w = [])
    /\ (forall e : Entrada,
          ev = Iteracao e -> status t = 1 -> in_set_mode s = false -> menu_index s = 2 ->
          w = (if completou e s then [u32 (seg (us_conclusao e) - inicio t)] else [])
              ++ (if esgotou e s then [u32 (seg (us_limite e) - inicio t)] else []))
    /\ (status t = 2 \/ status t = 3 ->
        (status t' = status t \/ status t' = 0)
        /\ nivel_atual t' = nivel_atual t
        /\ pontuacao t' = pontuacao t
        /\ duracao t' = duracao t).
Proof.
  intros fall us0 evs ev s t t' w.
  assert (Hok : sessao_ok t) by apply executar_sessao_ok, inicial_sessao_ok.
  pose proof (executar_sessao_regular fall us0 evs) as Hreg. fold s t in Hreg.
  assert (Hencerra : w <> [] ->
            status t = 1 /\ (status t' = 2 \/ status t' = 3 \/ status t' = 0)).
  { intros Hw. destruct (Z.eq_dec (status t) 1) as [E1 | N1].
    - split; [exact E1|]. unfold w, t' in *.
      destruct ev as [gpio events us | e]; simpl in *; [contradiction Hw; reflexivity|].
      unfold iteracao.
      destruct (in_set_mode s); [contradiction Hw; reflexivity|].
      destruct (menu_index s =? 0) eqn:E0.
      { apply Z.eqb_eq in E0. rewrite E0 in Hw. contradiction Hw; reflexivity. }
      destruct (menu_index s =? 1) eqn:E1'.
      { apply Z.eqb_eq in E1'. rewrite E1' in Hw. contradiction Hw; reflexivity. }
      destruct (menu_index s =? 2); [|contradiction Hw; reflexivity].
      apply (escritas_encerram fall us0 evs e E1 Hw).
    - contradiction Hw. apply escritas_do_passo_fora. exact N1. }
  split; [|split; [|split; [|split; [|split; [|split; [|split]]]]]].
  - intros H1.
    destruct (passo_treinamento fall ev s) as [E | (e & Hev & E)].
    + fold t t' in E. rewrite E. lia.
    + unfold t'. rewrite E.
      destruct Hreg as (_ & _ & Hp & _).
      destruct (turno_de_sessao e s Hok H1 ltac:(fold t; lia)) as (A & B & _).
      split; [exact A | exact B].
  - apply duracao_do_passo.
  - apply escritas_do_passo_fora.
  - intros H1. destruct w as [|x w'] eqn:Ew; [reflexivity|].
    destruct Hencerra as (_ & [H | [H | H]]); [discriminate | | |]; rewrite H in H1; discriminate.
  - exact Hencerra.
  - intros H. unfold w. destruct ev as [gpio events us | e]; simpl; [reflexivity|].
    destruct (in_set_mode s); [reflexivity|].
    destruct (Z.eqb_spec (menu_index s) 2); [|reflexivity].
    destruct H; [discriminate | contradiction].
  - intros e -> H1 Ho Hm. unfold w. simpl. rewrite Ho, Hm. change (2 =? 2) with true.
    cbv iota. rewrite escritas_em_andamento by exact H1.
    assert (Hc : concluiu (com_leituras e s) = completou e s)
      by (apply (concluiu_completou fall us0 evs e); exact H1).
    rewrite Hc. reflexivity.
  - intros H23.
    destruct (passo_treinamento fall ev s) as [E | (e & Hev & E)].
    + fold t t' in E. rewrite E. auto.
    + unfold t'. rewrite E. apply turno_depois_do_fim. exact H23.
Qed.

Lemma sessao_monotona_witness :
  nivel_atual (treinamento sessao_iniciada)
  <= nivel_atual (treinamento (passo 4 (Iteracao (sem_botoes 80 5 4000000)) sessao_iniciada))
  /\ pontuacao (treinamento sessao_iniciada)
     <= pontuacao (treinamento (passo 4 (Iteracao (sem_botoes 80 5 4000000)) sessao_iniciada))
  /\ duracao (treinamento (passo 4 (Iteracao (sem_botoes 80 5 4000000)) sessao_iniciada))
     = duracao (treinamento sessao_iniciada).
Proof.
  unfold sessao_iniciada.
  destruct (sessao_monotona 4 0 (firstn 3 falha_e_limpeza) (Iteracao (sem_botoes 80 5 4000000)))
    as (H & D & _).
  destruct (H eq_refl) as [A B].
  split; [exact A|]. split; [exact B|]. rewrite D. reflexivity.
Defined.

(** The turn that refutes the single write: from the state reached with
    449 points at level 9, the scoring completes the session and writes
    299, the limit test then reads 300 s and writes 300. *)
Lemma duracao_escrita_duas_vezes :
  status (treinamento (executar 4 eventos_ate_nivel_9 (sistema_inicial 0))) = 1
  /\ escritas_do_passo (Iteracao turno_no_limite)
       (executar 4 eventos_ate_nivel_9 (sistema_inicial 0)) = [299; 300]
  /\ treinamento (pontuar turno_no_limite
                    (com_leituras turno_no_limite
                       (executar 4 eventos_ate_nivel_9 (sistema_inicial 0))))
     = mkTreinamento 10 10 299 0 2 3 450
  /\ treinamento (passo 4 (Iteracao turno_no_limite)
                    (executar 4 eventos_ate_nivel_9 (sistema_inicial 0)))
     = mkTreinamento 10 10 300 0 2 3 450.
Proof. vm_compute. repeat split; reflexivity. Qed.

(** ** The branch of the limit test *)

Lemma ramo_depois_de_pontuar e s :
  sessao_ok (treinamento s) -> status (treinamento s) = 1 ->
  let s1 := pontuar e (com_leituras e s) in
  status (treinamento s1) = (if concluiu (com_leituras e s) then 2 else 1)
  /\ inicio (treinamento s1) = inicio (treinamento s)
  /\ (nivel_atual (treinamento s1) <? nivel_maximo (treinamento s1))
     = negb (concluiu (com_leituras e s)).
Proof.
  intros [Hp Hs] H1 s1. destruct (Hs H1) as [Hm Hn]. unfold s1.
  rewrite pontuar_treinamento. campos.
  change (treinamento (com_leituras e s)) with (treinamento s). rewrite H1.
  split; [reflexivity|]. split; [reflexivity|].
  unfold concluiu. change (treinamento (com_leituras e s)) with (treinamento s).
  destruct (subiu (com_leituras e s)); cbn [andb negb].
  - rewrite u8_pequeno by lia. rewrite Hm.
    destruct (Z.eqb_spec (nivel_atual (treinamento s) + 1) 10) as [E | N]; cbn [negb].
    + rewrite E. reflexivity.
    + apply Z.ltb_lt. lia.
  - apply Z.ltb_lt. lia.
Qed.

(** C10. In every state the system reaches with a running session
    (status 1), [nivel_maximo = 10] and [1 <= nivel_atual < nivel_maximo],
    so the rendering of the session divides by a non-zero [nivel_maximo]
    and lights two pixels per level.  In a turn of such a state the
    limit test of line 830 runs after the scoring: it takes the failed
    branch (status 3) when the session is still running after the
    scoring, and the completed branch (lines 834-836, status 2) exactly
    when the scoring of the same turn has completed the session, that
    is when the objective is met at 449 points. *)
Theorem sessao_em_andamento_segura :
  forall (fall us0 : Z) (evs : list Evento),
    let s := executar fall evs (sistema_inicial us0) in
    status (treinamento s) = 1 ->
    nivel_maximo (treinamento s) = 10
    /\ 1 <= nivel_atual (treinamento s) < nivel_maximo (treinamento s)
    /\ leds_em_andamento (treinamento s) = Some (2 * nivel_atual (treinamento s))
    /\ (forall e : Entrada,
          let s1 := pontuar e (com_leituras e s) in
          status (treinamento s1) = (if completou e s then 2 else 1)
          /\ ramo_do_limite e s
             = (if esgotou e s then Some (if completou e s then 2 else 3) else None)
          /\ (300 <= tempo_decorrido e s1 ->
              status (treinamento (verificar_tempo_limite e s1))
              = (if completou e s then 2 else 3)
              /\ (status (treinamento s1) = 1 ->
                  status (treinamento (verificar_tempo_limite e s1)) = 3)
              /\ (status (treinamento (verificar_tempo_limite e s1)) = 2 ->
                  status (treinamento s1) = 2))).
Proof.
  intros fall us0 evs s H1.
  assert (Hok : sessao_ok (treinamento s)).
  { apply executar_sessao_ok, inicial_sessao_ok. }
  destruct Hok as [Hp Hs]. destruct (Hs H1) as [Hm Hn].
  split; [exact Hm|]. split; [exact Hn|]. split.
  - unfold leds_em_andamento. rewrite Hm.
    change (10 =? 0) with false. change (Z.quot NUM_PIXELS 10) with 2. cbv iota zeta.
    destruct (Z.ltb_spec NUM_PIXELS (2 * nivel_atual (treinamento s)));
      [unfold NUM_PIXELS in *; lia | reflexivity].
  - intros e s1.
    assert (Hc : concluiu (com_leituras e s) = completou e s)
      by (apply (concluiu_completou fall us0 evs e); exact H1).
    destruct (ramo_depois_de_pontuar e s (conj Hp Hs) H1) as (S1 & I1 & R1).
    fold s1 in S1, I1, R1. rewrite Hc in S1, R1.
    assert (T1 : tempo_decorrido e s1 = u32 (seg (us_limite e) - inicio (treinamento s))).
    { unfold tempo_decorrido. rewrite I1. reflexivity. }
    split; [exact S1|]. split.
    + unfold ramo_do_limite. fold s1. rewrite T1, R1. unfold esgotou.
      destruct (300 <=? _); [|reflexivity]. destruct (completou e s); reflexivity.
    + intros Hlim. rewrite verificar_treinamento.
      destruct (Z.leb_spec 300 (tempo_decorrido e s1)); [|lia]. campos.
      rewrite R1, S1. destruct (completou e s); cbn [negb];
        repeat split; intros; try reflexivity; try discriminate.
Qed.

Lemma sessao_em_andamento_segura_witness :
  nivel_maximo (treinamento sessao_iniciada) = 10
  /\ leds_em_andamento (treinamento sessao_iniciada)
     = Some (2 * nivel_atual (treinamento sessao_iniciada))
  /\ status (treinamento
               (verificar_tempo_limite (sem_botoes 0 0 303000000)
                  (pontuar (sem_botoes 0 0 303000000)
                     (com_leituras (sem_botoes 0 0 303000000) sessao_iniciada)))) = 3.
Proof.
  destruct (sessao_em_andamento_segura 4 0 (firstn 3 falha_e_limpeza) eq_refl)
    as (H1 & _ & H3 & H4).
  split; [exact H1|]. split; [exact H3|].
  destruct (H4 (sem_botoes 0 0 303000000)) as (_ & _ & H5).
  destruct H5 as (_ & H6 & _).
  - vm_compute. discriminate.
  - apply H6. reflexivity.
Defined.

(** The turn that refutes the failed branch: the state reached with 449
    points at level 9 has a running session, the scoring of the turn
    completes it, and the limit test, reading 300 s, takes the completed
    branch. *)
Lemma limite_escolhe_concluido :
  status (treinamento (executar 4 eventos_ate_nivel_9 (sistema_inicial 0))) = 1
  /\ tempo_decorrido turno_no_limite
       (pontuar turno_no_limite
          (com_leituras turno_no_limite
             (executar 4 eventos_ate_nivel_9 (sistema_inicial 0)))) = 300
  /\ ramo_do_limite turno_no_limite
       (executar 4 eventos_ate_nivel_9 (sistema_inicial 0)) = Some 2
  /\ status (treinamento
               (verificar_tempo_limite turno_no_limite
                  (pontuar turno_no_limite
                     (com_leituras turno_no_limite
                        (executar 4 eventos_ate_nivel_9 (sistema_inicial 0)))))) = 2.
Proof. vm_compute. repeat split; reflexivity. Qed.

(** X8. The outcome of a turn of a running session, in every reachable
    state.  With [completou] (objective met at 449 points) and [esgotou]
    (300 s or more elapsed at the limit test): the session counter grows
    by one (modulo 256) for each of the two that holds, so by two when
    both hold, and stays when neither does;
    unless SET is accepted the status is 3 when only the limit holds, 2
    when the session was completed, and stays 1 otherwise; the duration
    kept in the statistics is the one of the limit test when it fired. *)
Theorem resultado_de_um_turno :
  forall (fall us0 : Z) (evs : list Evento) (e : Entrada),
    let s := executar fall evs (sistema_inicial us0) in
    status (treinamento s) = 1 ->
    let s' := executar_modo_treinamento e s in
    sessoes_concluidas (stats s')
    = (if completou e s || esgotou e s
       then u8 (sessoes_concluidas (stats s)
                + (if completou e s then 1 else 0) + (if esgotou e s then 1 else 0))
       else sessoes_concluidas (stats s))
    /\ tempo_ultimo_treino (stats s')
       = (if esgotou e s then u32 (seg (us_limite e) - inicio (treinamento s))
          else if completou e s then u32 (seg (us_conclusao e) - inicio (treinamento s))
               else tempo_ultimo_treino (stats s))
    /\ status (treinamento s')
       = (if set_aceito e s then 0
          else if completou e s then 2
               else if esgotou e s then 3 else 1).
Proof.
  intros fall us0 evs e s E1 s'.
  pose proof (concluiu_completou fall us0 evs e E1) as Hc. fold s in Hc.
  pose proof (executar_sessao_regular fall us0 evs) as Hreg. fold s in Hreg.
  destruct (pontuar_regular e (com_leituras e s) Hreg E1) as [Hr1 Hst1].
  destruct (turno_treinamento e s E1) as (Ht & Hs & _). fold s' in Ht, Hs.
  rewrite Hs, Ht, verificar_stats, verificar_treinamento.
  assert (Hd : tempo_decorrido e (pontuar e (com_leituras e s))
               = u32 (seg (us_limite e) - inicio (treinamento s))).
  { unfold tempo_decorrido. rewrite pontuar_treinamento. reflexivity. }
  rewrite Hd. fold (esgotou e s).
  rewrite pontuar_stats. rewrite Hc.
  assert (Hn1 : (nivel_atual (treinamento (pontuar e (com_leituras e s)))
                 <? nivel_maximo (treinamento (pontuar e (com_leituras e s))))
                = negb (completou e s)).
  { destruct Hr1 as (_ & _ & _ & _ & _ & H13 & H2).
    assert (Hst : status (treinamento (pontuar e (com_leituras e s)))
                  = if completou e s then 2 else 1).
    { rewrite pontuar_treinamento. campos. rewrite Hc.
      change (treinamento (com_leituras e s)) with (treinamento s). rewrite E1. reflexivity. }
    destruct (completou e s); simpl.
    - destruct (H2 Hst) as (-> & -> & _). reflexivity.
    - destruct (H13 (or_introl Hst)) as (-> & -> & Hlt).
      apply Z.ltb_lt. Z.div_mod_to_equations. lia. }
  assert (Hst : status (treinamento (pontuar e (com_leituras e s)))
                = if completou e s then 2 else 1).
  { rewrite pontuar_treinamento. campos. rewrite Hc.
    change (treinamento (com_leituras e s)) with (treinamento s). rewrite E1. reflexivity. }
  change (stats (com_leituras e s)) with (stats s).
  change (treinamento (com_leituras e s)) with (treinamento s).
  split; [|split].
  - destruct (completou e s), (esgotou e s); campos; cbn [orb]; unfold u8;
      rewrite ?Z.add_0_r; try reflexivity.
    rewrite Zplus_mod_idemp_l. reflexivity.
  - destruct (completou e s), (esgotou e s); reflexivity.
  - destruct (set_aceito e s); [destruct (esgotou e s); reflexivity|].
    destruct (esgotou e s); campos; [|exact Hst].
    rewrite Hn1. destruct (completou e s); reflexivity.
Qed.

Lemma resultado_de_um_turno_witness :
  sessoes_concluidas
    (stats (executar_modo_treinamento turno_no_limite
              (executar 4 eventos_ate_nivel_9 (sistema_inicial 0)))) = 2
  /\ status
       (treinamento (executar_modo_treinamento turno_no_limite
                       (executar 4 eventos_ate_nivel_9 (sistema_inicial 0)))) = 2.
Proof.
  assert (E1 : status (treinamento (executar 4 eventos_ate_nivel_9 (sistema_inicial 0))) = 1)
    by (vm_compute; reflexivity).
  destruct (resultado_de_um_turno 4 0 eventos_ate_nivel_9 turno_no_limite E1)
    as (H1 & _ & H3).
  split.
  - rewrite H1. vm_compute. reflexivity.
  - rewrite H3. vm_compute. reflexivity.
Defined.

Lemma voltar_aceito e s :
  set_aceito e s = true ->
  voltar_ao_inicio e s = no_treinamento (com_status 0) (com_last_button_time (ms (us_set e)) s).
Proof. unfold voltar_ao_inicio, set_aceito. intros ->. reflexivity. Qed.

Lemma preparar_so_set e s :
  botao_next e = false -> set_aceito e s = true ->
  treinamento (preparar_treinamento e s)
  = mkTreinamento 1 10 (duracao (treinamento s)) (objetivo (treinamento s)) 1
      (seg (us_inicio e)) 0.
Proof.
  unfold preparar_treinamento, set_aceito. intros -> H. cbn [andb]. rewrite H.
  destruct s as [mi sm cp lb ea li st [na nm du ob sts ini po]]. reflexivity.
Qed.

(** X9. Leaving a session and starting the next one take two accepted
    SET presses.  The first, on a running, completed or failed session,
    only sets the status to 0: level, score and duration stay as the turn
    left them.  The second, with NEXT released, starts a session with
    status 1, level 1 of 10, score 0, the start second of its own clock
    read, the same objective and the duration of the previous session. *)
Theorem sair_e_recomecar :
  forall (e1 e2 : Entrada) (s : Sistema),
    1 <= status (treinamento s) <= 3 ->
    set_aceito e1 s = true ->
    botao_next e2 = false ->
    set_aceito e2 (executar_modo_treinamento e1 s) = true ->
    let t1 := treinamento (executar_modo_treinamento e1 s) in
    let t2 := treinamento (executar_modo_treinamento e2 (executar_modo_treinamento e1 s)) in
    status t1 = 0
    /\ (status (treinamento s) <> 1 -> t1 = com_status 0 (treinamento s))
    /\ (status (treinamento s) = 1 ->
        t1 = com_status 0
               (treinamento (verificar_tempo_limite e1 (pontuar e1 (com_leituras e1 s)))))
    /\ t2 = mkTreinamento 1 10 (duracao t1) (objetivo (treinamento s)) 1 (seg (us_inicio e2)) 0.
Proof.
  intros e1 e2 s Hst H1 Hn H2 t1 t2.
  assert (Ht1 : status t1 = 0
                /\ objetivo t1 = objetivo (treinamento s)
                /\ (status (treinamento s) <> 1 -> t1 = com_status 0 (treinamento s))
                /\ (status (treinamento s) = 1 ->
                    t1 = com_status 0
                           (treinamento
                              (verificar_tempo_limite e1 (pontuar e1 (com_leituras e1 s)))))).
  { unfold t1. destruct (Z.eq_dec (status (treinamento s)) 1) as [E1 | N1].
    - destruct (turno_treinamento e1 s E1) as (Ht & _). rewrite Ht, H1.
      destruct (turno_pontos e1 s E1) as (_ & _ & _ & _ & Hob).
      rewrite Ht, H1 in Hob.
      repeat split; try reflexivity; [exact Hob | intros N; contradiction].
    - rewrite turno_terminado by lia. rewrite voltar_treinamento.
      replace (set_aceito e1 (com_leituras e1 s)) with true
        by (rewrite <- H1; apply set_aceito_so_stamp; reflexivity).
      repeat split; try reflexivity. intros E; contradiction. }
  destruct Ht1 as (S0 & Hob & Ha & Hb).
  split; [exact S0|]. split; [exact Ha|]. split; [exact Hb|].
  unfold t2. rewrite turno_parado by exact S0.
  rewrite preparar_so_set.
  - change (treinamento (com_leituras e2 (executar_modo_treinamento e1 s))) with t1.
    rewrite Hob. reflexivity.
  - exact Hn.
  - rewrite <- H2. apply set_aceito_so_stamp. reflexivity.
Qed.

Lemma sair_e_recomecar_witness :
  treinamento
    (executar_modo_treinamento (so_set 305000000)
       (executar_modo_treinamento (so_set 304000000)
          (executar 4 (firstn 4 falha_e_limpeza) (sistema_inicial 0))))
  = mkTreinamento 1 10 300 0 1 305 0.
Proof.
  assert (Hst : 1 <= status (treinamento
                               (executar 4 (firstn 4 falha_e_limpeza) (sistema_inicial 0))) <= 3)
    by (vm_compute; split; discriminate).
  destruct (sair_e_recomecar (so_set 304000000) (so_set 305000000)
              (executar 4 (firstn 4 falha_e_limpeza) (sistema_inicial 0))
              Hst eq_refl eq_refl eq_refl)
    as (_ & _ & _ & H).
  rewrite H. vm_compute. reflexivity.
Defined.

Lemma preparar_so_next e s :
  botao_next e = true -> passou_debounce (us_next e) s = true -> botao_set e = false ->
  preparar_treinamento e s
  = no_treinamento (fun t => com_objetivo (Z.rem (objetivo t + 1) 3) t)
      (com_last_button_time (ms (us_next e)) s).
Proof.
  unfold preparar_treinamento. intros -> -> ->. reflexivity.
Qed.

(** X10. Before a session starts, an accepted polled NEXT with SET
    released moves the objective to [(objetivo + 1) mod 3] and touches
    nothing else of the training record; three of them in a row bring the
    record back to what it was. *)
Theorem ciclo_de_objetivos :
  forall (e1 e2 e3 : Entrada) (s : Sistema),
    status (treinamento s) = 0 ->
    0 <= objetivo (treinamento s) <= 2 ->
    botao_next e1 = true -> botao_set e1 = false ->
    botao_next e2 = true -> botao_set e2 = false ->
    botao_next e3 = true -> botao_set e3 = false ->
    passou_debounce (us_next e1) s = true ->
    DEBOUNCE_DELAY_MS < u32 (ms (us_next e2) - ms (us_next e1)) ->
    DEBOUNCE_DELAY_MS < u32 (ms (us_next e3) - ms (us_next e2)) ->
    treinamento (executar_modo_treinamento e1 s)
    = com_objetivo ((objetivo (treinamento s) + 1) mod 3) (treinamento s)
    /\ treinamento (treinar [e1; e2; e3] s) = treinamento s.
Proof.
  intros e1 e2 e3 s S0 Ho N1 B1 N2 B2 N3 B3 D1 D2 D3.
  assert (passo1 : forall e s0, status (treinamento s0) = 0 ->
             botao_next e = true -> botao_set e = false ->
             passou_debounce (us_next e) s0 = true ->
             executar_modo_treinamento e s0
             = no_treinamento (fun t => com_objetivo (Z.rem (objetivo t + 1) 3) t)
                 (com_last_button_time (ms (us_next e)) (com_leituras e s0))).
  { intros e s0 H0 Hn Hb Hd. rewrite turno_parado by assumption.
    apply preparar_so_next; assumption. }
  split.
  - rewrite passo1 by assumption.
    destruct s as [mi sm cp lb ea li st [na nm du ob sts ini po]].
    unfold com_leituras. campos.
    rewrite Z.rem_mod_nonneg by lia. reflexivity.
  - destruct s as [mi sm cp lb ea li st [na nm du ob sts ini po]]. campos. subst sts.
    unfold treinar. cbn [fold_left].
    rewrite (passo1 e1) by (try assumption; reflexivity).
    rewrite (passo1 e2);
      [|reflexivity | assumption | assumption
       |unfold passou_debounce, com_leituras; campos; apply Z.ltb_lt; assumption].
    rewrite (passo1 e3);
      [|reflexivity | assumption | assumption
       |unfold passou_debounce, com_leituras; campos; apply Z.ltb_lt; assumption].
    unfold com_leituras. campos.
    assert (E : Z.rem (Z.rem (Z.rem (ob + 1) 3 + 1) 3 + 1) 3 = ob).
    { assert (ob = 0 \/ ob = 1 \/ ob = 2) as [-> | [-> | ->]] by lia; reflexivity. }
    rewrite E. reflexivity.
Qed.

Lemma ciclo_de_objetivos_witness :
  treinamento (treinar [so_next 3000000; so_next 4000000; so_next 5000000]
                 (executar 4 (firstn 2 falha_e_limpeza) (sistema_inicial 0)))
  = treinamento (executar 4 (firstn 2 falha_e_limpeza) (sistema_inicial 0)).
Proof.
  apply (ciclo_de_objetivos (so_next 3000000) (so_next 4000000) (so_next 5000000)
           (executar 4 (firstn 2 falha_e_limpeza) (sistema_inicial 0)));
    try reflexivity; vm_compute; split; discriminate.
Defined.

(** ** The order of binary32 values *)

Lemma compare_troca x y :
  SFcompare y x = option_map CompOpp (SFcompare x y).
Proof.
  destruct x as [sx | sx | | sx mx ex], y as [sy | sy | | sy my ey];
    try destruct sx; try destruct sy; cbn; try reflexivity.
  - rewrite (Z.compare_antisym ex ey).
    change (Pos.compare_cont Eq my mx) with (Pos.compare my mx).
    change (Pos.compare_cont Eq mx my) with (Pos.compare mx my).
    rewrite (Pos.compare_antisym mx my).
    destruct (ex ?= ey); cbn; try reflexivity.
  - rewrite (Z.compare_antisym ex ey).
    change (Pos.compare_cont Eq my mx) with (Pos.compare my mx).
    change (Pos.compare_cont Eq mx my) with (Pos.compare mx my).
    rewrite (Pos.compare_antisym mx my).
    destruct (ex ?= ey); cbn; try reflexivity.
Qed.

Lemma lt_irreflexiva x : F32.lt x x = false.
Proof.
  unfold F32.lt, SFltb.
  destruct x as [sx | sx | | sx mx ex]; try destruct sx; cbn; try reflexivity;
    rewrite Z.compare_refl; change (Pos.compare_cont Eq mx mx) with (Pos.compare mx mx);
    rewrite Pos.compare_refl; reflexivity.
Qed.

Lemma lt_transitiva x y z :
  F32.lt x y = true -> F32.lt y z = true -> F32.lt x z = true.
Proof.
  unfold F32.lt, SFltb.
  destruct x as [sx | sx | | sx mx ex], y as [sy | sy | | sy my ey],
           z as [sz | sz | | sz mz ez];
    try destruct sx; try destruct sy; try destruct sz; cbn;
    try discriminate; try reflexivity;
    change (Pos.compare_cont Eq mx my) with (Pos.compare mx my);
    change (Pos.compare_cont Eq my mz) with (Pos.compare my mz);
    change (Pos.compare_cont Eq mx mz) with (Pos.compare mx mz);
    destruct (Z.compare_spec ex ey); destruct (Z.compare_spec ey ez);
    destruct (Z.compare_spec ex ez); subst; try lia; try discriminate; try reflexivity;
    destruct (Pos.compare_spec mx my); destruct (Pos.compare_spec my mz);
    destruct (Pos.compare_spec mx mz); subst; cbn; try lia; try discriminate; try reflexivity.
Qed.

(** On values that are numbers, [not (y < x)] is [x <= y]. *)
Lemma nao_lt_le x y :
  nao_nan x = true -> nao_nan y = true -> F32.lt y x = false -> F32.le x y = true.
Proof.
  unfold F32.lt, F32.le, SFltb, SFleb. rewrite (compare_troca x y).
  destruct x as [sx | sx | | sx mx ex], y as [sy | sy | | sy my ey];
    try discriminate; intros _ _;
    destruct (SFcompare _ _) as [[ | | ] | ] eqn:E; cbn; try discriminate; try reflexivity;
    try destruct sx; try destruct sy; cbn in E; discriminate.
Qed.

(** ** Statistics *)

(** X11. Which steps write the statistics.  An interrupt and a turn in
    the overlay or in the configuration view leave the whole record as it
    was.  A training turn never records a sample: sums, maxima and sample
    count stay.  A history turn changes the record only when SET is
    accepted while NEXT is held; an accepted SET alone only moves the
    debounce stamp. *)
Theorem quem_escreve_as_estatisticas :
  forall (fall : Z) (s : Sistema),
    (forall gpio events us : Z,
        stats (fst (button_callback fall gpio events us s)) = stats s)
    /\ (forall e : Entrada, stats (executar_modo_configuracao e s) = stats s)
    /\ (forall e : Entrada,
           acumuladores (stats (executar_modo_treinamento e s)) = acumuladores (stats s)
           /\ tempo_inicio (stats (executar_modo_treinamento e s)) = tempo_inicio (stats s))
    /\ (forall e : Entrada,
           botao_set e && passou_debounce (us_set e) s && botao_next e = false ->
           stats (executar_modo_historico e s) = stats s)
    /\ (forall e : Entrada,
           botao_set e = true -> passou_debounce (us_set e) s = true -> botao_next e = false ->
           executar_modo_historico e s = com_last_button_time (ms (us_set e)) s).
Proof.
  intros fall s. split; [|split; [|split; [|split]]].
  - intros gpio events us. unfold button_callback, tratar_botao. decidir; reflexivity.
  - intros e. unfold executar_modo_configuracao. decidir; reflexivity.
  - intros e.
    unfold executar_modo_treinamento, preparar_treinamento, pontuar,
      verificar_tempo_limite, voltar_ao_inicio, contar_sessao, acumuladores.
    destruct s as [mi sm cp lb ea li st t]. campos.
    decidir; split; reflexivity.
  - intros e H. unfold executar_modo_historico.
    destruct (botao_set e && passou_debounce (us_set e) s); [|reflexivity].
    cbn [andb] in H. rewrite H. reflexivity.
  - intros e Hs Hd Hn. unfold executar_modo_historico. rewrite Hs, Hd, Hn. reflexivity.
Qed.

Lemma monitoramento_passo e s :
  let st := stats s in
  let st' := stats (executar_modo_monitoramento e s) in
  amostras st' = u32 (amostras st + 1)
  /\ max_atencao st'
     = (if F32.gt (sensor_atencao e) (max_atencao st) then sensor_atencao e
        else max_atencao st)
  /\ max_relaxamento st'
     = (if F32.gt (sensor_relaxamento e) (max_relaxamento st) then sensor_relaxamento e
        else max_relaxamento st)
  /\ soma_atencao st' = F32.add (soma_atencao st) (sensor_atencao e)
  /\ soma_relaxamento st' = F32.add (soma_relaxamento st) (sensor_relaxamento e)
  /\ tempo_inicio st' = tempo_inicio st
  /\ sessoes_concluidas st' = sessoes_concluidas st
  /\ tempo_ultimo_treino st' = tempo_ultimo_treino st.
Proof.
  unfold executar_modo_monitoramento.
  destruct s as [mi sm cp lb ea li [sa sr ma mr am ti tu sc] t]. campos.
  decidir; repeat split; reflexivity.
Qed.

(** The running maximum [m' = if x > m then x else m]. *)
Lemma maximo_passo (x m y : float) :
  let m' := if F32.gt x m then x else m in
  F32.gt x m' = false
  /\ F32.lt m' m = false
  /\ (F32.gt y m = false -> F32.gt y m' = false).
Proof.
  pose proof (lt_irreflexiva x) as Ix. pose proof (lt_irreflexiva m) as Im.
  pose proof (lt_transitiva m x m) as T1. pose proof (lt_transitiva m x y) as T2.
  unfold F32.gt, F32.lt in *. cbv zeta. destruct (SFltb m x) eqn:E.
  - split; [exact Ix|]. split.
    + destruct (SFltb x m) eqn:E2; [|reflexivity].
      rewrite (T1 eq_refl eq_refl) in Im. discriminate.
    + intros Hy. destruct (SFltb x y) eqn:E2; [|reflexivity].
      rewrite (T2 eq_refl eq_refl) in Hy. discriminate.
  - split; [exact E|]. split; [exact Im | auto].
Qed.

Lemma monitorar_maximos :
  forall (es : list Entrada) (s : Sistema),
    0 <= amostras (stats s) < 2 ^ 32 ->
    let st := stats s in
    let st' := stats (monitorar es s) in
    amostras st' = u32 (amostras st + Z.of_nat (length es))
    /\ F32.lt (max_atencao st') (max_atencao st) = false
    /\ F32.lt (max_relaxamento st') (max_relaxamento st) = false
    /\ (forall y, F32.gt y (max_atencao st) = false -> F32.gt y (max_atencao st') = false)
    /\ (forall y, F32.gt y (max_relaxamento st) = false ->
                  F32.gt y (max_relaxamento st') = false)
    /\ (forall e, In e es ->
                  F32.gt (sensor_atencao e) (max_atencao st') = false
                  /\ F32.gt (sensor_relaxamento e) (max_relaxamento st') = false)
    /\ (max_atencao st' = max_atencao st
        \/ exists e, In e es /\ max_atencao st' = sensor_atencao e)
    /\ (max_relaxamento st' = max_relaxamento st
        \/ exists e, In e es /\ max_relaxamento st' = sensor_relaxamento e).
Proof.
  induction es as [|e es IH]; intros s Hr st st'.
  - unfold st', st. simpl. rewrite Z.add_0_r, u32_pequeno by exact Hr.
    split; [reflexivity|]. split; [apply lt_irreflexiva|]. split; [apply lt_irreflexiva|].
    split; [auto|]. split; [auto|]. split; [intros ? []|].
    split; left; reflexivity.
  - destruct (monitoramento_passo e s) as (Ha & Hma & Hmr & _).
    fold st in Ha, Hma, Hmr.
    destruct (maximo_passo (sensor_atencao e) (max_atencao st) (max_atencao st))
      as (A1 & A2 & _).
    destruct (maximo_passo (sensor_relaxamento e) (max_relaxamento st) (max_relaxamento st))
      as (R1 & R2 & _).
    rewrite <- Hma in A1, A2. rewrite <- Hmr in R1, R2.
    specialize (IH (executar_modo_monitoramento e s)).
    destruct IH as (I1 & I2 & I3 & I4 & I5 & I6 & I7 & I8).
    { rewrite Ha. apply u32_faixa. }
    subst st'.
    change (monitorar (e :: es) s) with (monitorar es (executar_modo_monitoramento e s)).
    set (st' := stats (monitorar es (executar_modo_monitoramento e s))) in *.
    assert (T4 : forall y, F32.gt y (max_atencao st) = false ->
                           F32.gt y (max_atencao st') = false).
    { intros y Hy. apply I4. rewrite Hma.
      apply (maximo_passo (sensor_atencao e) (max_atencao st) y), Hy. }
    assert (T5 : forall y, F32.gt y (max_relaxamento st) = false ->
                           F32.gt y (max_relaxamento st') = false).
    { intros y Hy. apply I5. rewrite Hmr.
      apply (maximo_passo (sensor_relaxamento e) (max_relaxamento st) y), Hy. }
    split; [|split; [|split; [|split; [|split; [|split; [|split]]]]]].
    + rewrite I1, Ha. unfold u32. rewrite Zplus_mod_idemp_l. f_equal.
      change (length (e :: es)) with (S (length es)). lia.
    + apply T4. apply lt_irreflexiva.
    + apply T5. apply lt_irreflexiva.
    + exact T4.
    + exact T5.
    + intros e' [<- | Hin].
      * split; [apply I4, A1 | apply I5, R1].
      * apply I6, Hin.
    + destruct I7 as [E | (e' & Hin & E)].
      * rewrite E, Hma.
        destruct (F32.gt (sensor_atencao e) (max_atencao st));
          [right; exists e; split; [left|] | left]; reflexivity.
      * right. exists e'. split; [right; exact Hin | exact E].
    + destruct I8 as [E | (e' & Hin & E)].
      * rewrite E, Hmr.
        destruct (F32.gt (sensor_relaxamento e) (max_relaxamento st));
          [right; exists e; split; [left|] | left]; reflexivity.
      * right. exists e'. split; [right; exact Hin | exact E].
Qed.

(** X12. After any run of monitoring turns the sample count has grown
    by the number of turns (modulo 2^32), neither maximum has gone down,
    no reading of the run is above the maximum of its channel, and each
    maximum is the old one or one of the readings of the run. *)
Theorem maximos_do_monitoramento :
  forall (es : list Entrada) (s : Sistema),
    0 <= amostras (stats s) < 2 ^ 32 ->
    let st := stats s in
    let st' := stats (monitorar es s) in
    amostras st' = u32 (amostras st + Z.of_nat (length es))
    /\ (max_atencao st' < max_atencao st)%f32 = false
    /\ (max_relaxamento st' < max_relaxamento st)%f32 = false
    /\ (forall e, In e es ->
                  (sensor_atencao e > max_atencao st')%f32 = false
                  /\ (sensor_relaxamento e > max_relaxamento st')%f32 = false)
    /\ (max_atencao st' = max_atencao st
        \/ exists e, In e es /\ max_atencao st' = sensor_atencao e)
    /\ (max_relaxamento st' = max_relaxamento st
        \/ exists e, In e es /\ max_relaxamento st' = sensor_relaxamento e).
Proof.
  intros es s Hr st st'.
  destruct (monitorar_maximos es s Hr) as (H1 & H2 & H3 & _ & _ & H6 & H7 & H8).
  repeat split; try assumption; apply H6; assumption.
Qed.

Lemma maximos_do_monitoramento_witness :
  amostras (stats (monitorar tres_leituras (sistema_inicial 0))) = u32 (0 + 3)
  /\ max_atencao (stats (monitorar tres_leituras (sistema_inicial 0))) = F32.of_Z 90
  /\ max_relaxamento (stats (monitorar tres_leituras (sistema_inicial 0))) = F32.of_Z 8.
Proof.
  destruct (maximos_do_monitoramento tres_leituras (sistema_inicial 0)) as (H1 & _).
  - simpl. lia.
  - split; [exact H1|]. split; reflexivity.
Defined.

(** ** Sensors and bands *)

Lemma recorte x teto :
  F32.lt F32.zero F32.zero = false -> F32.gt F32.zero teto = false ->
  F32.lt teto F32.zero = false -> F32.gt teto teto = false ->
  let v := if F32.lt x F32.zero then F32.zero else x in
  let w := if F32.gt v teto then teto else v in
  F32.lt w F32.zero = false /\ F32.gt w teto = false
  /\ (w = x \/ w = F32.zero \/ w = teto).
Proof.
  intros H1 H2 H3 H4 v w. unfold w, v.
  destruct (F32.lt x F32.zero) eqn:E1.
  - rewrite H2. auto.
  - destruct (F32.gt x teto) eqn:E2; auto.
Qed.

(** X13. The two simulated sensors clip: whatever the ADC value, the
    value of [rand()] and [RAND_MAX], the attention level never compares
    below 0 or above 100 and the relaxation level never below 0 or above
    10, so a level that is a number lies in the closed range. *)
Theorem sensores_recortados :
  forall RAND_MAX r adc : Z,
    let a := obter_nivel_atencao RAND_MAX r adc in
    let x := obter_nivel_relaxamento RAND_MAX r adc in
    (F32.lt a F32.zero = false /\ F32.gt a c100 = false)
    /\ (F32.lt x F32.zero = false /\ F32.gt x c10 = false)
    /\ (nao_nan a = true -> F32.le F32.zero a = true /\ F32.le a c100 = true)
    /\ (nao_nan x = true -> F32.le F32.zero x = true /\ F32.le x c10 = true).
Proof.
  intros RAND_MAX r adc a x.
  assert (Ha : F32.lt a F32.zero = false /\ F32.gt a c100 = false).
  { unfold a, obter_nivel_atencao. cbv zeta.
    match goal with |- context [if F32.lt ?v F32.zero then _ else _] =>
      destruct (recorte v c100) as (H1 & H2 & _); try reflexivity; auto end. }
  assert (Hx : F32.lt x F32.zero = false /\ F32.gt x c10 = false).
  { unfold x, obter_nivel_relaxamento. cbv zeta.
    match goal with |- context [if F32.lt ?v F32.zero then _ else _] =>
      destruct (recorte v c10) as (H1 & H2 & _); try reflexivity; auto end. }
  split; [exact Ha|]. split; [exact Hx|]. split; intros Hn.
  - destruct Ha as [H1 H2]. split; apply nao_lt_le; auto.
  - destruct Hx as [H1 H2]. split; apply nao_lt_le; auto.
Qed.

Lemma piso_nao_negativo x :
  F32.lt (if F32.lt x F32.zero then F32.zero else x) F32.zero = false.
Proof. destruct (F32.lt x F32.zero) eqn:E; [reflexivity | exact E]. Qed.

Lemma forallb_intervalo (f : Z -> bool) lo n x :
  forallb f (intervalo lo n) = true -> lo <= x < lo + Z.of_nat n -> f x = true.
Proof.
  intros H Hx. rewrite forallb_forall in H. apply H.
  unfold intervalo. apply in_map_iff. exists (Z.to_nat (x - lo)).
  split; [lia|]. apply in_seq. lia.
Qed.

Lemma ondas_das_leituras_inteiras :
  forallb (fun a => forallb (fun r => ondas_na_faixa (leitura a r)) (intervalo 0 11))
    (intervalo 0 101) = true.
Proof. vm_compute. reflexivity. Qed.

(** X14. The four final tests of [simular_ondas_cerebrais] floor every
    band: for every pair of levels, NaN included, no band compares below
    zero. *)
Theorem ondas_nunca_negativas :
  forall estado : EstadoCognitivo,
    let o := simular_ondas_cerebrais estado in
    F32.lt (alpha o) F32.zero = false /\ F32.lt (beta o) F32.zero = false
    /\ F32.lt (theta o) F32.zero = false /\ F32.lt (delta o) F32.zero = false.
Proof.
  intros estado o. unfold o, simular_ondas_cerebrais. cbv zeta.
  cbn [alpha beta theta delta].
  repeat split; apply piso_nao_negativo.
Qed.

(** X15. On the integer readings of the sensor ranges (attention 0..100,
    relaxation 0..10) the four floors are dead code: every band is the
    value of its formula, and alpha lies in 5..15, beta in 10..30, theta
    in 5..20 and delta in 2..20. *)
Theorem ondas_das_leituras :
  forall a r : Z, 0 <= a <= 100 -> 0 <= r <= 10 ->
    let o := simular_ondas_cerebrais (leitura a r) in
    o = ondas_sem_piso (leitura a r)
    /\ entre c5 c15 (alpha o) = true /\ entre c10 (F32.of_Z 30) (beta o) = true
    /\ entre c5 c20 (theta o) = true /\ entre c2 c20 (delta o) = true.
Proof.
  intros a r Ha Hr o.
  assert (H : ondas_na_faixa (leitura a r) = true).
  { assert (H1 := forallb_intervalo _ 0 101 a ondas_das_leituras_inteiras).
    apply (forallb_intervalo (fun r => ondas_na_faixa (leitura a r)) 0 11 r);
      [apply H1|]; simpl; lia. }
  unfold ondas_na_faixa in H. cbv zeta in H. fold o in H.
  repeat (apply andb_prop in H; destruct H as [H ?]).
  repeat split; try assumption.
  destruct o as [oa ob ot od], (ondas_sem_piso (leitura a r)) as [pa pb pt pd].
  cbn [alpha beta theta delta] in *.
  f_equal; apply same_eq; assumption.
Qed.

Lemma ondas_das_leituras_witness :
  simular_ondas_cerebrais (leitura 50 5) = ondas_sem_piso (leitura 50 5)
  /\ entre c5 c15 (alpha (simular_ondas_cerebrais (leitura 50 5))) = true.
Proof.
  destruct (ondas_das_leituras 50 5) as (H1 & H2 & _); [lia | lia |].
  split; [exact H1 | exact H2].
Defined.

(** ** The words of the LED matrix *)

Lemma byte_bits x k : 0 <= x < 256 -> 8 <= k -> Z.testbit x k = false.
Proof.
  intros Hx Hk. destruct (Z.eq_dec x 0) as [->|Hn]; [apply Z.bits_0|].
  apply Z.bits_above_log2; [lia|].
  assert (Z.log2 x < 8) by (apply Z.log2_lt_pow2; lia). lia.
Qed.

Lemma u8_byte x : 0 <= x < 256 -> u8 x = x.
Proof. intros H. unfold u8. apply Z.mod_small. change (2 ^ 8) with 256. lia. Qed.

Lemma palavra_bits r g b n :
  0 <= r < 256 -> 0 <= g < 256 -> 0 <= b < 256 -> 0 <= n ->
  Z.testbit (enviar_pixel (urgb_u32 r g b)) n
  = if n <? 8 then false
    else if n <? 16 then Z.testbit b (n - 8)
    else if n <? 24 then Z.testbit r (n - 16)
    else if n <? 32 then Z.testbit g (n - 24)
    else false.
Proof.
  intros Hr Hg Hb Hn. unfold enviar_pixel, urgb_u32.
  rewrite !u8_byte by assumption. unfold u32.
  rewrite <- !Z.land_ones by lia.
  rewrite Z.land_spec, Z.shiftl_spec by lia.
  destruct (Z.ltb_spec n 8).
  { rewrite (Z.testbit_neg_r _ (n - 8)) by lia. reflexivity. }
  rewrite !Z.lor_spec, !Z.land_spec, !Z.shiftl_spec by lia.
  rewrite !Z.testbit_ones_nonneg by lia.
  destruct (Z.ltb_spec (n - 8) 32); destruct (Z.ltb_spec n 32); try lia;
    rewrite ?andb_true_r, ?andb_false_r; try reflexivity.
  - destruct (Z.ltb_spec n 16).
    { rewrite (Z.testbit_neg_r r) by lia. rewrite (Z.testbit_neg_r g) by lia.
      reflexivity. }
    destruct (Z.ltb_spec n 24).
    { rewrite (Z.testbit_neg_r g) by lia. rewrite (byte_bits b) by lia.
      rewrite !orb_false_r. f_equal. lia. }
    rewrite (byte_bits b) by lia. rewrite (byte_bits r) by lia.
    rewrite !orb_false_r. cbn [orb]. f_equal. lia.
  - destruct (Z.ltb_spec n 16); [lia|]. destruct (Z.ltb_spec n 24); [lia|]. reflexivity.
  - destruct (Z.ltb_spec n 16); [lia|]. destruct (Z.ltb_spec n 24); [lia|]. reflexivity.
Qed.

Lemma byte_de_bits w k m :
  0 <= k -> 0 <= m ->
  Z.testbit (byte_de k w) m = if m <? 8 then Z.testbit w (m + 8 * k) else false.
Proof.
  intros Hk Hm. unfold byte_de. change 255 with (Z.ones 8).
  rewrite Z.land_spec, Z.shiftr_spec, Z.testbit_ones_nonneg by lia.
  destruct (m <? 8); [apply andb_true_r | apply andb_false_r].
Qed.

(** X16. The word sent for a lit pixel carries the three colour bytes
    unchanged and apart: green in byte 3, red in byte 2, blue in byte 1,
    and byte 0 is zero; nothing is lost by the shifts, so the colour is
    read back from the word. *)
Theorem palavra_do_pixel :
  forall r g b : Z, 0 <= r < 256 -> 0 <= g < 256 -> 0 <= b < 256 ->
    let w := enviar_pixel (urgb_u32 r g b) in
    0 <= w < 2 ^ 32
    /\ byte_de 3 w = g /\ byte_de 2 w = r /\ byte_de 1 w = b /\ byte_de 0 w = 0.
Proof.
  intros r g b Hr Hg Hb w. split.
  { unfold w, enviar_pixel. apply u32_faixa. }
  assert (B : forall k x, (forall m, 0 <= m ->
              Z.testbit (byte_de k w) m = Z.testbit x m) -> byte_de k w = x).
  { intros k x H. apply Z.bits_inj'. exact H. }
  repeat split; apply B; intros m Hm; rewrite byte_de_bits by lia;
    unfold w; rewrite palavra_bits by (assumption || lia);
    destruct (Z.ltb_spec m 8);
    repeat match goal with |- context [?a <? ?c] =>
             destruct (Z.ltb_spec a c); try lia end;
    try (f_equal; lia);
    try (symmetry; apply byte_bits; assumption || lia);
    try (rewrite Z.bits_0; reflexivity).
Qed.

Lemma palavra_do_pixel_witness :
  byte_de 3 (enviar_pixel (urgb_u32 20 20 50)) = 20
  /\ byte_de 1 (enviar_pixel (urgb_u32 20 20 50)) = 50.
Proof.
  destruct (palavra_do_pixel 20 20 50 ltac:(lia) ltac:(lia) ltac:(lia))
    as (_ & H3 & _ & H1 & _).
  split; [exact H3 | exact H1].
Defined.

(** ** The LED buffer *)

Ltac abrir_buffer buf H :=
  repeat (destruct buf as [|? buf]; [discriminate H|]);
  destruct buf; [|discriminate H].

Lemma copiar_padrao_cheio padrao buf :
  length buf = 25%nat ->
  copiar_padrao padrao buf
  = Some (map (fun i => nth (i mod 5) (nth (i / 5) padrao []) false) (seq 0 25)).
Proof. intros H. abrir_buffer buf H. reflexivity. Qed.

Lemma apagar_cheio buf :
  length buf = 25%nat ->
  escrever_faixa 0 (Z.to_nat NUM_PIXELS) false buf = Some (repeat false 25).
Proof. intros H. abrir_buffer buf H. reflexivity. Qed.

Lemma um_de (lo : Z) (n : nat) (x : Z) :
  lo <= x < lo + Z.of_nat n -> In x (intervalo lo n).
Proof.
  intros H. unfold intervalo. apply in_map_iff. exists (Z.to_nat (x - lo)).
  split; [lia | apply in_seq; lia].
Qed.

Lemma barra_acesa (n : Z) :
  0 <= n <= 25 ->
  escrever_faixa 0 (Z.to_nat n) true (repeat false 25) = Some (barra (Z.to_nat n) 25).
Proof.
  intros H. assert (Hi := um_de 0 26 n ltac:(simpl; lia)).
  cbv [intervalo seq map] in Hi. simpl in Hi.
  repeat (destruct Hi as [<- | Hi]; [reflexivity|]). destruct Hi.
Qed.

Lemma classificador_em_0_5 estado l :
  In (determinar_estado_cognitivo estado l) [0; 1; 2; 3; 4; 5].
Proof.
  unfold determinar_estado_cognitivo.
  repeat match goal with |- context [if ?c then _ else _] => destruct c end;
    simpl; auto 10.
Qed.

(** X17. The switch of the monitoring mode has a case for every code the
    classifier returns, and each case redraws the whole matrix: whatever
    the reading, the thresholds and the frame left by the previous mode,
    the buffer becomes one of the three faces (sad for codes 0 and 5,
    neutral for 1 and 3, happy for 2 and 4), read inside the pattern
    table and written inside the buffer. *)
Theorem monitoramento_redesenha :
  forall (estado : EstadoCognitivo) (l : Limiares) (buf : list bool),
    length buf = 25%nat ->
    let codigo := determinar_estado_cognitivo estado l in
    let tipo := if (codigo =? 0) || (codigo =? 5) then 2
                else if (codigo =? 1) || (codigo =? 3) then 0 else 1 in
    leds_do_monitoramento codigo buf
    = Some (quadro (nth (Z.to_nat tipo) padroes_carinhas [])).
Proof.
  intros estado l buf H codigo tipo.
  assert (Hc := classificador_em_0_5 estado l). fold codigo in Hc.
  unfold tipo. simpl in Hc.
  repeat (destruct Hc as [<- | Hc];
          [unfold leds_do_monitoramento, atualizar_buffer_com_carinha; simpl;
           rewrite copiar_padrao_cheio by exact H; reflexivity|]).
  destruct Hc.
Qed.

Lemma monitoramento_redesenha_witness :
  leds_do_monitoramento (determinar_estado_cognitivo (leitura 80 5) limiares_iniciais)
    (repeat true 25)
  = Some (quadro (nth 1 padroes_carinhas [])).
Proof.
  exact (monitoramento_redesenha (leitura 80 5) limiares_iniciais (repeat true 25) eq_refl).
Defined.

(** ** The configuration matrix *)

Lemma grade_atencao_acende : forallb (par_acende c100) grade_atencao = true.
Proof. vm_compute. reflexivity. Qed.

Lemma grade_relaxamento_acende : forallb (par_acende c10) grade_relaxamento = true.
Proof. vm_compute. reflexivity. Qed.

Lemma acende_faixa divisor v :
  acende divisor v = true ->
  exists n, leds_acesos (F32.div v divisor) = Some n /\ 1 <= n <= NUM_PIXELS.
Proof.
  unfold acende. destruct (leds_acesos _) as [n|]; [|discriminate].
  intros H. apply andb_prop in H. destruct H as [H1 H2].
  exists n. split; [reflexivity|]. apply Z.leb_le in H1, H2. lia.
Qed.

(** X18. The bar of the configuration mode stays inside the matrix: in
    every state the system reaches, the conversion to [int] is defined,
    the number of lit pixels is between 1 and 25, and the frame is that
    many lit pixels followed by dark ones, whatever the buffer held. *)
Theorem barra_da_configuracao :
  forall (fall us0 : Z) (evs : list Evento) (buf : list bool),
    length buf = 25%nat ->
    let s := executar fall evs (sistema_inicial us0) in
    exists n : Z,
      leds_acesos (valor_percentual s) = Some n
      /\ 1 <= n <= NUM_PIXELS
      /\ leds_da_configuracao s buf = Some (barra (Z.to_nat n) 25).
Proof.
  intros fall us0 evs buf H s.
  destruct (executar_menu_regular fall us0 evs) as (_ & Hp & _). fold s in Hp.
  destruct (executar_na_grade fall us0 evs) as [Ha Hr]. fold s in Ha, Hr.
  assert (Ga := proj1 (forallb_forall _ _) grade_atencao_acende _ Ha).
  assert (Gr := proj1 (forallb_forall _ _) grade_relaxamento_acende _ Hr).
  unfold par_acende, par_atencao, par_relaxamento in Ga, Gr. cbn [fst snd] in Ga, Gr.
  apply andb_prop in Ga, Gr. destruct Ga as [Ga1 Ga2], Gr as [Gr1 Gr2].
  assert (Hn : exists n, leds_acesos (valor_percentual s) = Some n /\ 1 <= n <= NUM_PIXELS).
  { unfold valor_percentual.
    destruct (Z.eqb_spec (current_param s) 0); [apply acende_faixa, Ga1|].
    destruct (Z.eqb_spec (current_param s) 1); [apply acende_faixa, Ga2|].
    destruct (Z.eqb_spec (current_param s) 2); [apply acende_faixa, Gr1|].
    destruct (Z.eqb_spec (current_param s) 3); [apply acende_faixa, Gr2|].
    lia. }
  destruct Hn as (n & Hn & Hb). exists n. split; [exact Hn|]. split; [exact Hb|].
  unfold leds_da_configuracao. rewrite apagar_cheio by exact H. cbn [bind].
  rewrite Hn. cbn [bind]. apply barra_acesa. unfold NUM_PIXELS in Hb. lia.
Qed.

Lemma barra_da_configuracao_witness :
  exists n : Z,
    leds_acesos (valor_percentual (executar 4 no_segundo_parametro (sistema_inicial 0))) = Some n
    /\ 1 <= n <= NUM_PIXELS
    /\ leds_da_configuracao (executar 4 no_segundo_parametro (sistema_inicial 0))
         (repeat true 25) = Some (barra (Z.to_nat n) 25).
Proof.
  exact (barra_da_configuracao 4 0 no_segundo_parametro (repeat true 25) eq_refl).
Defined.

(** ** The training and history matrices *)

(** X19. The matrix of the training mode in every state the system
    reaches: before a session the pattern of the objective (there is a
    case for each objective the code can store, so the frame is never
    left blank), during a session a bar of two pixels per level, at
    least 2 and at most 18 of the 25 pixels, after a completed session
    the happy face and after a failed one the sad face; no write leaves
    the buffer and nothing is divided by zero. *)
Theorem matriz_do_treinamento :
  forall (fall us0 : Z) (evs : list Evento) (buf : list bool),
    length buf = 25%nat ->
    let t := treinamento (executar fall evs (sistema_inicial us0)) in
    leds_do_treinamento t buf
    = Some (if status t =? 0
            then quadro (nth (Z.to_nat (objetivo t))
                           [padrao_foco; padrao_relaxamento; padrao_ondas] [])
            else if status t =? 1 then barra (Z.to_nat (2 * nivel_atual t)) 25
            else if status t =? 2 then quadro (nth 1 padroes_carinhas [])
            else quadro (nth 2 padroes_carinhas []))
    /\ (status t = 1 -> 1 <= nivel_atual t <= 9).
Proof.
  intros fall us0 evs buf H t.
  destruct (executar_sessao_regular fall us0 evs) as (Ho & Hs & Hp & Hn & Hm & H13 & H2).
  fold t in Ho, Hs, Hp, Hn, Hm, H13, H2.
  assert (Hniv : status t = 1 -> 1 <= nivel_atual t <= 9).
  { intros E. destruct H13 as (_ & Hl & Hlt); [left; exact E|].
    assert (0 <= pontuacao t / 50 < 9) by (split; [apply Z.div_pos | apply Z.div_lt_upper_bound]; lia).
    lia. }
  split; [|exact Hniv].
  unfold leds_do_treinamento. rewrite apagar_cheio by exact H. cbn [bind].
  assert (Lr : length (repeat false 25) = 25%nat) by reflexivity.
  destruct (Z.eqb_spec (status t) 0) as [E0|N0].
  { unfold atualizar_buffer_com_ondas. rewrite !copiar_padrao_cheio by exact Lr.
    assert (Hc : objetivo t = 0 \/ objetivo t = 1 \/ objetivo t = 2) by lia.
    destruct Hc as [-> | [-> | ->]]; reflexivity. }
  destruct (Z.eqb_spec (status t) 1) as [E1|N1].
  { destruct H13 as (Hmax & _ & _); [left; exact E1|]. specialize (Hniv E1).
    unfold leds_em_andamento. rewrite Hmax.
    change (10 =? 0) with false. change (Z.quot NUM_PIXELS 10) with 2. cbv iota zeta.
    destruct (Z.ltb_spec NUM_PIXELS (2 * nivel_atual t)); [unfold NUM_PIXELS in *; lia|].
    cbn [bind]. apply barra_acesa. lia. }
  destruct (Z.eqb_spec (status t) 2) as [E2|N2].
  { unfold atualizar_buffer_com_carinha. simpl.
    rewrite copiar_padrao_cheio by exact Lr. reflexivity. }
  destruct (Z.eqb_spec (status t) 3) as [E3|N3]; [|lia].
  unfold atualizar_buffer_com_carinha. simpl.
  rewrite copiar_padrao_cheio by exact Lr. reflexivity.
Qed.

Lemma matriz_do_treinamento_witness :
  leds_do_treinamento (treinamento (executar 4 (firstn 3 falha_e_limpeza) (sistema_inicial 0)))
    (repeat true 25)
  = Some (barra 2 25).
Proof.
  assert (E : status (treinamento
                (executar 4 (firstn 3 falha_e_limpeza) (sistema_inicial 0))) = 1)
    by (vm_compute; reflexivity).
  destruct (matriz_do_treinamento 4 0 (firstn 3 falha_e_limpeza) (repeat true 25) eq_refl)
    as (H & _).
  rewrite H. vm_compute. reflexivity.
Defined.

Lemma ate (k : nat) (n : nat) : (n <= k)%nat -> In n (seq 0 (S k)).
Proof. intros H. apply in_seq. lia. Qed.

(** X20. The matrix of the history mode.  Whenever the two conversions
    to [int] are defined, every write stays inside the buffer whatever
    the statistics hold: the first row is a bar of the attention count
    cut to 0..5, the second a bar of the relaxation count cut to 0..5,
    and the three last rows a bar of the sessions cut to 15, so sessions
    beyond the fifteenth are not shown. *)
Theorem matriz_do_historico :
  forall (st : Estatisticas) (buf : list bool) (medias : float * float)
         (leds_atencao leds_relaxamento : Z),
    length buf = 25%nat ->
    calcular_medias st = Some medias ->
    para_int (f32_mul (F32.div (fst medias) c100) c5) = Some leds_atencao ->
    para_int (f32_mul (F32.div (snd medias) c10) c5) = Some leds_relaxamento ->
    leds_do_historico st buf
    = Some (barra (Z.to_nat (Z.min leds_atencao 5)) 5
            ++ barra (Z.to_nat (Z.min leds_relaxamento 5)) 5
            ++ barra (Z.to_nat (Z.min (sessoes_concluidas st) 15)) 15).
Proof.
  intros st buf medias la lr H Hm Ha Hr.
  unfold leds_do_historico. rewrite Hm. cbn [bind].
  rewrite apagar_cheio by exact H. cbn [bind]. rewrite Ha. cbn [bind].
  assert (E : (if 15 <? sessoes_concluidas st then 15 else sessoes_concluidas st)
              = Z.min (sessoes_concluidas st) 15).
  { destruct (Z.ltb_spec 15 (sessoes_concluidas st)); lia. }
  cbv zeta. rewrite E.
  assert (H1 := ate 5 (Z.to_nat (Z.min la 5)) ltac:(lia)).
  assert (H2 := ate 5 (Z.to_nat (Z.min lr 5)) ltac:(lia)).
  assert (H3 := ate 15 (Z.to_nat (Z.min (sessoes_concluidas st) 15)) ltac:(lia)).
  revert H1 H2 H3.
  generalize (Z.to_nat (Z.min (sessoes_concluidas st) 15)) as k3.
  generalize (Z.to_nat (Z.min la 5)) as k1.
  intros k1 k3 H1.
  simpl in H1.
  repeat (destruct H1 as [<- | H1]; [|]); [ .. | destruct H1];
    cbn [escrever_faixa bind]; cbv [escrever]; simpl; rewrite Hr; cbn [bind];
    generalize (Z.to_nat (Z.min lr 5)) as k2; intros k2 H2; simpl in H2;
    (repeat (destruct H2 as [<- | H2]; [|]); [ .. | destruct H2]);
    intros H3; simpl in H3;
    (repeat (destruct H3 as [<- | H3]; [|]); [ .. | destruct H3]);
    reflexivity.
Qed.

Lemma matriz_do_historico_witness :
  leds_do_historico quatro_amostras (repeat true 25)
  = Some (barra 3 5 ++ barra 1 5 ++ barra 3 15).
Proof.
  exact (matriz_do_historico quatro_amostras (repeat true 25)
           (F32.of_Z 60, F32.of_Z 3) 3 1 eq_refl eq_refl eq_refl eq_refl).
Defined.

(** ** What the matrix receives *)

Lemma nth_map_seq (f : nat -> Z) (n i : nat) :
  (i < n)%nat -> nth i (map f (seq 0 n)) 0 = f i.
Proof.
  intros H. rewrite (nth_indep _ 0 (f 0%nat)) by (rewrite length_map, length_seq; exact H).
  rewrite map_nth. rewrite seq_nth by exact H. reflexivity.
Qed.

Lemma palavra_nao_nula r g b :
  0 <= r < 256 -> 0 <= g < 256 -> 0 <= b < 256 -> 0 < r + g + b ->
  enviar_pixel (urgb_u32 r g b) <> 0.
Proof.
  intros Hr Hg Hb Hp E.
  assert (Bg : Z.testbit (enviar_pixel (urgb_u32 r g b)) = Z.testbit 0) by (rewrite E; reflexivity).
  assert (Nulo : forall x k, 0 <= x < 256 ->
            (forall m, 0 <= m < 8 ->
               Z.testbit (enviar_pixel (urgb_u32 r g b)) (m + k) = Z.testbit x m) ->
            x = 0).
  { intros x k Hx Hk. apply Z.bits_inj'. intros m Hm. rewrite Z.bits_0.
    destruct (Z.ltb_spec m 8) as [Hlt|Hge].
    - rewrite <- Hk by lia. rewrite Bg. apply Z.bits_0.
    - apply byte_bits; assumption. }
  assert (g = 0 /\ r = 0 /\ b = 0) as (Eg & Er & Eb).
  { repeat split;
      [apply (Nulo g 24 Hg) | apply (Nulo r 16 Hr) | apply (Nulo b 8 Hb)];
      intros m Hm; rewrite palavra_bits by (assumption || lia);
      repeat match goal with |- context [?a <? ?c] =>
               destruct (Z.ltb_spec a c); try lia end;
      try reflexivity; f_equal; lia. }
  lia.
Qed.

(** X21. What [definir_leds] sends shows the buffer and nothing else:
    for a colour that is not black it sends [NUM_PIXELS] words, the
    word of pixel [i] is the colour word when [buffer_leds[i]] is set
    and zero otherwise, and the two differ, so the buffer is read back
    from the words. *)
Theorem matriz_mostra_o_buffer :
  forall (r g b : Z) (buf : list bool),
    0 <= r < 256 -> 0 <= g < 256 -> 0 <= b < 256 -> 0 < r + g + b ->
    let palavras := definir_leds r g b buf in
    length palavras = Z.to_nat NUM_PIXELS
    /\ forall i : nat, (i < 25)%nat ->
         (nth i buf false = true -> nth i palavras 0 = enviar_pixel (urgb_u32 r g b))
         /\ (nth i buf false = false -> nth i palavras 0 = 0)
         /\ (nth i palavras 0 <> 0 <-> nth i buf false = true).
Proof.
  intros r g b buf Hr Hg Hb Hp palavras.
  assert (Hw := palavra_nao_nula r g b Hr Hg Hb Hp).
  split.
  { unfold palavras, definir_leds. rewrite length_map, length_seq. reflexivity. }
  intros i Hi. unfold palavras, definir_leds. cbv zeta.
  change (Z.to_nat NUM_PIXELS) with 25%nat.
  rewrite nth_map_seq by exact Hi.
  change (enviar_pixel 0) with 0.
  destruct (nth i buf false); repeat split; intros; try reflexivity;
    try discriminate; try assumption; try congruence.
Qed.

Lemma matriz_mostra_o_buffer_witness :
  length (definir_leds 20 20 50 (quadro padrao_ondas)) = Z.to_nat NUM_PIXELS
  /\ nth 2 (definir_leds 20 20 50 (quadro padrao_ondas)) 0 = enviar_pixel (urgb_u32 20 20 50).
Proof.
  destruct (matriz_mostra_o_buffer 20 20 50 (quadro padrao_ondas)
              ltac:(lia) ltac:(lia) ltac:(lia) ltac:(lia)) as (H1 & H2).
  split; [exact H1|].
  destruct (H2 2%nat ltac:(lia)) as (H3 & _). apply H3. reflexivity.
Defined.

(** ** The texts of the display *)

Section Comprimentos.
Import Ascii String.
Local Open Scope string_scope.
Local Open Scope Z_scope.

Lemma comprimento_soma (a b : string) :
  String.length (a ++ b) = (String.length a + String.length b)%nat.
Proof. induction a as [|c a IH]; simpl; [reflexivity | rewrite IH; reflexivity]. Qed.

Lemma potencia_sucessor (k : nat) : 10 ^ Z.of_nat (S k) = 10 * 10 ^ Z.of_nat k.
Proof. rewrite Nat2Z.inj_succ, Z.pow_succ_r by lia. reflexivity. Qed.

Ltac potencias :=
  repeat match goal with
         | |- context [10 ^ Z.of_nat ?k] =>
             let v := eval vm_compute in (10 ^ Z.of_nat k) in
             change (10 ^ Z.of_nat k) with v
         end.

Lemma decimal_ate (fuel : nat) :
  forall (k : nat) (n : Z),
    (1 <= k <= fuel)%nat -> 0 <= n < 10 ^ Z.of_nat k ->
    (String.length (decimal fuel n) <= k)%nat.
Proof.
  induction fuel as [|fuel IH]; intros k n Hk Hn; [lia|].
  cbn [decimal]. destruct (Z.ltb_spec n 10) as [Hlt|Hge]; [simpl; lia|].
  rewrite comprimento_soma. cbn [digito String.length].
  destruct k as [|k]; [lia|]. rewrite potencia_sucessor in Hn.
  destruct k as [|k]; [simpl in Hn; lia|].
  assert (H1 : (String.length (decimal fuel (n / 10)) <= S k)%nat).
  { apply IH; [lia|]. split; [apply Z.div_pos; lia|].
    apply Z.div_lt_upper_bound; lia. }
  lia.
Qed.

Lemma decimal_exato (fuel : nat) :
  forall (k : nat) (n : Z),
    (1 <= k <= fuel)%nat -> 10 ^ Z.of_nat k <= 10 * n < 10 * 10 ^ Z.of_nat k ->
    String.length (decimal fuel n) = k.
Proof.
  induction fuel as [|fuel IH]; intros k n Hk Hn; [lia|].
  cbn [decimal]. destruct k as [|k]; [lia|]. rewrite potencia_sucessor in Hn.
  destruct k as [|k].
  { change (10 ^ Z.of_nat 0) with 1 in Hn.
    destruct (Z.ltb_spec n 10); [reflexivity | lia]. }
  rewrite potencia_sucessor in Hn.
  assert (0 < 10 ^ Z.of_nat k) by (apply Z.pow_pos_nonneg; lia).
  destruct (Z.ltb_spec n 10) as [Hlt|Hge]; [nia|].
  rewrite comprimento_soma. cbn [digito String.length].
  rewrite (IH (S k) (n / 10)); [lia | lia |].
  rewrite potencia_sucessor.
  assert (Hd := Z.div_mod n 10 ltac:(lia)).
  assert (Hm := Z.mod_pos_bound n 10 ltac:(lia)).
  nia.
Qed.

Lemma formato_d_ate (k : nat) (n : Z) :
  (1 <= k <= 10)%nat -> 0 <= n < 10 ^ Z.of_nat k ->
  (String.length (formato_d n) <= k)%nat.
Proof.
  intros Hk Hn. unfold formato_d. destruct (Z.ltb_spec n 0); [lia|].
  apply decimal_ate; assumption.
Qed.

Lemma formato_d_int (n : Z) :
  - 2 ^ 31 <= n < 2 ^ 31 -> (String.length (formato_d n) <= 11)%nat.
Proof.
  intros Hn. unfold formato_d. destruct (Z.ltb_spec n 0).
  - rewrite comprimento_soma. cbn [String.length].
    assert ((String.length (decimal 10 (- n)) <= 10)%nat); [|lia].
    apply decimal_ate; [lia|]. change (10 ^ Z.of_nat 10) with 10000000000. lia.
  - assert ((String.length (decimal 10 n) <= 10)%nat); [|lia].
    apply decimal_ate; [lia|]. change (10 ^ Z.of_nat 10) with 10000000000. lia.
Qed.

Lemma como_int_faixa (x : Z) : - 2 ^ 31 <= como_int x < 2 ^ 31.
Proof.
  unfold como_int. assert (H := u32_faixa x).
  destruct (Z.ltb_spec (u32 x) (2 ^ 31)); lia.
Qed.

Lemma como_int_pequeno (x : Z) : 0 <= x < 2 ^ 31 -> como_int x = x.
Proof.
  intros H. unfold como_int. rewrite u32_pequeno by lia.
  destruct (Z.ltb_spec x (2 ^ 31)); lia.
Qed.

(** X22. The two formatted lines of the training display fit their
    32-byte buffers in every state the system reaches, whatever the
    clock reads: the objective is one of the three named ones (the
    12-letter default name is never printed), the level has at most two
    digits and the score at most three, which leaves room for the eleven
    characters an elapsed time can take under [%d]. *)
Theorem textos_do_treinamento_cabem :
  forall (fall us0 : Z) (evs : list Evento) (us : Z),
    let t := treinamento (executar fall evs (sistema_inicial us0)) in
    cabe (linha2_do_treinamento t)
    /\ cabe (linha3_do_treinamento us t)
    /\ objetivo_nome (objetivo t) <> "Desconhecido".
Proof.
  intros fall us0 evs us t.
  destruct (executar_sessao_regular fall us0 evs) as (Ho & Hs & Hp & Hn & Hm & _).
  fold t in Ho, Hs, Hp, Hn, Hm.
  assert (Hnome : (String.length (objetivo_nome (objetivo t)) <= 11)%nat
                  /\ objetivo_nome (objetivo t) <> "Desconhecido").
  { assert (Hc : objetivo t = 0 \/ objetivo t = 1 \/ objetivo t = 2) by lia.
    destruct Hc as [-> | [-> | ->]]; simpl; split; try lia; discriminate. }
  destruct Hnome as [Hlen Hneq].
  assert (Hniv := formato_d_ate 2 (nivel_atual t) ltac:(lia) ltac:(simpl; lia)).
  assert (Hmax : (String.length (formato_d (nivel_maximo t)) <= 2)%nat).
  { apply formato_d_ate; [lia|]. simpl. lia. }
  assert (Hpon : (String.length (formato_d (como_int (pontuacao t))) <= 3)%nat).
  { rewrite como_int_pequeno by lia. apply formato_d_ate; [lia|]. simpl. lia. }
  assert (Htem := formato_d_int _ (como_int_faixa (tempo_mostrado us t))).
  unfold cabe, linha2_do_treinamento, linha3_do_treinamento.
  rewrite !comprimento_soma. cbn [String.length].
  split; [lia|]. split; [lia | exact Hneq].
Qed.

(** X23. The default labels of the display are dead code: the name
    printed for the classifier's code is never "Desconhecido", whatever
    the reading and the thresholds, and in every state the system
    reaches the configuration display names one of the four thresholds,
    never "Parametro Desconhecido"; both lines fit their buffers. *)
Theorem rotulos_sempre_conhecidos :
  forall (fall us0 : Z) (evs : list Evento) (estado : EstadoCognitivo) (l : Limiares),
    let s := executar fall evs (sistema_inicial us0) in
    let codigo := determinar_estado_cognitivo estado l in
    nome_do_estado codigo <> "Desconhecido"
    /\ cabe (linha3_do_monitoramento codigo)
    /\ linha2_da_configuracao (current_param s) <> "Parametro Desconhecido"
    /\ cabe (linha2_da_configuracao (current_param s)).
Proof.
  intros fall us0 evs estado l s codigo.
  assert (Hc := classificador_em_0_5 estado l). fold codigo in Hc.
  destruct (executar_menu_regular fall us0 evs) as (_ & Hp & _). fold s in Hp.
  assert (Hq : In (current_param s) [0; 1; 2; 3]).
  { assert (Hq := um_de 0 4 (current_param s) ltac:(simpl; lia)). exact Hq. }
  unfold cabe, linha3_do_monitoramento. simpl in Hc, Hq.
  repeat split.
  - repeat (destruct Hc as [<- | Hc]; [discriminate|]). destruct Hc.
  - repeat (destruct Hc as [<- | Hc]; [simpl; lia|]). destruct Hc.
  - repeat (destruct Hq as [<- | Hq]; [discriminate|]). destruct Hq.
  - repeat (destruct Hq as [<- | Hq]; [simpl; lia|]). destruct Hq.
Qed.

Lemma decimal_S (k : nat) (n : Z) :
  decimal (S k) n = if n <? 10 then digito n else decimal k (n / 10) ++ digito (n mod 10).
Proof. reflexivity. Qed.

Lemma decimal_nao_vazio (k : nat) (n : Z) :
  (1 <= String.length (decimal (S k) n))%nat.
Proof.
  cbn [decimal]. destruct (n <? 10); [simpl; lia|].
  rewrite comprimento_soma. cbn [digito String.length]. lia.
Qed.

Lemma formato_02d_ate (k : nat) (n : Z) :
  (2 <= k <= 10)%nat -> 0 <= n < 10 ^ Z.of_nat k ->
  (2 <= String.length (formato_02d n) <= k)%nat.
Proof.
  intros Hk Hn. unfold formato_02d, formato_d.
  destruct (Z.ltb_spec n 0); [lia|].
  destruct (Z.leb_spec 0 n); [|lia].
  destruct (Z.ltb_spec n 10) as [Hlt|Hge]; cbn [andb].
  - cbn [decimal]. destruct (Z.ltb_spec n 10); [|lia]. simpl. lia.
  - split; [|apply decimal_ate; [lia | assumption]].
    rewrite (decimal_S 9 n). destruct (Z.ltb_spec n 10); [lia|].
    rewrite comprimento_soma. cbn [digito String.length].
    assert (Hl := decimal_nao_vazio 8 (n / 10)). lia.
Qed.

(** X24. The third line of the history display has at most 32
    characters, and it has 32, one more than its buffer holds beside the
    terminator, exactly when the session counter has three digits and
    the elapsed time eight digits of minutes (a start second ahead of a
    wrapped clock); in all other cases the line fits. *)
Theorem linha_do_historico :
  forall (us : Z) (st : Estatisticas),
    0 <= sessoes_concluidas st < 256 ->
    let tempo_total := u32 (seg us - tempo_inicio st) in
    let texto := linha3_do_historico us st in
    (String.length texto <= 32)%nat
    /\ (cabe texto <-> sessoes_concluidas st < 100 \/ tempo_total < 600000000).
Proof.
  intros us st Hs tempo_total texto.
  assert (Ht := u32_faixa (seg us - tempo_inicio st)). fold tempo_total in Ht.
  change (2 ^ 32) with 4294967296 in Ht.
  assert (Hmin : 0 <= tempo_total / 60 < 71582789).
  { split; [apply Z.div_pos; lia | apply Z.div_lt_upper_bound; lia]. }
  assert (Hseg := Z.mod_pos_bound tempo_total 60 ltac:(lia)).
  unfold cabe, texto, linha3_do_historico. cbv zeta. fold tempo_total.
  rewrite !comprimento_soma. cbn [String.length].
  rewrite !como_int_pequeno by (change (2 ^ 31) with 2147483648; lia).
  assert (Hc := formato_02d_ate 2 (tempo_total mod 60) ltac:(lia) ltac:(potencias; lia)).
  assert (Ha : (String.length (formato_d (sessoes_concluidas st)) <= 3)%nat
               /\ (sessoes_concluidas st < 100 ->
                   (String.length (formato_d (sessoes_concluidas st)) <= 2)%nat)
               /\ (100 <= sessoes_concluidas st ->
                   String.length (formato_d (sessoes_concluidas st)) = 3%nat)).
  { split; [apply formato_d_ate; [lia | potencias; lia]|]. split; intros H.
    - apply formato_d_ate; [lia | potencias; lia].
    - unfold formato_d. destruct (Z.ltb_spec (sessoes_concluidas st) 0); [lia|].
      apply decimal_exato; [lia | potencias; lia]. }
  assert (Hb : (String.length (formato_02d (tempo_total / 60)) <= 8)%nat
               /\ (tempo_total < 600000000 ->
                   (String.length (formato_02d (tempo_total / 60)) <= 7)%nat)
               /\ (600000000 <= tempo_total ->
                   String.length (formato_02d (tempo_total / 60)) = 8%nat)).
  { split; [apply formato_02d_ate; [lia | potencias; lia]|]. split; intros H.
    - apply formato_02d_ate; [lia|]. potencias.
      split; [lia | apply Z.div_lt_upper_bound; lia].
    - assert (10000000 <= tempo_total / 60) by (apply Z.div_le_lower_bound; lia).
      unfold formato_02d, formato_d.
      destruct (Z.ltb_spec (tempo_total / 60) 0); [lia|].
      destruct (Z.ltb_spec (tempo_total / 60) 10); [lia|]. rewrite andb_false_r.
      apply decimal_exato; [lia | potencias; lia]. }
  destruct Ha as (Ha1 & Ha2 & Ha3), Hb as (Hb1 & Hb2 & Hb3).
  split; [lia|]. split.
  - intros Hl. destruct (Z.lt_ge_cases (sessoes_concluidas st) 100) as [|H100]; [left; assumption|].
    destruct (Z.lt_ge_cases tempo_total 600000000) as [|H6]; [right; assumption|].
    specialize (Ha3 H100). specialize (Hb3 H6). lia.
  - intros [H|H]; [specialize (Ha2 H) | specialize (Hb2 H)]; lia.
Qed.

Lemma linha_do_historico_witness :
  (String.length (linha3_do_historico 10000000 cem_sessoes) <= 32)%nat
  /\ (cabe (linha3_do_historico 10000000 cem_sessoes)
      <-> sessoes_concluidas cem_sessoes < 100
          \/ u32 (seg 10000000 - tempo_inicio cem_sessoes) < 600000000).
Proof.
  apply (linha_do_historico 10000000 cem_sessoes). simpl. lia.
Defined.

End Comprimentos.

